(** * AlpacaTradingBot: the real-time signal / update pipeline

    A shallow embedding of the server side of the trading bot
    ([server/routes.ts], [server/storage.ts], [server/strategies.ts],
    [server/alpaca.ts], [server/reinforcementLearning/*]) and the proofs of
    the properties its specification states about it.

    Conventions of the embedding.
    - A JavaScript [number] that carries a price, a quantity or a confidence
      is an IEEE-754 binary64 value: Rocq's primitive [float], whose
      operations are the ones the JavaScript engine performs.  Counters,
      identifiers and lengths are [nat]; timestamps, periods and intervals
      are [Z].
    - The numeric columns of the store are decimal strings in the source
      ([x.toString()] on write, [parseFloat] on read).  A field is modelled
      by the number its string denotes: what was written, up to the sign of
      zero, which [toString] drops.
    - A template string is kept as the list of its pieces ([Text]); the final
      rendering of numbers ([toFixed], [toString]) is not modelled.
    - [async] functions are run to completion: an [await] on the in-memory
      store is sequencing.  Calls that reach outside the process (the broker's
      HTTP API, the neural network, socket states, the clock) are answered by
      an environment [Env].
    - Effects are explicit: a computation [M A] reads the environment,
      transforms the server state [St], may throw, and emits the list of the
      outward calls it made ([Event]). *)

From Stdlib Require Import Floats ZArith Uint63 Ascii String List Lia.
From stdpp Require Import base option list gmap strings pretty.

Set Warnings "-inexact-float".

(* ===================================================================== *)
(** * Part I.  The embedding                                              *)
(* ===================================================================== *)

(** ** JavaScript numbers *)

Module JS.
Local Open Scope float_scope.

(** The [number] of a length or a counter. *)
Definition of_nat (n : nat) : float := PrimFloat.of_uint63 (Uint63.of_Z (Z.of_nat n)).

(** [undefined] coerced by an arithmetic operator or a comparison. *)
Definition undefined : float := PrimFloat.nan.

Definition is_negative_zero (x : float) : bool :=
  match PrimFloat.classify x with NZero => true | _ => false end.

(** [Math.min(x, y)]: NaN if either is NaN, and -0 below +0. *)
Definition Math_min (x y : float) : float :=
  if PrimFloat.is_nan x || PrimFloat.is_nan y then PrimFloat.nan
  else if x <? y then x
  else if y <? x then y
  else if is_negative_zero x then x else y.

(** [x.toString()], as the number [parseFloat] reads back from the string:
    [x] itself, except that the string of -0 is ["0"]. *)
Definition toString (x : float) : float := if is_negative_zero x then 0 else x.

Definition Math_abs (x : float) : float := PrimFloat.abs x.
Definition Math_sqrt (x : float) : float := PrimFloat.sqrt x.

(** [Math.pow(x, 2)]. *)
Definition Math_pow2 (x : float) : float := x * x.

(** [Math.floor]: the largest integer not above [x]; NaN, the infinities
    and the zeros are returned as they are. *)
Definition Math_floor (x : float) : float :=
  match Prim2SF x with
  | S754_finite s m e =>
      if (0 <=? e)%Z then x
      else
        let d := (2 ^ (- e))%Z in
        let q := (Z.pos m / d)%Z in
        let r := (Z.pos m mod d)%Z in
        if s then
          - PrimFloat.of_uint63 (Uint63.of_Z (if (r =? 0)%Z then q else q + 1))
        else PrimFloat.of_uint63 (Uint63.of_Z q)
  | _ => x
  end.

(** [array[i]] read as a number: [undefined] (NaN in arithmetic) outside
    the array. *)
Definition at_index (l : list float) (i : Z) : float :=
  if (i <? 0)%Z then undefined else nth (Z.to_nat i) l undefined.

(** [array.slice(-n)] for [n >= 0]: the last [n] elements, and the whole
    array for [n = 0] (as [-0] is [0]). *)
Definition slice_last {A} (n : nat) (l : list A) : list A :=
  if Nat.eqb n 0 then l else skipn (length l - n) l.
End JS.

(** ** Template strings *)

Inductive Piece :=
| Lit (s : string)              (* literal text or an interpolated string *)
| Num (x : float)               (* ${x} *)
| Fixed (digits : nat) (x : float). (* ${x.toFixed(digits)} *)

Definition Text := list Piece.

(** A thrown [Error], by its [message], the text the handlers put into
    their logs; the class of the error ([TypeError], ...) is not kept. *)
Definition Error := string.

(** ** The data model ([shared/schema.ts]) *)

Inductive Action := buy | sell | hold.

Definition Action_eqb (a b : Action) : bool :=
  match a, b with
  | buy, buy | sell, sell | hold, hold => true
  | _, _ => false
  end.

Definition Action_to_string (a : Action) : string :=
  match a with buy => "buy" | sell => "sell" | hold => "hold" end.

(** [side.toUpperCase()] *)
Definition Action_toUpperCase (a : Action) : string :=
  match a with buy => "BUY" | sell => "SELL" | hold => "HOLD" end.

Inductive LogLevel := INFO | TRADE | SIGNAL | ERROR | WARNING.

Module MarketData.
Record t := mk {
  symbol : string;
  price : float;
  timestamp : Z;
  change : float;
  changePercent : float }.
End MarketData.

Module StrategySignal.
Record t := mk {
  symbol : string;
  action : Action;
  confidence : float;
  timestamp : Z }.
End StrategySignal.

Module OrderRequest.
Record t := mk {
  symbol : string;
  qty : float;
  side : Action;
  type : string;
  time_in_force : string }.
End OrderRequest.

Module OrderResponse.
Record t := mk {
  id : string;
  symbol : string;
  side : Action;
  type : string;
  qty : float;
  filled_qty : float;
  status : string }.
End OrderResponse.

Module AccountInfo.
Record t := mk {
  id : string;
  cash : float;
  portfolio_value : float;
  buying_power : float;
  equity : float;
  status : string }.
End AccountInfo.

Module ApiKey.
Record t := mk {
  id : nat;
  userId : nat;
  alpacaApiKey : string;
  alpacaSecretKey : string;
  environment : string;
  createdAt : Z }.

(** [InsertApiKey] *)
Record insert := mkInsert {
  i_userId : nat;
  i_alpacaApiKey : string;
  i_alpacaSecretKey : string;
  i_environment : string }.

(** [Partial<InsertApiKey>] *)
Record partial := mkPartial {
  p_userId : option nat;
  p_alpacaApiKey : option string;
  p_alpacaSecretKey : option string;
  p_environment : option string }.

(** [{ ...existing, ...patch }] *)
Definition spread (existing : t) (patch : partial) : t :=
  {| id := id existing;
     userId := default (userId existing) (p_userId patch);
     alpacaApiKey := default (alpacaApiKey existing) (p_alpacaApiKey patch);
     alpacaSecretKey := default (alpacaSecretKey existing) (p_alpacaSecretKey patch);
     environment := default (environment existing) (p_environment patch);
     createdAt := createdAt existing |}.
End ApiKey.

Module BotSettings.
Record t := mk {
  id : nat;
  userId : nat;
  isActive : bool;
  strategy : string;
  riskLevel : Z;
  tradingFrequency : string;
  updatedAt : Z }.

(** [Partial<InsertBotSettings>] *)
Record partial := mkPartial {
  p_userId : option nat;
  p_isActive : option bool;
  p_strategy : option string;
  p_riskLevel : option Z;
  p_tradingFrequency : option string }.

Definition no_change : partial := mkPartial None None None None None.

(** [{ ...existing, ...patch, updatedAt: now }] *)
Definition spread (existing : t) (patch : partial) (now : Z) : t :=
  {| id := id existing;
     userId := default (userId existing) (p_userId patch);
     isActive := default (isActive existing) (p_isActive patch);
     strategy := default (strategy existing) (p_strategy patch);
     riskLevel := default (riskLevel existing) (p_riskLevel patch);
     tradingFrequency := default (tradingFrequency existing) (p_tradingFrequency patch);
     updatedAt := now |}.

(** [InsertBotSettings] *)
Record insert := mkInsert {
  i_userId : nat;
  i_isActive : bool;
  i_strategy : string;
  i_riskLevel : Z;
  i_tradingFrequency : string }.
End BotSettings.

Module Position.
Record t := mk {
  id : nat;
  userId : nat;
  symbol : string;
  qty : float;
  entryPrice : float;
  currentPrice : float;
  marketValue : float;
  unrealizedPl : float;
  unrealizedPlPerc : float;
  updatedAt : Z }.

(** [Partial<InsertPosition>] *)
Record partial := mkPartial {
  p_userId : option nat;
  p_symbol : option string;
  p_qty : option float;
  p_entryPrice : option float;
  p_currentPrice : option float;
  p_marketValue : option float;
  p_unrealizedPl : option float;
  p_unrealizedPlPerc : option float }.

(** [{ ...existing, ...patch, updatedAt: now }] *)
Definition spread (existing : t) (patch : partial) (now : Z) : t :=
  {| id := id existing;
     userId := default (userId existing) (p_userId patch);
     symbol := default (symbol existing) (p_symbol patch);
     qty := default (qty existing) (p_qty patch);
     entryPrice := default (entryPrice existing) (p_entryPrice patch);
     currentPrice := default (currentPrice existing) (p_currentPrice patch);
     marketValue := default (marketValue existing) (p_marketValue patch);
     unrealizedPl := default (unrealizedPl existing) (p_unrealizedPl patch);
     unrealizedPlPerc := default (unrealizedPlPerc existing) (p_unrealizedPlPerc patch);
     updatedAt := now |}.

(** [InsertPosition] *)
Record insert := mkInsert {
  i_userId : nat;
  i_symbol : string;
  i_qty : float;
  i_entryPrice : float;
  i_currentPrice : float;
  i_marketValue : float;
  i_unrealizedPl : float;
  i_unrealizedPlPerc : float }.
End Position.

Module Trade.
Record insert := mkInsert {
  i_userId : nat;
  i_symbol : string;
  i_side : Action;
  i_qty : float;
  i_price : float;
  i_orderType : string;
  i_status : string }.

Record t := mk {
  id : nat;
  userId : nat;
  symbol : string;
  side : Action;
  qty : float;
  price : float;
  orderType : string;
  status : string;
  timestamp : Z }.
End Trade.

Module PerformanceMetrics.
Record t := mk {
  id : nat;
  userId : nat;
  portfolioValue : float;
  portfolioChange : float;
  portfolioChangePerc : float;
  buyingPower : float;
  sharpeRatio : float;
  winLossRatio : float;
  totalTrades : Z;
  profitableTrades : Z;
  profitableTradesPerc : float;
  avgHoldingTime : float;
  updatedAt : Z }.

(** [Partial<InsertPerformanceMetrics>], with the fields the server sets. *)
Record partial := mkPartial {
  p_portfolioValue : option float;
  p_portfolioChange : option float;
  p_portfolioChangePerc : option float;
  p_buyingPower : option float }.

Definition spread (existing : t) (patch : partial) (now : Z) : t :=
  {| id := id existing;
     userId := userId existing;
     portfolioValue := default (portfolioValue existing) (p_portfolioValue patch);
     portfolioChange := default (portfolioChange existing) (p_portfolioChange patch);
     portfolioChangePerc := default (portfolioChangePerc existing) (p_portfolioChangePerc patch);
     buyingPower := default (buyingPower existing) (p_buyingPower patch);
     sharpeRatio := sharpeRatio existing;
     winLossRatio := winLossRatio existing;
     totalTrades := totalTrades existing;
     profitableTrades := profitableTrades existing;
     profitableTradesPerc := profitableTradesPerc existing;
     avgHoldingTime := avgHoldingTime existing;
     updatedAt := now |}.

(** [InsertPerformanceMetrics] *)
Record insert := mkInsert {
  i_userId : nat;
  i_portfolioValue : float;
  i_portfolioChange : float;
  i_portfolioChangePerc : float;
  i_buyingPower : float;
  i_sharpeRatio : float;
  i_winLossRatio : float;
  i_totalTrades : Z;
  i_profitableTrades : Z;
  i_profitableTradesPerc : float;
  i_avgHoldingTime : float }.
End PerformanceMetrics.

Module SystemLog.
Record insert := mkInsert {
  i_userId : nat;
  i_level : LogLevel;
  i_message : Text }.

Record t := mk {
  id : nat;
  userId : nat;
  level : LogLevel;
  message : Text;
  timestamp : Z }.
End SystemLog.

(** ** [Map<number, V>]: a JavaScript map, in insertion order *)

Section OrderedMap.
Context {V : Type}.

Definition Map := list (nat * V).

Fixpoint Map_get (k : nat) (m : Map) : option V :=
  match m with
  | [] => None
  | (k', v) :: rest => if Nat.eqb k k' then Some v else Map_get k rest
  end.

(** [set] keeps the position of a key that is already present and appends
    a new one. *)
Fixpoint Map_set (k : nat) (v : V) (m : Map) : Map :=
  match m with
  | [] => [(k, v)]
  | (k', v') :: rest =>
      if Nat.eqb k k' then (k, v) :: rest else (k', v') :: Map_set k v rest
  end.

(** [Array.from(m.values())] *)
Definition Map_values (m : Map) : list V := map snd m.
End OrderedMap.

Arguments Map : clear implicits.

(** [m.delete(k)]: the other entries keep their order. *)
Definition Map_delete {V} (k : nat) (m : Map V) : Map V :=
  List.filter (fun entry => negb (Nat.eqb k (fst entry))) m.

(** [m.has(k)] *)
Definition Map_has {V} (k : nat) (m : Map V) : bool :=
  existsb (fun entry => Nat.eqb k (fst entry)) m.

(** [array.find(pred)] *)
Definition Array_find {A} (pred : A -> bool) (l : list A) : option A :=
  List.find pred l.

(** [array.filter(pred)] with a boolean predicate *)
Definition Array_filter {A} (pred : A -> bool) (l : list A) : list A :=
  List.filter pred l.

(** [array.sort((a, b) => key(b) - key(a))]: a stable sort, largest key
    first. *)
Section SortDescending.
Context {A : Type} (key : A -> Z).

Fixpoint insert_descending (x : A) (sorted : list A) : list A :=
  match sorted with
  | [] => [x]
  | y :: rest =>
      if (key y <=? key x)%Z then x :: sorted else y :: insert_descending x rest
  end.

Definition sort_descending (l : list A) : list A :=
  fold_right insert_descending [] l.
End SortDescending.

(** [limit ? l.slice(0, limit) : l] for a whole number [limit].  The limits
    that are absent or not a number are falsy like 0, which stands for them;
    a negative limit counts from the end: [slice(0, -n)] leaves the last [n]
    elements out. *)
Definition limited {A} (limit : Z) (l : list A) : list A :=
  if (limit =? 0)%Z then l
  else if (limit <? 0)%Z then take (Z.to_nat (Z.of_nat (length l) + limit)) l
  else take (Z.to_nat limit) l.

(** ** The in-memory store ([server/storage.ts], class [MemStorage]) *)

Module MemStorage.
Record ids := mkIds {
  n_apiKeys : nat;
  n_botSettings : nat;
  n_positions : nat;
  n_trades : nat;
  n_performanceMetrics : nat;
  n_systemLogs : nat }.

Record t := mk {
  apiKeys : Map ApiKey.t;
  botSettings : Map BotSettings.t;
  positions : Map Position.t;
  trades : Map Trade.t;
  performanceMetrics : Map PerformanceMetrics.t;
  systemLogs : Map SystemLog.t;
  nextId : ids }.

(** [new MemStorage()] *)
Definition empty : t :=
  mk [] [] [] [] [] [] (mkIds 1 1 1 1 1 1).

Definition getApiKeyByUserId (st : t) (userId : nat) : option ApiKey.t :=
  Array_find (fun k => Nat.eqb (ApiKey.userId k) userId) (Map_values (apiKeys st)).

Definition getBotSettingsByUserId (st : t) (userId : nat) : option BotSettings.t :=
  Array_find (fun b => Nat.eqb (BotSettings.userId b) userId) (Map_values (botSettings st)).

Definition updateBotSettings (now : Z) (st : t) (id : nat) (patch : BotSettings.partial)
  : option BotSettings.t * t :=
  match Map_get id (botSettings st) with
  | None => (None, st)
  | Some existing =>
      let updated := BotSettings.spread existing patch now in
      (Some updated,
       mk (apiKeys st) (Map_set id updated (botSettings st)) (positions st) (trades st)
          (performanceMetrics st) (systemLogs st) (nextId st))
  end.

Definition getPositionsByUserId (st : t) (userId : nat) : list Position.t :=
  Array_filter (fun p => Nat.eqb (Position.userId p) userId) (Map_values (positions st)).

Definition updatePosition (now : Z) (st : t) (id : nat) (patch : Position.partial)
  : option Position.t * t :=
  match Map_get id (positions st) with
  | None => (None, st)
  | Some existing =>
      let updated := Position.spread existing patch now in
      (Some updated,
       mk (apiKeys st) (botSettings st) (Map_set id updated (positions st)) (trades st)
          (performanceMetrics st) (systemLogs st) (nextId st))
  end.

Definition createTrade (now : Z) (st : t) (trade : Trade.insert) : Trade.t * t :=
  let id := n_trades (nextId st) in
  let n := nextId st in
  let newTrade :=
    Trade.mk id (Trade.i_userId trade) (Trade.i_symbol trade) (Trade.i_side trade)
      (Trade.i_qty trade) (Trade.i_price trade) (Trade.i_orderType trade)
      (Trade.i_status trade) now in
  (newTrade,
   mk (apiKeys st) (botSettings st) (positions st) (Map_set id newTrade (trades st))
      (performanceMetrics st) (systemLogs st)
      (mkIds (n_apiKeys n) (n_botSettings n) (n_positions n) (S (n_trades n))
         (n_performanceMetrics n) (n_systemLogs n))).

Definition getTradesByUserId (st : t) (userId : nat) (limit : Z) : list Trade.t :=
  limited limit
    (sort_descending Trade.timestamp
       (Array_filter (fun x => Nat.eqb (Trade.userId x) userId) (Map_values (trades st)))).

Definition getSystemLogsByUserId (st : t) (userId : nat) (limit : Z) : list SystemLog.t :=
  limited limit
    (sort_descending SystemLog.timestamp
       (Array_filter (fun x => Nat.eqb (SystemLog.userId x) userId)
          (Map_values (systemLogs st)))).

Definition getPerformanceMetricsByUserId (st : t) (userId : nat)
  : option PerformanceMetrics.t :=
  Array_find (fun m => Nat.eqb (PerformanceMetrics.userId m) userId)
    (Map_values (performanceMetrics st)).

Definition updatePerformanceMetrics (now : Z) (st : t) (id : nat)
    (patch : PerformanceMetrics.partial) : option PerformanceMetrics.t * t :=
  match Map_get id (performanceMetrics st) with
  | None => (None, st)
  | Some existing =>
      let updated := PerformanceMetrics.spread existing patch now in
      (Some updated,
       mk (apiKeys st) (botSettings st) (positions st) (trades st)
          (Map_set id updated (performanceMetrics st)) (systemLogs st) (nextId st))
  end.

Definition createSystemLog (now : Z) (st : t) (log : SystemLog.insert) : SystemLog.t * t :=
  let id := n_systemLogs (nextId st) in
  let n := nextId st in
  let newLog :=
    SystemLog.mk id (SystemLog.i_userId log) (SystemLog.i_level log)
      (SystemLog.i_message log) now in
  (newLog,
   mk (apiKeys st) (botSettings st) (positions st) (trades st)
      (performanceMetrics st) (Map_set id newLog (systemLogs st))
      (mkIds (n_apiKeys n) (n_botSettings n) (n_positions n) (n_trades n)
         (n_performanceMetrics n) (S (n_systemLogs n)))).

Definition createApiKey (now : Z) (st : t) (apiKey : ApiKey.insert) : ApiKey.t * t :=
  let id := n_apiKeys (nextId st) in
  let n := nextId st in
  let newApiKey :=
    ApiKey.mk id (ApiKey.i_userId apiKey) (ApiKey.i_alpacaApiKey apiKey)
      (ApiKey.i_alpacaSecretKey apiKey) (ApiKey.i_environment apiKey) now in
  (newApiKey,
   mk (Map_set id newApiKey (apiKeys st)) (botSettings st) (positions st) (trades st)
      (performanceMetrics st) (systemLogs st)
      (mkIds (S (n_apiKeys n)) (n_botSettings n) (n_positions n) (n_trades n)
         (n_performanceMetrics n) (n_systemLogs n))).

Definition updateApiKey (st : t) (id : nat) (patch : ApiKey.partial)
  : option ApiKey.t * t :=
  match Map_get id (apiKeys st) with
  | None => (None, st)
  | Some existing =>
      let updated := ApiKey.spread existing patch in
      (Some updated,
       mk (Map_set id updated (apiKeys st)) (botSettings st) (positions st) (trades st)
          (performanceMetrics st) (systemLogs st) (nextId st))
  end.

Definition createBotSettings (now : Z) (st : t) (settings : BotSettings.insert)
  : BotSettings.t * t :=
  let id := n_botSettings (nextId st) in
  let n := nextId st in
  let newBotSettings :=
    BotSettings.mk id (BotSettings.i_userId settings) (BotSettings.i_isActive settings)
      (BotSettings.i_strategy settings) (BotSettings.i_riskLevel settings)
      (BotSettings.i_tradingFrequency settings) now in
  (newBotSettings,
   mk (apiKeys st) (Map_set id newBotSettings (botSettings st)) (positions st) (trades st)
      (performanceMetrics st) (systemLogs st)
      (mkIds (n_apiKeys n) (S (n_botSettings n)) (n_positions n) (n_trades n)
         (n_performanceMetrics n) (n_systemLogs n))).

Definition getPositionBySymbol (st : t) (userId : nat) (symbol : string)
  : option Position.t :=
  Array_find
    (fun p => Nat.eqb (Position.userId p) userId && String.eqb (Position.symbol p) symbol)
    (Map_values (positions st)).

Definition createPosition (now : Z) (st : t) (position : Position.insert)
  : Position.t * t :=
  let id := n_positions (nextId st) in
  let n := nextId st in
  let newPosition :=
    Position.mk id (Position.i_userId position) (Position.i_symbol position)
      (Position.i_qty position) (Position.i_entryPrice position)
      (Position.i_currentPrice position) (Position.i_marketValue position)
      (Position.i_unrealizedPl position) (Position.i_unrealizedPlPerc position) now in
  (newPosition,
   mk (apiKeys st) (botSettings st) (Map_set id newPosition (positions st)) (trades st)
      (performanceMetrics st) (systemLogs st)
      (mkIds (n_apiKeys n) (n_botSettings n) (S (n_positions n)) (n_trades n)
         (n_performanceMetrics n) (n_systemLogs n))).

(** [deletePosition(id)]: whether there was such a position. *)
Definition deletePosition (st : t) (id : nat) : bool * t :=
  (Map_has id (positions st),
   mk (apiKeys st) (botSettings st) (Map_delete id (positions st)) (trades st)
      (performanceMetrics st) (systemLogs st) (nextId st)).

Definition createPerformanceMetrics (now : Z) (st : t)
    (metrics : PerformanceMetrics.insert) : PerformanceMetrics.t * t :=
  let id := n_performanceMetrics (nextId st) in
  let n := nextId st in
  let newMetrics :=
    PerformanceMetrics.mk id (PerformanceMetrics.i_userId metrics)
      (PerformanceMetrics.i_portfolioValue metrics)
      (PerformanceMetrics.i_portfolioChange metrics)
      (PerformanceMetrics.i_portfolioChangePerc metrics)
      (PerformanceMetrics.i_buyingPower metrics)
      (PerformanceMetrics.i_sharpeRatio metrics)
      (PerformanceMetrics.i_winLossRatio metrics)
      (PerformanceMetrics.i_totalTrades metrics)
      (PerformanceMetrics.i_profitableTrades metrics)
      (PerformanceMetrics.i_profitableTradesPerc metrics)
      (PerformanceMetrics.i_avgHoldingTime metrics) now in
  (newMetrics,
   mk (apiKeys st) (botSettings st) (positions st) (trades st)
      (Map_set id newMetrics (performanceMetrics st)) (systemLogs st)
      (mkIds (n_apiKeys n) (n_botSettings n) (n_positions n) (n_trades n)
         (S (n_performanceMetrics n)) (n_systemLogs n))).

(** [clearSystemLogs(userId)]: every log of the user is deleted. *)
Definition clearSystemLogs (st : t) (userId : nat) : bool * t :=
  let logsToDelete :=
    Array_filter (fun entry => Nat.eqb (SystemLog.userId (snd entry)) userId)
      (systemLogs st) in
  (true,
   mk (apiKeys st) (botSettings st) (positions st) (trades st) (performanceMetrics st)
      (fold_left (fun logs entry => Map_delete (fst entry) logs) logsToDelete
         (systemLogs st))
      (nextId st)).
End MemStorage.

(** ** Results of fallible code *)

Inductive Res (A : Type) :=
| Ok (a : A)
| Throw (e : Error).
Arguments Ok {A} a.
Arguments Throw {A} e.

(** The [TypeError] of reading a property of [undefined]. *)
Definition TypeError_price : Error :=
  "Cannot read properties of undefined (reading 'price')".

(** ** Strategies ([server/strategies.ts]) *)

(** The interface [TradingStrategy]: [analyze(symbol, data, historicalData?)]
    and [getName()].  [now] is the value [Date.now()] returns. *)
Class TradingStrategy (T : Type) := {
  analyze : T -> Z -> string -> list MarketData.t -> option (list MarketData.t)
            -> Res StrategySignal.t;
  getName : T -> string }.

(** The signal every strategy returns when it cannot decide. *)
Definition hold_signal (now : Z) (symbol : string) : StrategySignal.t :=
  StrategySignal.mk symbol hold 0%float now.

Module MeanReversionStrategy.
Local Open Scope float_scope.

Record t := mk {
  lookbackPeriod : Z;
  standardDeviations : float;
  trendFilter : bool }.

(** [constructor(lookbackPeriod = 14, standardDeviations = 2.0, trendFilter = true)] *)
Definition new : t := mk 14 2.0 true.

Definition analyze (self : t) (now : Z) (symbol : string)
    (data : list MarketData.t) (historicalData : option (list MarketData.t))
  : Res StrategySignal.t :=
  match historicalData with
  | None => Ok (hold_signal now symbol)
  | Some historicalData =>
      if (Z.of_nat (length historicalData) <? lookbackPeriod self)%Z
      then Ok (hold_signal now symbol)
      else
        let prices := map MarketData.price historicalData in
        let mean := fold_left (fun sum price => sum + price) prices 0
                    / JS.of_nat (length prices) in
        let variance :=
          fold_left (fun sum price => sum + JS.Math_pow2 (price - mean)) prices 0
          / JS.of_nat (length prices) in
        let stdDev := JS.Math_sqrt variance in
        match last data with
        | None => Throw TypeError_price
        | Some current =>
            let currentPrice := MarketData.price current in
            let upperBound := mean + standardDeviations self * stdDev in
            let lowerBound := mean - standardDeviations self * stdDev in
            let '(action, confidence) :=
              if currentPrice <? lowerBound then
                (buy,
                 JS.Math_min
                   (JS.Math_abs ((currentPrice - lowerBound) / (mean - lowerBound))) 1
                 * 100)
              else if upperBound <? currentPrice then
                (sell,
                 JS.Math_min
                   (JS.Math_abs ((currentPrice - upperBound) / (upperBound - mean))) 1
                 * 100)
              else (hold, 0) in
            let '(action, confidence) :=
              if trendFilter self && negb (Action_eqb action hold) then
                let recentPrices := JS.slice_last 3 prices in
                let isUptrend :=
                  JS.at_index recentPrices 0 <? JS.at_index recentPrices 2 in
                if (Action_eqb action buy && negb isUptrend)
                   || (Action_eqb action sell && isUptrend)
                then (hold, 0)
                else (action, confidence)
              else (action, confidence) in
            Ok (StrategySignal.mk symbol action confidence now)
        end
  end.

Definition getName (self : t) : string := "Mean Reversion".
End MeanReversionStrategy.

Module MomentumStrategy.
Local Open Scope float_scope.

Record t := mk {
  lookbackPeriod : Z;
  threshold : float }.

(** [constructor(lookbackPeriod = 10, threshold = 0.03)] *)
Definition new : t := mk 10 0.03.

Definition analyze (self : t) (now : Z) (symbol : string)
    (data : list MarketData.t) (historicalData : option (list MarketData.t))
  : Res StrategySignal.t :=
  match historicalData with
  | None => Ok (hold_signal now symbol)
  | Some historicalData =>
      if (Z.of_nat (length historicalData) <? lookbackPeriod self)%Z
      then Ok (hold_signal now symbol)
      else
        match last data with
        | None => Throw TypeError_price
        | Some current =>
            let currentPrice := MarketData.price current in
            let index := (Z.of_nat (length historicalData) - lookbackPeriod self)%Z in
            match historicalData !! Z.to_nat index with
            | None => Throw TypeError_price
            | Some past =>
                let pastPrice := MarketData.price past in
                let momentumChange := (currentPrice - pastPrice) / pastPrice in
                let '(action, confidence) :=
                  if threshold self <? momentumChange then
                    (buy, JS.Math_min (momentumChange / (threshold self * 2)) 1 * 100)
                  else if momentumChange <? - threshold self then
                    (sell,
                     JS.Math_min (JS.Math_abs momentumChange / (threshold self * 2)) 1
                     * 100)
                  else (hold, 0) in
                Ok (StrategySignal.mk symbol action confidence now)
            end
        end
  end.

Definition getName (self : t) : string := "Momentum".
End MomentumStrategy.

Module PPOStrategy.
Local Open Scope float_scope.

Record t := mk {
  fastPeriod : Z;
  slowPeriod : Z;
  signalPeriod : Z;
  buyThreshold : float;
  sellThreshold : float }.

(** [constructor(fastPeriod = 12, slowPeriod = 26, signalPeriod = 9,
                 buyThreshold = 0.2, sellThreshold = -0.2)] *)
Definition new : t := mk 12 26 9 0.2 (-0.2).

Definition number_of_Z (z : Z) : float :=
  if (z <? 0)%Z then - JS.of_nat (Z.to_nat (- z)) else JS.of_nat (Z.to_nat z).

(** Exponential moving average; a read outside [prices] is [undefined]. *)
Definition calculateEMA (prices : list float) (period : Z) : list float :=
  let multiplier := 2 / (number_of_Z period + 1) in
  let sum := fold_left (fun sum i => sum + JS.at_index prices i) (seqZ 0 period) 0 in
  fold_left
    (fun ema i =>
       let previous := List.last ema JS.undefined in
       ema ++ [(JS.at_index prices i - previous) * multiplier + previous])
    (seqZ period (Z.of_nat (length prices) - period))
    [sum / number_of_Z period].

Definition requiredDataPoints (self : t) : Z :=
  (Z.max (Z.max (fastPeriod self) (slowPeriod self)) (signalPeriod self) * 2)%Z.

Definition analyze (self : t) (now : Z) (symbol : string)
    (data : list MarketData.t) (historicalData : option (list MarketData.t))
  : Res StrategySignal.t :=
  match historicalData with
  | None => Ok (hold_signal now symbol)
  | Some historicalData =>
      if (Z.of_nat (length historicalData) <? requiredDataPoints self)%Z
      then Ok (hold_signal now symbol)
      else
        let prices := map MarketData.price historicalData ++ map MarketData.price data in
        let fastEMA := calculateEMA prices (fastPeriod self) in
        let slowEMA := calculateEMA prices (slowPeriod self) in
        let ppoLine := zip_with (fun f s => ((f - s) / s) * 100) fastEMA slowEMA in
        let signalLine := calculateEMA ppoLine (signalPeriod self) in
        let histogram := zip_with (fun p s => p - s) ppoLine signalLine in
        let lastHistogram := JS.at_index histogram (Z.of_nat (length histogram) - 1) in
        let prevHistogram := JS.at_index histogram (Z.of_nat (length histogram) - 2) in
        let '(action, confidence) :=
          if (buyThreshold self <? lastHistogram) && (prevHistogram <=? buyThreshold self)
          then (buy, JS.Math_min (lastHistogram / (buyThreshold self * 2)) 1 * 100)
          else if (lastHistogram <? sellThreshold self)
                  && (sellThreshold self <=? prevHistogram)
          then (sell,
                JS.Math_min
                  (JS.Math_abs lastHistogram / (JS.Math_abs (sellThreshold self) * 2)) 1
                * 100)
          else (hold, 0) in
        Ok (StrategySignal.mk symbol action confidence now)
  end.

Definition getName (self : t) : string := "PPO (Percentage Price Oscillator)".
End PPOStrategy.

(** The placeholder learning strategy of [strategies.ts] (the pipeline uses
    the one of [reinforcementLearning/] instead, see [RL] below). *)
Module ReinforcementLearningStrategy.
Local Open Scope float_scope.

Record t := mk { }.

Definition new : t := mk.

Definition analyze (self : t) (now : Z) (symbol : string)
    (data : list MarketData.t) (historicalData : option (list MarketData.t))
  : Res StrategySignal.t :=
  if (length data <? 2)%nat then Ok (hold_signal now symbol)
  else
    let prices := map MarketData.price data in
    let lastPrice := JS.at_index prices (Z.of_nat (length data) - 1) in
    let previousPrice := JS.at_index prices (Z.of_nat (length data) - 2) in
    let priceChange := (lastPrice - previousPrice) / previousPrice in
    let confidence := 50 in
    let action :=
      if 0.01 <? priceChange then buy
      else if priceChange <? -0.01 then sell
      else hold in
    Ok (StrategySignal.mk symbol action confidence now).

Definition getName (self : t) : string := "Reinforcement Learning".
End ReinforcementLearningStrategy.

#[export] Instance MeanReversion_strategy : TradingStrategy MeanReversionStrategy.t :=
  {| analyze := MeanReversionStrategy.analyze; getName := MeanReversionStrategy.getName |}.
#[export] Instance Momentum_strategy : TradingStrategy MomentumStrategy.t :=
  {| analyze := MomentumStrategy.analyze; getName := MomentumStrategy.getName |}.
#[export] Instance PPO_strategy : TradingStrategy PPOStrategy.t :=
  {| analyze := PPOStrategy.analyze; getName := PPOStrategy.getName |}.
#[export] Instance ReinforcementLearning_strategy
  : TradingStrategy ReinforcementLearningStrategy.t :=
  {| analyze := ReinforcementLearningStrategy.analyze;
     getName := ReinforcementLearningStrategy.getName |}.

(** A constructed strategy behind the interface. *)
Inductive Strategy :=
| Strategy_of {T : Type} `{TradingStrategy T} (self : T).

Definition Strategy_analyze (s : Strategy) :=
  match s with Strategy_of self => analyze self end.

Definition Strategy_getName (s : Strategy) : string :=
  match s with Strategy_of self => getName self end.

(** The factory [createStrategy(type)]; an unknown type gets the default. *)
Definition createStrategy (type : string) : Strategy :=
  if String.eqb type "mean_reversion" then Strategy_of MeanReversionStrategy.new
  else if String.eqb type "momentum" then Strategy_of MomentumStrategy.new
  else if String.eqb type "ppo" then Strategy_of PPOStrategy.new
  else if String.eqb type "reinforcement" then Strategy_of ReinforcementLearningStrategy.new
  else Strategy_of MeanReversionStrategy.new.

(** ** The broker client ([server/alpaca.ts]) *)

Module AlpacaClient.
(** [const ENABLE_TEST_MODE = false] *)
Definition ENABLE_TEST_MODE : bool := false.

Record t := mk {
  apiKey : string;
  secretKey : string;
  baseUrl : string;
  dataUrl : string;
  isTestMode : bool }.

(** [key === 'TEST_KEY' || key.startsWith('TEST_')] *)
Definition is_test_key (key : string) : bool :=
  String.eqb key "TEST_KEY" || String.prefix "TEST_" key.

Definition new (apiKey secretKey : string) (isPaper : bool) : t :=
  {| apiKey := apiKey;
     secretKey := secretKey;
     baseUrl := if isPaper then "https://paper-api.alpaca.markets/v2"
                else "https://api.alpaca.markets";
     dataUrl := "https://data.alpaca.markets";
     isTestMode := ENABLE_TEST_MODE && is_test_key apiKey |}.

(** [getMockData("/v2/orders", "POST", order)] *)
Definition mockOrder (now : Z) (order : OrderRequest.t) : OrderResponse.t :=
  {| OrderResponse.id := "mock-order-" +:+ pretty now;
     OrderResponse.symbol := OrderRequest.symbol order;
     OrderResponse.side := OrderRequest.side order;
     OrderResponse.type := OrderRequest.type order;
     OrderResponse.qty := OrderRequest.qty order;
     OrderResponse.filled_qty := 0%float;
     OrderResponse.status := "new" |}.
End AlpacaClient.

(** [getAlpacaClient(apiKey, secretKey, isPaper)]: a new client when both
    credentials are non-empty.  Otherwise the function reads
    [process.env.APCA-API-KEY], a subtraction that mentions the undeclared
    identifiers [API] and [KEY], and throws. *)
Definition getAlpacaClient (apiKey secretKey : string) (isPaper : bool)
  : Res AlpacaClient.t :=
  if negb (String.eqb apiKey EmptyString) && negb (String.eqb secretKey EmptyString)
  then Ok (AlpacaClient.new apiKey secretKey isPaper)
  else Throw "API is not defined".

(** ** Messages to the dashboard and outward calls *)

Inductive ServerMessage :=
| marketData_msg (data : MarketData.t)
| positionUpdate_msg (data : option Position.t)
| metricsUpdate_msg (data : PerformanceMetrics.t)
| strategySignal_msg (data : StrategySignal.t)
| orderUpdate_msg (data : OrderResponse.t)
| botStatus_msg (isActive : bool) (strategy : option string)
| initialData_msg (positions : list Position.t) (trades : list Trade.t)
    (metrics : option PerformanceMetrics.t) (logs : list SystemLog.t)
    (botSettings : option BotSettings.t) (hasApiKey : bool).

Inductive Event :=
| broadcastToUser_call (userId : nat) (msg : ServerMessage)
| socket_send (socket : nat) (msg : ServerMessage)
| alpaca_getAccount (client : AlpacaClient.t)
| alpaca_submitOrder (client : AlpacaClient.t) (orderRequest : OrderRequest.t)
| console (level : string) (text : string).

(** ** What the process does not decide *)

Record Env := mkEnv {
  (** [Date.now()] *)
  Date_now : Z;
  (** the broker's answer to [GET /v2/account] and [POST /v2/orders] *)
  http_getAccount : AlpacaClient.t -> Res AccountInfo.t;
  http_postOrder : AlpacaClient.t -> OrderRequest.t -> Res OrderResponse.t;
  (** [socket.readyState === WebSocket.OPEN] *)
  socket_open : nat -> bool;
  (** the saved model: absent, or the outcome of loading it *)
  model_file : option (Res unit);
  (** the Q-network on a state vector *)
  qNetwork_predict : list float -> Res (list float);
  (** [DataProcessor.calculateIndicators] *)
  calculateIndicators : list MarketData.t -> string -> Res (list (list float)) }.

(** ** The learned-model strategy
       ([server/reinforcementLearning/reinforcementLearningStrategy.ts]) *)

Module RL.
Local Open Scope float_scope.

Record t := mk {
  agent : bool;                       (* this.agent is not null *)
  env : bool;                         (* this.env is not null *)
  symbols : list string;
  alpacaClient : option AlpacaClient.t;
  modelLoaded : bool;
  historicalDataLength : nat;
  technicalIndicators : gmap string (list (list float));
  lastSignals : gmap string StrategySignal.t;
  marketData : gmap string (list MarketData.t);
  predictionConfidenceThreshold : float }.

Definition set_marketData (self : t) (m : gmap string (list MarketData.t)) : t :=
  mk (agent self) (env self) (symbols self) (alpacaClient self) (modelLoaded self)
     (historicalDataLength self) (technicalIndicators self) (lastSignals self) m
     (predictionConfidenceThreshold self).

Definition set_technicalIndicators (self : t) (i : gmap string (list (list float))) : t :=
  mk (agent self) (env self) (symbols self) (alpacaClient self) (modelLoaded self)
     (historicalDataLength self) i (lastSignals self) (marketData self)
     (predictionConfidenceThreshold self).

Definition set_lastSignals (self : t) (l : gmap string StrategySignal.t) : t :=
  mk (agent self) (env self) (symbols self) (alpacaClient self) (modelLoaded self)
     (historicalDataLength self) (technicalIndicators self) l (marketData self)
     (predictionConfidenceThreshold self).

Definition set_agent (self : t) (a : bool) : t :=
  mk a (env self) (symbols self) (alpacaClient self) (modelLoaded self)
     (historicalDataLength self) (technicalIndicators self) (lastSignals self)
     (marketData self) (predictionConfidenceThreshold self).

Definition set_modelLoaded (self : t) (b : bool) : t :=
  mk (agent self) (env self) (symbols self) (alpacaClient self) b
     (historicalDataLength self) (technicalIndicators self) (lastSignals self)
     (marketData self) (predictionConfidenceThreshold self).

(** [setAlpacaClient(client)] *)
Definition setAlpacaClient (self : t) (client : AlpacaClient.t) : t :=
  mk (agent self) (env self) (symbols self) (Some client) (modelLoaded self)
     (historicalDataLength self) (technicalIndicators self) (lastSignals self)
     (marketData self) (predictionConfidenceThreshold self).

(** [new ReinforcementLearningTradingStrategy(symbols, _, _, historicalDataLength)] *)
Definition new (symbols : list string) (historicalDataLength : nat) : t :=
  {| agent := false;
     env := true;
     symbols := symbols;
     alpacaClient := None;
     modelLoaded := false;
     historicalDataLength := historicalDataLength;
     technicalIndicators := list_to_map (map (fun s => (s, [])) symbols);
     lastSignals := ∅;
     marketData := list_to_map (map (fun s => (s, [])) symbols);
     predictionConfidenceThreshold := 0.3 |}.

(** [this.stateSize], which the constructor sets to
    [symbols.length * 10 + 1]: the width of the network's input. *)
Definition stateSize (self : t) : nat := length (symbols self) * 10 + 1.

(** [initializeAgent()] *)
Definition initializeAgent (self : t) : t :=
  if negb (env self) then self else set_agent self true.

(** [loadModel()] up to its [await]: the strategy then, whether the model
    file exists, and the console lines.  With the file the call waits for the
    agent to read it; without it the call is over and answers [false]. *)
Definition loadModel_call (e : Env) (self : t) : t * bool * list Event :=
  let self := if negb (agent self) then initializeAgent self else self in
  match model_file e with
  | Some _ => (self, true, [])
  | None =>
      (self, false, [console "log" "No pre-trained model found, using untrained model"])
  end.

(** [loadModel()] from its [await] on: the returned flag, the strategy
    afterwards and the console lines, those of [DQNAgent.loadModel], which
    reads the file, first.  Without an agent there was nothing to wait
    for. *)
Definition loadModel_resume (e : Env) (self : t) : bool * t * list Event :=
  let loaded lines :=
    (true, set_modelLoaded self true,
     lines ++ [console "log" "Reinforcement learning model loaded successfully"]) in
  if negb (agent self) then loaded []
  else
    match model_file e with
    | Some (Ok _) => loaded [console "log" "Model loaded successfully"]
    | _ =>
        (false, self,
         [console "error" "Failed to load model:";
          console "error" "Failed to load reinforcement learning model:";
          console "log" "No pre-trained model found, using untrained model"])
    end.

(** [loadModel()] from the call to the answer, with nothing in between. *)
Definition loadModel (e : Env) (self : t) : bool * t * list Event :=
  let '(self, waits, lines) := loadModel_call e self in
  if waits then
    let '(loaded, self, lines') := loadModel_resume e self in
    (loaded, self, lines ++ lines')
  else (false, self, lines).

Definition includes (symbol : string) (symbols : list string) : bool :=
  existsb (String.eqb symbol) symbols.

(** [updateMarketData(symbol, data)]; what it wrote before an exception
    stays written. *)
Definition updateMarketData (e : Env) (self : t) (symbol : string) (data : MarketData.t)
  : Res unit * t :=
  if negb (includes symbol (symbols self)) then (Ok tt, self)
  else
    match marketData self !! symbol with
    | None => (Throw "Cannot read properties of undefined (reading 'push')", self)
    | Some series =>
        let series := series ++ [data] in
        let series :=
          if (historicalDataLength self <? length series)%nat
          then JS.slice_last (historicalDataLength self) series
          else series in
        let self := set_marketData self (<[symbol := series]> (marketData self)) in
        if (30 <=? length series)%nat then
          match calculateIndicators e series symbol with
          | Ok indicators =>
              (Ok tt,
               set_technicalIndicators self
                 (<[symbol := indicators]> (technicalIndicators self)))
          | Throw err => (Throw err, self)
          end
        else (Ok tt, self)
    end.

(** [createState()], called once every symbol is known to have data. *)
Definition createState (self : t) : list float :=
  flat_map
    (fun symbol =>
       let data := default [] (marketData self !! symbol) in
       match last data with
       | None => []
       | Some current =>
           let indicators := default [] (technicalIndicators self !! symbol) in
           [MarketData.price current]
           ++ match last indicators with
              | Some latestIndicators => latestIndicators
              | None => replicate 8 0
              end
           ++ [0]
       end)
    (symbols self)
  ++ [1.0].

(** [actionToSignal(symbol, action)] *)
Definition actionToSignal (self : t) (now : Z) (symbol : string) (action : float)
  : StrategySignal.t :=
  let '(signalAction, confidence) :=
    if 0 <? action then (buy, action)
    else if action <? 0 then (sell, JS.Math_abs action)
    else (hold, 0.5) in
  let signalAction :=
    if confidence <? predictionConfidenceThreshold self then hold else signalAction in
  StrategySignal.mk symbol signalAction confidence now.

(** [symbols.indexOf(symbol)] *)
Fixpoint indexOf (symbol : string) (symbols : list string) : Z :=
  match symbols with
  | [] => -1
  | s :: rest =>
      if String.eqb s symbol then 0
      else let i := indexOf symbol rest in if (i <? 0)%Z then -1 else (i + 1)%Z
  end.

(** The loop [for (const sym of this.symbols)] of [generateSignal]:
    [Some false] at the first symbol with fewer than 30 points, [None] when
    a symbol has no series (reading [length] of [undefined] throws) and
    [Some true] when all have enough. *)
Fixpoint enoughData (marketData : gmap string (list MarketData.t))
    (symbols : list string) : option bool :=
  match symbols with
  | [] => Some true
  | sym :: rest =>
      match marketData !! sym with
      | None => None
      | Some series =>
          if (length series <? 30)%nat then Some false else enoughData marketData rest
      end
  end.

(** [generateSignal(symbol, data, historicalData)]: the signal, the strategy
    afterwards and the console lines.  The [try] of the source catches
    everything, so the function does not throw. *)
Definition generateSignal (e : Env) (self : t) (symbol : string)
    (data : list MarketData.t) (historicalData : option (list MarketData.t))
  : StrategySignal.t * t * list Event :=
  let now := Date_now e in
  if negb (modelLoaded self) || negb (agent self) || negb (env self)
     || (length data <? 30)%nat
  then (hold_signal now symbol, self, [])
  else
    let failed self :=
      (hold_signal now symbol, self, [console "error" "Error generating RL signal"]) in
    match last data with
    | None => failed self
    | Some latest =>
        match updateMarketData e self symbol latest with
        | (Throw _, self) => failed self
        | (Ok _, self) =>
            match enoughData (marketData self) (symbols self) with
            | None => failed self
            | Some false => (hold_signal now symbol, self, [])
            | Some true =>
                match qNetwork_predict e (createState self) with
                | Throw _ => failed self
                | Ok actions =>
                    let symbolIndex := indexOf symbol (symbols self) in
                    let action := JS.at_index actions symbolIndex in
                    let signal := actionToSignal self now symbol action in
                    (signal,
                     set_lastSignals self (<[symbol := signal]> (lastSignals self)),
                     [])
                end
            end
        end
    end.

(** [signalToOrder(signal, accountValue)] *)
Definition signalToOrder (self : t) (signal : StrategySignal.t) (accountValue : float)
  : Res (option OrderRequest.t) :=
  if Action_eqb (StrategySignal.action signal) hold
     || negb (bool_decide (is_Some (alpacaClient self)))
  then Ok None
  else
    let positionSize := accountValue * 0.1 * StrategySignal.confidence signal in
    match marketData self !! StrategySignal.symbol signal with
    | None => Throw "Cannot read properties of undefined (reading 'length')"
    | Some series =>
        let latestPrice :=
          match last series with
          | Some latest => MarketData.price latest
          | None => 0
          end in
        if latestPrice <=? 0 then Ok None
        else
          let quantity := positionSize / latestPrice in
          if quantity <? 0.001 then Ok None
          else
            Ok (Some
                  {| OrderRequest.symbol := StrategySignal.symbol signal;
                     OrderRequest.qty := JS.Math_floor (quantity * 1000) / 1000;
                     OrderRequest.side := StrategySignal.action signal;
                     OrderRequest.type := "market";
                     OrderRequest.time_in_force := "gtc" |})
    end.
End RL.

(** ** The server state *)

Module Timer.
(** What a live interval runs: the periodic bot update of [startTradingBot],
    or the mock market-data feed of a test-mode session. *)
Inductive callback :=
| botUpdate (userId : nat) (apiKey : ApiKey.t)
| mockFeed (userId : nat) (alpaca : AlpacaClient.t).

Record t := mk {
  run : callback;
  interval : Z }.
End Timer.

Record St := mkSt {
  (** [export const storage = new MemStorage()] *)
  storage : MemStorage.t;
  (** [const activeConnections: Map<number, WebSocket[]>] *)
  activeConnections : gmap nat (list nat);
  (** [const marketDataCache: Map<string, any>] *)
  marketDataCache : gmap string MarketData.t;
  (** [const activeBots: Map<number, NodeJS.Timeout>] *)
  activeBots : gmap nat nat;
  (** the intervals of the runtime that were set and not cleared *)
  timers : gmap nat Timer.t;
  nextTimer : nat;
  (** [let rlStrategy: ReinforcementLearningTradingStrategy | null] *)
  rlStrategy : option RL.t;
  (** per connection, its variable [let userId: number | null] *)
  session : gmap nat nat }.

Definition St_init : St := mkSt MemStorage.empty ∅ ∅ ∅ ∅ 0 None ∅.

Definition set_storage (f : MemStorage.t -> MemStorage.t) (s : St) : St :=
  mkSt (f (storage s)) (activeConnections s) (marketDataCache s) (activeBots s)
       (timers s) (nextTimer s) (rlStrategy s) (session s).
Definition set_activeConnections (f : gmap nat (list nat) -> gmap nat (list nat)) (s : St) : St :=
  mkSt (storage s) (f (activeConnections s)) (marketDataCache s) (activeBots s)
       (timers s) (nextTimer s) (rlStrategy s) (session s).
Definition set_marketDataCache (f : gmap string MarketData.t -> gmap string MarketData.t)
    (s : St) : St :=
  mkSt (storage s) (activeConnections s) (f (marketDataCache s)) (activeBots s)
       (timers s) (nextTimer s) (rlStrategy s) (session s).
Definition set_activeBots (f : gmap nat nat -> gmap nat nat) (s : St) : St :=
  mkSt (storage s) (activeConnections s) (marketDataCache s) (f (activeBots s))
       (timers s) (nextTimer s) (rlStrategy s) (session s).
Definition set_timers (f : gmap nat Timer.t -> gmap nat Timer.t) (n : nat) (s : St) : St :=
  mkSt (storage s) (activeConnections s) (marketDataCache s) (activeBots s)
       (f (timers s)) n (rlStrategy s) (session s).
Definition set_rlStrategy (r : option RL.t) (s : St) : St :=
  mkSt (storage s) (activeConnections s) (marketDataCache s) (activeBots s)
       (timers s) (nextTimer s) r (session s).
Definition set_session (f : gmap nat nat -> gmap nat nat) (s : St) : St :=
  mkSt (storage s) (activeConnections s) (marketDataCache s) (activeBots s)
       (timers s) (nextTimer s) (rlStrategy s) (f (session s)).

(** ** Computations *)

Definition M (A : Type) : Type := Env -> St -> Res A * St * list Event.

Definition ret {A} (a : A) : M A := fun _ s => (Ok a, s, []).

Definition throw {A} (err : Error) : M A := fun _ s => (Throw err, s, []).

Definition bind {A B} (m : M A) (k : A -> M B) : M B :=
  fun e s =>
    match m e s with
    | (Ok a, s1, out1) => let '(r, s2, out2) := k a e s1 in (r, s2, out1 ++ out2)
    | (Throw err, s1, out1) => (Throw err, s1, out1)
    end.

(** [try { m } catch (error) { handler(error) }] *)
Definition try_catch {A} (m : M A) (handler : Error -> M A) : M A :=
  fun e s =>
    match m e s with
    | (Ok a, s1, out1) => (Ok a, s1, out1)
    | (Throw err, s1, out1) =>
        let '(r, s2, out2) := handler err e s1 in (r, s2, out1 ++ out2)
    end.

Declare Scope M_scope.
Delimit Scope M_scope with M.
Notation "'do' x <- m ; k" := (bind m (fun x => k))
  (at level 10, x name, m at level 100, k at level 200,
   format "'[v' 'do'  x  <-  m ; '/' k ']'") : M_scope.
Notation "m ;; k" := (bind m (fun _ => k))
  (at level 100, k at level 200, right associativity) : M_scope.
Open Scope M_scope.

Definition ask : M Env := fun e s => (Ok e, s, []).
Definition get : M St := fun _ s => (Ok s, s, []).
Definition modify (f : St -> St) : M unit := fun _ s => (Ok tt, f s, []).
Definition emit (ev : Event) : M unit := fun _ s => (Ok tt, s, [ev]).
Definition emit_all (evs : list Event) : M unit := fun _ s => (Ok tt, s, evs).

(** A result computed by a synchronous function. *)
Definition lift {A} (r : Res A) : M A :=
  match r with Ok a => ret a | Throw err => throw err end.

Definition console_error (text : string) : M unit := emit (console "error" text).

(** The components of a run. *)
Definition result {A} (x : Res A * St * list Event) : Res A := x.1.1.
Definition final {A} (x : Res A * St * list Event) : St := x.1.2.
Definition output {A} (x : Res A * St * list Event) : list Event := x.2.

(** ** [storage], the store of the process *)

Module storage.
Definition read {A} (f : MemStorage.t -> A) : M A :=
  fun _ s => (Ok (f (storage s)), s, []).

Definition write {A} (f : Z -> MemStorage.t -> A * MemStorage.t) : M A :=
  fun e s =>
    let '(a, st) := f (Date_now e) (storage s) in
    (Ok a, set_storage (fun _ => st) s, []).

Definition getApiKeyByUserId (userId : nat) : M (option ApiKey.t) :=
  read (fun st => MemStorage.getApiKeyByUserId st userId).
Definition getBotSettingsByUserId (userId : nat) : M (option BotSettings.t) :=
  read (fun st => MemStorage.getBotSettingsByUserId st userId).
Definition updateBotSettings (id : nat) (patch : BotSettings.partial)
  : M (option BotSettings.t) :=
  write (fun now st => MemStorage.updateBotSettings now st id patch).
Definition getPositionsByUserId (userId : nat) : M (list Position.t) :=
  read (fun st => MemStorage.getPositionsByUserId st userId).
Definition updatePosition (id : nat) (patch : Position.partial) : M (option Position.t) :=
  write (fun now st => MemStorage.updatePosition now st id patch).
Definition createTrade (trade : Trade.insert) : M Trade.t :=
  write (fun now st => MemStorage.createTrade now st trade).
Definition getPerformanceMetricsByUserId (userId : nat) : M (option PerformanceMetrics.t) :=
  read (fun st => MemStorage.getPerformanceMetricsByUserId st userId).
Definition updatePerformanceMetrics (id : nat) (patch : PerformanceMetrics.partial)
  : M (option PerformanceMetrics.t) :=
  write (fun now st => MemStorage.updatePerformanceMetrics now st id patch).
Definition createSystemLog (log : SystemLog.insert) : M SystemLog.t :=
  write (fun now st => MemStorage.createSystemLog now st log).
Definition getTradesByUserId (userId : nat) (limit : Z) : M (list Trade.t) :=
  read (fun st => MemStorage.getTradesByUserId st userId limit).
Definition getSystemLogsByUserId (userId : nat) (limit : Z) : M (list SystemLog.t) :=
  read (fun st => MemStorage.getSystemLogsByUserId st userId limit).
End storage.

(** ** [broadcastToUser(userId, data)] *)

Definition broadcastToUser (userId : nat) (data : ServerMessage) : M unit :=
  fun e s =>
    match activeConnections s !! userId with
    | None => (Ok tt, s, [broadcastToUser_call userId data])
    | Some connections =>
        (Ok tt, s,
         broadcastToUser_call userId data
         :: map (fun socket => socket_send socket data)
              (List.filter (socket_open e) connections))
    end.

(** ** The methods of the broker client the pipeline calls *)

(** [alpaca.getAccount()] *)
Definition AlpacaClient_getAccount (alpaca : AlpacaClient.t) : M AccountInfo.t :=
  emit (alpaca_getAccount alpaca);;
  do e <- ask;
  match http_getAccount e alpaca with
  | Ok account => ret account
  | Throw err => console_error "Account validation error:";; throw err
  end.

(** [makeRequest("/v2/orders", "POST", orderRequest)] *)
Definition AlpacaClient_makeRequest_order (alpaca : AlpacaClient.t)
    (orderRequest : OrderRequest.t) : M OrderResponse.t :=
  do e <- ask;
  if AlpacaClient.isTestMode alpaca
  then ret (AlpacaClient.mockOrder (Date_now e) orderRequest)
  else
    match http_postOrder e alpaca orderRequest with
    | Ok order => ret order
    | Throw err => console_error "Alpaca API request failed:";; throw err
    end.

(** [alpaca.submitOrder(orderRequest)] *)
Definition AlpacaClient_submitOrder (alpaca : AlpacaClient.t)
    (orderRequest : OrderRequest.t) : M OrderResponse.t :=
  emit (alpaca_submitOrder alpaca orderRequest);;
  AlpacaClient_makeRequest_order alpaca orderRequest.

(** ** The market-data handler ([handleAlpacaWebsocketMessage]) *)

Module AlpacaMessage.
(** The fields of [message.data] the parser reads: [parseFloat(data.c)],
    [parseFloat(data.p)] and [new Date(data.t).getTime()]. *)
Record payload := mkPayload {
  c : float;
  p : float;
  t : Z }.

Inductive t_ :=
(** [{ type: 'mock', data }], produced by the test-mode feed *)
| mock (data : option MarketData.t)
(** [{ stream, data }], a message of the broker's stream *)
| stream (name : option string) (data : option payload).
End AlpacaMessage.

(** [s.split('.')[1]] *)
Fixpoint take_until_dot (s : string) : string :=
  match s with
  | EmptyString => EmptyString
  | String ch rest => if Ascii.eqb ch "."%char then EmptyString else String ch (take_until_dot rest)
  end.

Fixpoint after_first_dot (s : string) : option string :=
  match s with
  | EmptyString => None
  | String ch rest => if Ascii.eqb ch "."%char then Some rest else after_first_dot rest
  end.

Definition split_dot_1 (s : string) : string :=
  default EmptyString (take_until_dot <$> after_first_dot s).

(** [parseAlpacaWebSocketMessage(message)] ([server/alpaca.ts]) *)
Definition parseAlpacaWebSocketMessage (message : AlpacaMessage.t_) : option MarketData.t :=
  match message with
  | AlpacaMessage.mock data => data
  | AlpacaMessage.stream _ None => None
  | AlpacaMessage.stream name (Some data) =>
      match name with
      | None => None
      | Some name =>
          if String.prefix "B." name then
            Some (MarketData.mk (split_dot_1 name) (AlpacaMessage.c data)
                    (AlpacaMessage.t data) 0%float 0%float)
          else if String.prefix "T." name then
            Some (MarketData.mk (split_dot_1 name) (AlpacaMessage.p data)
                    (AlpacaMessage.t data) 0%float 0%float)
          else None
      end
  end.

(** [getReinforcementLearningStrategy()]
    ([server/reinforcementLearning/index.ts]): the singleton, created on first
    use.  The [loadModel()] it starts without awaiting is run to its end. *)
Definition getReinforcementLearningStrategy : M RL.t :=
  do s <- get;
  match rlStrategy s with
  | Some rl => ret rl
  | None =>
      do e <- ask;
      let '(_, rl, lines) :=
        RL.loadModel e (RL.new ["BTCUSD"; "ETHUSD"; "SOLUSD"; "AVAXUSD"] 100) in
      emit_all lines;;
      modify (set_rlStrategy (Some rl));;
      ret rl
  end.

(** A method of the singleton that updates it. *)
Definition rl_updateMarketData (symbol : string) (data : MarketData.t) : M unit :=
  do rl <- getReinforcementLearningStrategy;
  do e <- ask;
  let '(r, rl) := RL.updateMarketData e rl symbol data in
  modify (set_rlStrategy (Some rl));;
  lift r.

Definition rl_generateSignal (symbol : string) (data : list MarketData.t)
    (historicalData : option (list MarketData.t)) : M StrategySignal.t :=
  do rl <- getReinforcementLearningStrategy;
  do e <- ask;
  let '(signal, rl, lines) := RL.generateSignal e rl symbol data historicalData in
  modify (set_rlStrategy (Some rl));;
  emit_all lines;;
  ret signal.

Definition testMsg (isTestMode : bool) : string :=
  if isTestMode then " (TEST MODE)" else EmptyString.

Section TickHandler.
Local Open Scope float_scope.

Variable userId : nat.

(** Step 3, position reconciliation ([routes.ts], lines 74 to 122):
    [position] is the position found for the tick's symbol and [positions]
    the list it was found in. *)
Definition reconcilePosition (isTestMode : bool) (marketData : MarketData.t)
    (positions : list Position.t) (position : Position.t) : M unit :=
  let price := MarketData.price marketData in
  do updatedPosition <-
    storage.updatePosition (Position.id position)
      {| Position.p_userId := None;
         Position.p_symbol := None;
         Position.p_qty := None;
         Position.p_entryPrice := None;
         Position.p_currentPrice := Some (JS.toString price);
         Position.p_marketValue := Some (JS.toString (Position.qty position * price));
         Position.p_unrealizedPl :=
           Some (JS.toString
                   (Position.qty position * (price - Position.entryPrice position)));
         Position.p_unrealizedPlPerc :=
           Some (JS.toString
                   (((price - Position.entryPrice position)
                     / Position.entryPrice position) * 100)) |};
  broadcastToUser userId (positionUpdate_msg updatedPosition);;
  if isTestMode then
    do metrics <- storage.getPerformanceMetricsByUserId userId;
    match metrics with
    | Some metrics =>
        let totalPositionValue :=
          fold_left (fun total pos => total + Position.marketValue pos) positions 0 in
        let buyingPower := PerformanceMetrics.buyingPower metrics in
        let newPortfolioValue := totalPositionValue + buyingPower in
        let portfolioChange := newPortfolioValue - 25000 in
        let portfolioChangePerc := (portfolioChange / 25000) * 100 in
        storage.updatePerformanceMetrics (PerformanceMetrics.id metrics)
          {| PerformanceMetrics.p_portfolioValue := Some (JS.toString newPortfolioValue);
             PerformanceMetrics.p_portfolioChange := Some (JS.toString portfolioChange);
             PerformanceMetrics.p_portfolioChangePerc :=
               Some (JS.toString portfolioChangePerc);
             PerformanceMetrics.p_buyingPower := None |};;
        do updatedMetrics <- storage.getPerformanceMetricsByUserId userId;
        match updatedMetrics with
        | Some updatedMetrics => broadcastToUser userId (metricsUpdate_msg updatedMetrics)
        | None => ret tt
        end
    | None => ret tt
    end
  else ret tt.

(** The window of history of step 4 ([routes.ts], lines 132 to 137): the
    entries of the cache under the tick's symbol. *)
Definition historicalData_of (cache : gmap string MarketData.t) (marketData : MarketData.t)
  : list MarketData.t :=
  map snd
    (List.filter (fun entry => String.eqb (fst entry) (MarketData.symbol marketData))
       (map_to_list cache)).

(** The rule-based branch of step 4 ([routes.ts], lines 131 to 137 and 160
    to 173) for the strategy object [strategy]: the window of history is read
    from the cache, the strategy is asked about the tick and that window, and
    what it answers is logged under its name. *)
Definition evaluateWith (strategy : Strategy) (isTestMode : bool)
    (marketData : MarketData.t) : M StrategySignal.t :=
  do s <- get;
  let historicalData := historicalData_of (marketDataCache s) marketData in
  do e <- ask;
  do signal <-
    lift (Strategy_analyze strategy (Date_now e) (MarketData.symbol marketData)
            [marketData] (Some historicalData));
  storage.createSystemLog
    {| SystemLog.i_userId := userId;
       SystemLog.i_level := SIGNAL;
       SystemLog.i_message :=
         [Lit (Strategy_getName strategy); Lit " ";
          Lit (Action_to_string (StrategySignal.action signal));
          Lit " signal detected for "; Lit (StrategySignal.symbol signal);
          Lit " (confidence: "; Fixed 1 (StrategySignal.confidence signal);
          Lit "%)"; Lit (testMsg isTestMode)] |};;
  ret signal.

(** Step 4, strategy evaluation ([routes.ts], lines 129 to 173); the
    broadcast of the signal follows in the handler. *)
Definition evaluateStrategy (isTestMode : bool) (botSettings : BotSettings.t)
    (marketData : MarketData.t) : M StrategySignal.t :=
  do s <- get;
  let historicalData := historicalData_of (marketDataCache s) marketData in
  if String.eqb (BotSettings.strategy botSettings) "reinforcement" then
    rl_updateMarketData (MarketData.symbol marketData) marketData;;
    do signal <-
      rl_generateSignal (MarketData.symbol marketData) [marketData] (Some historicalData);
    storage.createSystemLog
      {| SystemLog.i_userId := userId;
         SystemLog.i_level := SIGNAL;
         SystemLog.i_message :=
           [Lit "AI Reinforcement Learning ";
            Lit (Action_to_string (StrategySignal.action signal));
            Lit " signal for "; Lit (StrategySignal.symbol signal);
            Lit " (confidence: "; Fixed 1 (StrategySignal.confidence signal);
            Lit "%)"; Lit (testMsg isTestMode)] |};;
    ret signal
  else
    let strategy := createStrategy (BotSettings.strategy botSettings) in
    do e <- ask;
    do signal <-
      lift (Strategy_analyze strategy (Date_now e) (MarketData.symbol marketData)
              [marketData] (Some historicalData));
    storage.createSystemLog
      {| SystemLog.i_userId := userId;
         SystemLog.i_level := SIGNAL;
         SystemLog.i_message :=
           [Lit (Strategy_getName strategy); Lit " ";
            Lit (Action_to_string (StrategySignal.action signal));
            Lit " signal detected for "; Lit (StrategySignal.symbol signal);
            Lit " (confidence: "; Fixed 1 (StrategySignal.confidence signal);
            Lit "%)"; Lit (testMsg isTestMode)] |};;
    ret signal.

(** The admission rule of step 5:
    [signal.action !== 'hold' && signal.confidence > 70]. *)
Definition admitted (signal : StrategySignal.t) : bool :=
  negb (Action_eqb (StrategySignal.action signal) hold)
  && (70 <? StrategySignal.confidence signal).

(** The order built when the learned model gives none, and for the
    rule-based strategies. *)
Definition basicOrder (signal : StrategySignal.t) : OrderRequest.t :=
  {| OrderRequest.symbol := StrategySignal.symbol signal;
     OrderRequest.qty := 1;
     OrderRequest.side := StrategySignal.action signal;
     OrderRequest.type := "market";
     OrderRequest.time_in_force := "gtc" |}.

(** The order request of step 5 ([routes.ts], lines 197 to 226): sized by
    the learned model for the strategy ['reinforcement'], the basic order
    otherwise and when the model gives none. *)
Definition sizeOrder (botSettings : BotSettings.t) (signal : StrategySignal.t)
    (accountValue : float) : M OrderRequest.t :=
  if String.eqb (BotSettings.strategy botSettings) "reinforcement" then
    do rlStrategy <- getReinforcementLearningStrategy;
    do rlOrder <- lift (RL.signalToOrder rlStrategy signal accountValue);
    match rlOrder with
    | Some rlOrder => ret rlOrder
    | None => ret (basicOrder signal)
    end
  else ret (basicOrder signal).

(** The submission of step 5 ([routes.ts], lines 228 to 261): submit, then
    log, record the trade and broadcast; on an exception, log the error. *)
Definition placeOrder (alpaca : AlpacaClient.t) (orderRequest : OrderRequest.t) : M unit :=
  try_catch
    (do order <- AlpacaClient_submitOrder alpaca orderRequest;
     storage.createSystemLog
       {| SystemLog.i_userId := userId;
          SystemLog.i_level := TRADE;
          SystemLog.i_message :=
            [Lit (Action_toUpperCase (OrderResponse.side order));
             Lit " order executed: "; Num (OrderResponse.qty order); Lit " ";
             Lit (OrderResponse.symbol order); Lit " @ market price"] |};;
     storage.createTrade
       {| Trade.i_userId := userId;
          Trade.i_symbol := OrderResponse.symbol order;
          Trade.i_side := OrderResponse.side order;
          Trade.i_qty := OrderResponse.qty order;
          Trade.i_price := 0;
          Trade.i_orderType := OrderResponse.type order;
          Trade.i_status := OrderResponse.status order |};;
     broadcastToUser userId (orderUpdate_msg order))
    (fun error =>
       storage.createSystemLog
         {| SystemLog.i_userId := userId;
            SystemLog.i_level := ERROR;
            SystemLog.i_message := [Lit "Order execution failed: "; Lit error] |};;
       ret tt).

(** Step 5, order decision ([routes.ts], lines 181 to 263). *)
Definition orderDecision (botSettings : BotSettings.t) (signal : StrategySignal.t)
  : M unit :=
  if admitted signal then
    do apiKey <- storage.getApiKeyByUserId userId;
    match apiKey with
    | Some apiKey =>
        do alpaca <-
          lift (getAlpacaClient (ApiKey.alpacaApiKey apiKey) (ApiKey.alpacaSecretKey apiKey)
                  (String.eqb (ApiKey.environment apiKey) "paper"));
        do account <- AlpacaClient_getAccount alpaca;
        let accountValue := AccountInfo.portfolio_value account in
        do orderRequest <- sizeOrder botSettings signal accountValue;
        placeOrder alpaca orderRequest
    | None => ret tt
    end
  else ret tt.

(** Step 3 with its guard ([routes.ts], lines 70 to 122): reconcile the
    first position of the user under the tick's symbol, if there is one. *)
Definition positionReconciliation (isTestMode : bool) (marketData : MarketData.t)
  : M unit :=
  do positions <- storage.getPositionsByUserId userId;
  match Array_find
          (fun p => String.eqb (Position.symbol p) (MarketData.symbol marketData))
          positions with
  | Some position => reconcilePosition isTestMode marketData positions position
  | None => ret tt
  end.

(** Steps 4 and 5 with their guard ([routes.ts], lines 124 to 264): only
    for a user whose bot is active. *)
Definition strategyAndOrder (isTestMode : bool) (marketData : MarketData.t) : M unit :=
  do botSettings <- storage.getBotSettingsByUserId userId;
  match botSettings with
  | Some botSettings =>
      if BotSettings.isActive botSettings then
        do signal <- evaluateStrategy isTestMode botSettings marketData;
        broadcastToUser userId (strategySignal_msg signal);;
        orderDecision botSettings signal
      else ret tt
  | None => ret tt
  end.

(** [handleAlpacaWebsocketMessage(userId, message)] *)
Definition handleAlpacaWebsocketMessage (message : AlpacaMessage.t_) : M unit :=
  try_catch
    (do apiKey <- storage.getApiKeyByUserId userId;
     let isTestMode :=
       match apiKey with
       | Some apiKey => AlpacaClient.is_test_key (ApiKey.alpacaApiKey apiKey)
       | None => false
       end in
     let marketData :=
       match message with
       | AlpacaMessage.mock data => data
       | _ => parseAlpacaWebSocketMessage message
       end in
     match marketData with
     | None => ret tt
     | Some marketData =>
         (* step 1: cache update *)
         modify (set_marketDataCache (<[MarketData.symbol marketData := marketData]>));;
         (* step 2: broadcast of the tick *)
         broadcastToUser userId (marketData_msg marketData);;
         (* step 3: position reconciliation *)
         positionReconciliation isTestMode marketData;;
         (* steps 4 and 5: strategy evaluation and order decision *)
         strategyAndOrder isTestMode marketData
     end)
    (fun error => console_error "Error handling Alpaca WebSocket message:").
End TickHandler.

(** ** The bot scheduler ([startTradingBot], [stopTradingBot]) *)

(** [setInterval(callback, ms)]: a fresh live interval. *)
Definition setInterval (callback : Timer.callback) (ms : Z) : M nat :=
  do s <- get;
  let intervalId := nextTimer s in
  modify (set_timers (<[intervalId := Timer.mk callback ms]>) (S intervalId));;
  ret intervalId.

(** [clearInterval(intervalId)] *)
Definition clearInterval (intervalId : nat) : M unit :=
  do s <- get;
  modify (set_timers (delete intervalId) (nextTimer s)).

(** [stopTradingBot(userId)] *)
Definition stopTradingBot (userId : nat) : M unit :=
  do s <- get;
  match activeBots s !! userId with
  | Some intervalId =>
      clearInterval intervalId;;
      modify (set_activeBots (delete userId))
  | None => ret tt
  end.

(** The period of the recurring update, from the trading frequency
    ([routes.ts], lines 342 to 354). *)
Definition updateInterval (tradingFrequency : string) : Z :=
  if String.eqb tradingFrequency "low" then 300000
  else if String.eqb tradingFrequency "medium" then 60000
  else if String.eqb tradingFrequency "high" then 10000
  else 60000.

(** [await rlStrategy.loadModel().catch(console.warn)] on the singleton *)
Definition rl_loadModel : M unit :=
  do rl <- getReinforcementLearningStrategy;
  do e <- ask;
  let '(_, rl, lines) := RL.loadModel e rl in
  modify (set_rlStrategy (Some rl));;
  emit_all lines.

(** [rlStrategy.setAlpacaClient(alpaca)] on the singleton *)
Definition rl_setAlpacaClient (alpaca : AlpacaClient.t) : M unit :=
  do rl <- getReinforcementLearningStrategy;
  modify (set_rlStrategy (Some (RL.setAlpacaClient rl alpaca))).

(** The initialisation of the learned model in [startTradingBot]
    ([routes.ts], lines 285 to 325), for the strategy ['reinforcement']. *)
Definition initializeRLModel (userId : nat) (apiKey : ApiKey.t) (isTestMode : bool)
  : M unit :=
  try_catch
    (getReinforcementLearningStrategy;;
     do alpaca <-
       lift (getAlpacaClient (ApiKey.alpacaApiKey apiKey) (ApiKey.alpacaSecretKey apiKey)
               (String.eqb (ApiKey.environment apiKey) "paper"));
     rl_setAlpacaClient alpaca;;
     rl_loadModel;;
     storage.createSystemLog
       {| SystemLog.i_userId := userId;
          SystemLog.i_level := INFO;
          SystemLog.i_message :=
            [Lit "Reinforcement learning model initialized"; Lit (testMsg isTestMode)] |};;
     ret tt)
    (fun error =>
       console_error "Error initializing reinforcement learning model:";;
       storage.createSystemLog
         {| SystemLog.i_userId := userId;
            SystemLog.i_level := ERROR;
            SystemLog.i_message := [Lit "Error initializing RL model: "; Lit error] |};;
       ret tt).

(** [startTradingBot(userId)] *)
Definition startTradingBot (userId : nat) : M unit :=
  stopTradingBot userId;;
  do apiKey <- storage.getApiKeyByUserId userId;
  do botSettings <- storage.getBotSettingsByUserId userId;
  match apiKey, botSettings with
  | Some apiKey, Some botSettings =>
      if negb (BotSettings.isActive botSettings) then ret tt
      else
        let isTestMode := AlpacaClient.is_test_key (ApiKey.alpacaApiKey apiKey) in
        (if String.eqb (BotSettings.strategy botSettings) "reinforcement"
         then initializeRLModel userId apiKey isTestMode
         else ret tt);;
        storage.createSystemLog
          {| SystemLog.i_userId := userId;
             SystemLog.i_level := INFO;
             SystemLog.i_message :=
               [Lit "Bot started with "; Lit (BotSettings.strategy botSettings);
                Lit " strategy"; Lit (testMsg isTestMode)] |};;
        broadcastToUser userId
          (botStatus_msg true (Some (BotSettings.strategy botSettings)));;
        do intervalId <-
          setInterval (Timer.botUpdate userId apiKey)
            (updateInterval (BotSettings.tradingFrequency botSettings));
        modify (set_activeBots (<[userId := intervalId]>))
  | _, _ => ret tt
  end.

(** ** The dashboard connection ([registerRoutes], [wss.on('connection')]) *)

(** What [JSON.parse(message.toString())] yields. *)
Inductive ClientMessage :=
| malformed                      (* not JSON: [JSON.parse] throws *)
| auth (userId : nat)            (* { type: 'auth', userId } *)
| startBot                       (* { type: 'startBot' } *)
| stopBot                        (* { type: 'stopBot' } *)
| other (type : string).

(** [ws.on('message', ...)] for the connection [ws] *)
Definition on_message (ws : nat) (data : ClientMessage) : M unit :=
  try_catch
    (match data with
     | malformed => throw "Unexpected token in JSON"
     | _ =>
         do s <- get;
         match data, session s !! ws with
         | auth (S n), _ =>
             let userId := S n in
             modify (set_session (<[ws := userId]>));;
             modify (set_activeConnections
                       (fun connections =>
                          <[userId := default [] (connections !! userId) ++ [ws]]>
                            connections));;
             do positions <- storage.getPositionsByUserId userId;
             do trades <- storage.getTradesByUserId userId 10;
             do metrics <- storage.getPerformanceMetricsByUserId userId;
             do logs <- storage.getSystemLogsByUserId userId 20;
             do botSettings <- storage.getBotSettingsByUserId userId;
             do apiKey <- storage.getApiKeyByUserId userId;
             emit (socket_send ws
                     (initialData_msg positions trades metrics logs botSettings
                        (bool_decide (is_Some apiKey))));;
             match apiKey with
             | Some apiKey =>
                 let isTestMode := AlpacaClient.is_test_key (ApiKey.alpacaApiKey apiKey) in
                 do alpaca <-
                   lift (getAlpacaClient (ApiKey.alpacaApiKey apiKey)
                           (ApiKey.alpacaSecretKey apiKey)
                           (String.eqb (ApiKey.environment apiKey) "paper"));
                 (if isTestMode then
                    storage.createSystemLog
                      {| SystemLog.i_userId := userId;
                         SystemLog.i_level := INFO;
                         SystemLog.i_message :=
                           [Lit "WebSocket connection established"; Lit " (TEST MODE)"] |};;
                    setInterval (Timer.mockFeed userId alpaca) 5000;;
                    ret tt
                  else
                    storage.createSystemLog
                      {| SystemLog.i_userId := userId;
                         SystemLog.i_level := INFO;
                         SystemLog.i_message := [Lit "WebSocket connection established"] |};;
                    ret tt);;
                 match botSettings with
                 | Some botSettings =>
                     if BotSettings.isActive botSettings then startTradingBot userId
                     else ret tt
                 | None => ret tt
                 end
             | None => ret tt
             end
         | startBot, Some (S n) =>
             let userId := S n in
             do botSettings <- storage.getBotSettingsByUserId userId;
             match botSettings with
             | Some botSettings =>
                 storage.updateBotSettings (BotSettings.id botSettings)
                   (BotSettings.mkPartial None (Some true) None None None);;
                 startTradingBot userId
             | None => ret tt
             end
         | stopBot, Some (S n) =>
             let userId := S n in
             do botSettings <- storage.getBotSettingsByUserId userId;
             match botSettings with
             | Some botSettings =>
                 storage.updateBotSettings (BotSettings.id botSettings)
                   (BotSettings.mkPartial None (Some false) None None None);;
                 stopTradingBot userId;;
                 storage.createSystemLog
                   {| SystemLog.i_userId := userId;
                      SystemLog.i_level := INFO;
                      SystemLog.i_message := [Lit "Bot stopped"] |};;
                 broadcastToUser userId (botStatus_msg false None)
             | None => ret tt
             end
         | _, _ => ret tt
         end
     end)
    (fun error => console_error "Error handling WebSocket message:").

(** [connections.splice(connections.indexOf(ws), 1)] *)
Fixpoint remove_first (ws : nat) (connections : list nat) : list nat :=
  match connections with
  | [] => []
  | c :: rest => if Nat.eqb c ws then rest else c :: remove_first ws rest
  end.

(** [ws.on('close', ...)] for the connection [ws] *)
Definition on_close (ws : nat) : M unit :=
  do s <- get;
  match session s !! ws with
  | Some (S n) =>
      let userId := S n in
      match activeConnections s !! userId with
      | Some connections =>
          let connections := remove_first ws connections in
          if Nat.eqb (length connections) 0
          then modify (set_activeConnections (delete userId))
          else modify (set_activeConnections (<[userId := connections]>))
      | None => ret tt
      end
  | _ => ret tt
  end.


(** ** The subscription of the market-data stream ([server/alpaca.ts]) *)

Module SubscribePayload.
Record t := mk {
  action : string;
  trades : list string;
  quotes : list string;
  bars : list string }.
End SubscribePayload.

(** [alpaca.getWebSocketSubscribePayload(streams)] *)
Definition AlpacaClient_getWebSocketSubscribePayload (alpaca : AlpacaClient.t)
    (streams : list string) : SubscribePayload.t :=
  {| SubscribePayload.action := "subscribe";
     SubscribePayload.trades := map (fun symbol => String.append "T." symbol) streams;
     SubscribePayload.quotes := map (fun symbol => String.append "Q." symbol) streams;
     SubscribePayload.bars := map (fun symbol => String.append "B." symbol) streams |}.

(** ** The replay buffer of the agent
       ([server/reinforcementLearning/dqnAgent.ts]) *)

(** The class [ReplayBuffer] over the tensors' values: [clone()] is a copy
    of the value, and [dispose()], which frees the tensor's memory, has no
    counterpart.  [maxSize] is a whole number (the agent passes 10000).
    [sample] draws random indices and is left out. *)
Module ReplayBuffer.
Section Entries.
Context {Tensor : Type}.

Record entry := mkEntry {
  state : Tensor;
  action : list float;
  reward : float;
  nextState : Tensor;
  done : bool }.

Record t := mk {
  buffer : list entry;
  maxSize : nat }.

(** [new ReplayBuffer(maxSize)] *)
Definition new (maxSize : nat) : t := mk [] maxSize.

(** [add(state, action, reward, nextState, done)]: push, then drop the
    oldest entry if the buffer exceeds [maxSize]. *)
Definition add (self : t) (state : Tensor) (action : list float) (reward : float)
    (nextState : Tensor) (done : bool) : t :=
  let buffer := buffer self ++ [mkEntry state action reward nextState done] in
  if (maxSize self <? length buffer)%nat
  then mk (tail buffer) (maxSize self)
  else mk buffer (maxSize self).

(** [size()] *)
Definition size (self : t) : nat := length (buffer self).

(** [clear()] *)
Definition clear (self : t) : t := mk [] (maxSize self).
End Entries.
Arguments entry : clear implicits.
Arguments t : clear implicits.
End ReplayBuffer.

(** ** Asynchronous calls

    An [async] function runs until its next [await]; the rest of the call is
    resumed later, and other handlers and other suspended calls may run in
    between.  The definitions of [startTradingBot] and [on_message] above
    compose a call with everything it awaits and starts, end to end: they are
    the runs in which nothing comes in between.  Here the same functions are
    cut at their [await]s. *)

(** A suspended call.  Resumed, it runs to its next [await] and yields the
    rest of the call together with the calls it has started without awaiting
    them, each suspended at its own first [await].  A resumption that throws
    is a rejected promise that nobody awaits: the call is over. *)
#[local] Set Warnings "-register-all".
Inductive Task :=
| Done
| Await (resume : M (Task * list Task)).

(** The code of a call between two [await]s. *)
Definition Segment := M (Task * list Task).

(** [return] *)
Definition returns : Segment := ret (Done, []).

(** [await], with the rest of the call *)
Definition await (rest : Segment) : Segment := ret (Await rest, []).

(** A call of an [async] function that is not awaited: the function runs to
    its first [await], and whether it throws there or later is nobody's
    business. *)
Definition start_call (call : Segment) : M (list Task) :=
  try_catch (do suspended <- call; ret (fst suspended :: snd suspended))
    (fun _ => ret []).

(** [loadModel()] of the singleton from its [await] on, then [rest]. *)
Definition rl_loadModel_resume (rest : Segment) : Segment :=
  do s <- get;
  match rlStrategy s with
  | Some rl =>
      do e <- ask;
      let '(_, rl, lines) := RL.loadModel_resume e rl in
      modify (set_rlStrategy (Some rl));;
      emit_all lines;;
      rest
  | None => rest
  end.

(** [getReinforcementLearningStrategy()]: the singleton, and the
    [loadModel()] its creation has started when that call waits for the model
    file. *)
Definition getReinforcementLearningStrategy_async : M (RL.t * list Task) :=
  do s <- get;
  match rlStrategy s with
  | Some rl => ret (rl, [])
  | None =>
      do e <- ask;
      let '(rl, waits, lines) :=
        RL.loadModel_call e (RL.new ["BTCUSD"; "ETHUSD"; "SOLUSD"; "AVAXUSD"] 100) in
      emit_all lines;;
      modify (set_rlStrategy (Some rl));;
      ret (rl, if waits then [Await (rl_loadModel_resume returns)] else [])
  end.

(** [rlStrategy.loadModel()] on the singleton, up to its [await]: whether
    the call waits for the model file. *)
Definition rl_loadModel_call : M bool :=
  do s <- get;
  match rlStrategy s with
  | Some rl =>
      do e <- ask;
      let '(rl, waits, lines) := RL.loadModel_call e rl in
      modify (set_rlStrategy (Some rl));;
      emit_all lines;;
      ret waits
  | None => ret false
  end.

(** The initialisation of the learned model in [startTradingBot]
    ([routes.ts], lines 285 to 325), then [rest]. *)
Definition initializeRLModel_async (userId : nat) (apiKey : ApiKey.t) (isTestMode : bool)
    (rest : Segment) : Segment :=
  do created <- getReinforcementLearningStrategy_async;
  let started := snd created in
  match getAlpacaClient (ApiKey.alpacaApiKey apiKey) (ApiKey.alpacaSecretKey apiKey)
          (String.eqb (ApiKey.environment apiKey) "paper") with
  | Ok alpaca =>
      rl_setAlpacaClient alpaca;;
      do waits <- rl_loadModel_call;
      let initialized : Segment :=
        storage.createSystemLog
          {| SystemLog.i_userId := userId;
             SystemLog.i_level := INFO;
             SystemLog.i_message :=
               [Lit "Reinforcement learning model initialized"; Lit (testMsg isTestMode)] |};;
        await rest in
      ret (Await (if waits then rl_loadModel_resume (await initialized) else initialized),
           started)
  | Throw error =>
      console_error "Error initializing reinforcement learning model:";;
      storage.createSystemLog
        {| SystemLog.i_userId := userId;
           SystemLog.i_level := ERROR;
           SystemLog.i_message := [Lit "Error initializing RL model: "; Lit error] |};;
      ret (Await rest, started)
  end.

(** [startTradingBot(userId)], from the call to its first [await]. *)
Definition startTradingBot_async (userId : nat) : Segment :=
  stopTradingBot userId;;
  do apiKey <- storage.getApiKeyByUserId userId;
  await
    (do botSettings <- storage.getBotSettingsByUserId userId;
     await
       match apiKey, botSettings with
       | Some apiKey, Some botSettings =>
           if negb (BotSettings.isActive botSettings) then returns
           else
             let isTestMode := AlpacaClient.is_test_key (ApiKey.alpacaApiKey apiKey) in
             let start : Segment :=
               storage.createSystemLog
                 {| SystemLog.i_userId := userId;
                    SystemLog.i_level := INFO;
                    SystemLog.i_message :=
                      [Lit "Bot started with "; Lit (BotSettings.strategy botSettings);
                       Lit " strategy"; Lit (testMsg isTestMode)] |};;
               await
                 (broadcastToUser userId
                    (botStatus_msg true (Some (BotSettings.strategy botSettings)));;
                  do intervalId <-
                    setInterval (Timer.botUpdate userId apiKey)
                      (updateInterval (BotSettings.tradingFrequency botSettings));
                  modify (set_activeBots (<[userId := intervalId]>));;
                  returns) in
             if String.eqb (BotSettings.strategy botSettings) "reinforcement"
             then initializeRLModel_async userId apiKey isTestMode start
             else start
       | _, _ => returns
       end).

(** The [try] of the message handler around a part of its body. *)
Definition guarded (body : Segment) : Segment :=
  try_catch body
    (fun error => console_error "Error handling WebSocket message:";; returns).

(** [startTradingBot(userId)], not awaited, as the last thing a handler
    does. *)
Definition starts_the_bot (userId : nat) : Segment :=
  do started <- start_call (startTradingBot_async userId);
  ret (Done, started).

(** [ws.on('message', async ...)] for the connection [ws], from the arrival
    of the message to the first [await]. *)
Definition on_message_async (ws : nat) (data : ClientMessage) : Segment :=
  guarded
    (match data with
     | malformed => throw "Unexpected token in JSON"
     | _ =>
         do s <- get;
         match data, session s !! ws with
         | auth (S n), _ =>
             let userId := S n in
             modify (set_session (<[ws := userId]>));;
             modify (set_activeConnections
                       (fun connections =>
                          <[userId := default [] (connections !! userId) ++ [ws]]>
                            connections));;
             do positions <- storage.getPositionsByUserId userId;
             await (guarded (
             do trades <- storage.getTradesByUserId userId 10;
             await (guarded (
             do metrics <- storage.getPerformanceMetricsByUserId userId;
             await (guarded (
             do logs <- storage.getSystemLogsByUserId userId 20;
             await (guarded (
             do botSettings <- storage.getBotSettingsByUserId userId;
             await (guarded (
             do apiKey <- storage.getApiKeyByUserId userId;
             await (guarded (
             emit (socket_send ws
                     (initialData_msg positions trades metrics logs botSettings
                        (bool_decide (is_Some apiKey))));;
             match apiKey with
             | Some apiKey =>
                 let isTestMode := AlpacaClient.is_test_key (ApiKey.alpacaApiKey apiKey) in
                 do alpaca <-
                   lift (getAlpacaClient (ApiKey.alpacaApiKey apiKey)
                           (ApiKey.alpacaSecretKey apiKey)
                           (String.eqb (ApiKey.environment apiKey) "paper"));
                 let startIfActive : Segment :=
                   match botSettings with
                   | Some botSettings =>
                       if BotSettings.isActive botSettings then starts_the_bot userId
                       else returns
                   | None => returns
                   end in
                 if isTestMode then
                   storage.createSystemLog
                     {| SystemLog.i_userId := userId;
                        SystemLog.i_level := INFO;
                        SystemLog.i_message :=
                          [Lit "WebSocket connection established"; Lit " (TEST MODE)"] |};;
                   await (guarded (
                     setInterval (Timer.mockFeed userId alpaca) 5000;;
                     startIfActive))
                 else
                   storage.createSystemLog
                     {| SystemLog.i_userId := userId;
                        SystemLog.i_level := INFO;
                        SystemLog.i_message := [Lit "WebSocket connection established"] |};;
                   await (guarded startIfActive)
             | None => returns
             end))))))))))))
         | startBot, Some (S n) =>
             let userId := S n in
             do botSettings <- storage.getBotSettingsByUserId userId;
             await (guarded
               match botSettings with
               | Some botSettings =>
                   storage.updateBotSettings (BotSettings.id botSettings)
                     (BotSettings.mkPartial None (Some true) None None None);;
                   await (guarded (starts_the_bot userId))
               | None => returns
               end)
         | stopBot, Some (S n) =>
             let userId := S n in
             do botSettings <- storage.getBotSettingsByUserId userId;
             await (guarded
               match botSettings with
               | Some botSettings =>
                   storage.updateBotSettings (BotSettings.id botSettings)
                     (BotSettings.mkPartial None (Some false) None None None);;
                   await (guarded (
                     stopTradingBot userId;;
                     storage.createSystemLog
                       {| SystemLog.i_userId := userId;
                          SystemLog.i_level := INFO;
                          SystemLog.i_message := [Lit "Bot stopped"] |};;
                     await (guarded (
                       broadcastToUser userId (botStatus_msg false None);;
                       returns))))
               | None => returns
               end)
         | _, _ => returns
         end
     end).

(** ** The event loop

    The server between two steps: its state and the calls that are
    suspended at an [await].  A step is the arrival of a message or the
    closing of a connection, whose handler runs at once up to its first
    [await], or the resumption of a suspended call.  Which step comes next is
    not the server's choice: a schedule lists them. *)

Record Server := mkServer {
  state : St;
  suspended : list Task }.

Inductive Step :=
| arrives (ws : nat) (data : ClientMessage)
| closes (ws : nat)
| resumes (call : nat).      (* the position of the call among the suspended *)

Definition step (e : Env) (st : Step) (server : Server) : Server * list Event :=
  match st with
  | arrives ws data =>
      match on_message_async ws data e (state server) with
      | (Ok (rest, started), s, out) =>
          (mkServer s (suspended server ++ rest :: started), out)
      | (Throw _, s, out) => (mkServer s (suspended server), out)
      end
  | closes ws =>
      let '(_, s, out) := on_close ws e (state server) in
      (mkServer s (suspended server), out)
  | resumes call =>
      match suspended server !! call with
      | Some (Await resume) =>
          match resume e (state server) with
          | (Ok (rest, started), s, out) =>
              (mkServer s (<[call := rest]> (suspended server) ++ started), out)
          | (Throw _, s, out) => (mkServer s (<[call := Done]> (suspended server)), out)
          end
      | _ => (server, [])
      end
  end.

Fixpoint run (e : Env) (schedule : list Step) (server : Server) : Server * list Event :=
  match schedule with
  | [] => (server, [])
  | st :: schedule =>
      let '(server, out) := step e st server in
      let '(server, out') := run e schedule server in
      (server, out ++ out')
  end.

(** A call run to its end with nothing in between: each resumption is
    followed by the calls it has started, each run to its end, and then by
    the rest of the call. *)
Fixpoint alone (task : Task) : M unit :=
  match task with
  | Done => ret tt
  | Await resume =>
      fun e s =>
        match resume e s with
        | (Ok (rest, started), s1, out1) =>
            let '(_, s2, out2) :=
              (fix all (tasks : list Task) : M unit :=
                 match tasks with
                 | [] => ret tt
                 | task :: tasks => alone task;; all tasks
                 end) started e s1 in
            let '(_, s3, out3) := alone rest e s2 in
            (Ok tt, s3, out1 ++ out2 ++ out3)
        | (Throw _, s1, out1) => (Ok tt, s1, out1)
        end
  end.
(* ===================================================================== *)
(** * Part II.  The vocabulary of the properties                          *)
(* ===================================================================== *)

(** ** Outward calls in the output of a run *)

Definition is_submitOrder (ev : Event) : bool :=
  match ev with alpaca_submitOrder _ _ => true | _ => false end.

Definition is_broker_call (ev : Event) : bool :=
  match ev with alpaca_submitOrder _ _ | alpaca_getAccount _ => true | _ => false end.

Definition is_positionUpdate (ev : Event) : bool :=
  match ev with
  | broadcastToUser_call _ (positionUpdate_msg _)
  | socket_send _ (positionUpdate_msg _) => true
  | _ => false
  end.

(** The signal a broadcast carries. *)
Definition signal_of (ev : Event) : option StrategySignal.t :=
  match ev with
  | broadcastToUser_call _ (strategySignal_msg signal)
  | socket_send _ (strategySignal_msg signal) => Some signal
  | _ => None
  end.

(** An event of a tick on which the bot holds: not a call of the broker, and
    if it carries a signal, the hold signal with confidence 0. *)
Definition holding (ev : Event) : Prop :=
  is_broker_call ev = false
  /\ match signal_of ev with
     | Some signal =>
         StrategySignal.action signal = hold
         /\ StrategySignal.confidence signal = 0%float
     | None => True
     end.

(** The number of calls of [submitOrder] in an output. *)
Definition submitOrder_calls (out : list Event) : nat :=
  length (List.filter is_submitOrder out).

Definition is_console (ev : Event) : bool :=
  match ev with console _ _ => true | _ => false end.

(** The open sockets of a user, which a broadcast reaches. *)
Definition receivers (e : Env) (s : St) (userId : nat) : list nat :=
  List.filter (socket_open e) (default [] (activeConnections s !! userId)).

(** ** The store *)

(** Every entry of a table is stored under its own [id], once, as
    [this.table.set(id, { ..., id })] with a fresh [id] leaves it. *)
Definition well_keyed {V} (id : V -> nat) (m : Map V) : Prop :=
  Forall (fun entry => fst entry = id (snd entry)) m /\ NoDup (map fst m).

(** The tables of the store, by name. *)
Definition positions_of (s : St) : Map Position.t := MemStorage.positions (storage s).
Definition trades_of (s : St) : Map Trade.t := MemStorage.trades (storage s).
Definition botSettings_of (s : St) : Map BotSettings.t := MemStorage.botSettings (storage s).
Definition apiKeys_of (s : St) : Map ApiKey.t := MemStorage.apiKeys (storage s).
Definition systemLogs_of (s : St) : Map SystemLog.t := MemStorage.systemLogs (storage s).

(** The position a tick reconciles: the first one of the user under the
    tick's symbol. *)
Definition position_for (userId : nat) (marketData : MarketData.t) (s : St)
  : option Position.t :=
  Array_find (fun p => String.eqb (Position.symbol p) (MarketData.symbol marketData))
    (MemStorage.getPositionsByUserId (storage s) userId).

(** The fields a tick writes into a position. *)
Definition reconciled (position : Position.t) (price : float) (now : Z) : Position.t :=
  Position.spread position
    (Position.mkPartial None None None None (Some (JS.toString price))
       (Some (JS.toString (Position.qty position * price)%float))
       (Some (JS.toString
                (Position.qty position * (price - Position.entryPrice position))%float))
       (Some (JS.toString
                (((price - Position.entryPrice position) / Position.entryPrice position)
                 * 100)%float)))
    now.

(** A zero without its sign: all that [toString] changes in a number, as
    seen on its IEEE-754 decomposition. *)
Definition drop_zero_sign (x : spec_float) : spec_float :=
  match x with
  | S754_zero _ => S754_zero false
  | _ => x
  end.

(** ** Strategies *)

(** Not enough history: none at all, or fewer points than [required]. *)
Definition insufficient (required : Z) (history : option (list MarketData.t)) : Prop :=
  match history with
  | None => True
  | Some points => (Z.of_nat (length points) < required)%Z
  end.

(** The strategy names for which the factory builds the default strategy:
    its own name and every unknown one. *)
Definition selects_default (type : string) : Prop :=
  type <> "momentum" /\ type <> "ppo" /\ type <> "reinforcement".

(** Everything but the singleton of the learned-model strategy. *)
Definition outside_rl (s : St) :=
  (storage s, activeConnections s, marketDataCache s, activeBots s, timers s, nextTimer s,
   session s).

(** ** Scheduler handles *)

Definition is_botUpdate_of (userId : nat) (timer : Timer.t) : bool :=
  match Timer.run timer with
  | Timer.botUpdate u _ => Nat.eqb u userId
  | Timer.mockFeed _ _ => false
  end.

(** The live scheduler handles of a user: the intervals of the runtime that
    run this user's bot update. *)
Definition liveHandles (userId : nat) (s : St) : gmap nat Timer.t :=
  filter (fun entry => is_botUpdate_of userId (snd entry) = true) (timers s).

(** The registry of bots and the runtime agree: a registered handle is a
    live interval of its user, every live bot interval is the registered one,
    and identifiers from [nextTimer] on are unused. *)
Record scheduler_ok (s : St) : Prop := {
  registered_live :
    forall userId intervalId,
      activeBots s !! userId = Some intervalId ->
      exists timer, timers s !! intervalId = Some timer
                    /\ is_botUpdate_of userId timer = true;
  live_registered :
    forall userId intervalId timer,
      timers s !! intervalId = Some timer ->
      is_botUpdate_of userId timer = true ->
      activeBots s !! userId = Some intervalId;
  fresh_unused :
    forall intervalId, nextTimer s <= intervalId -> timers s !! intervalId = None }.

(** The registry, the live intervals and the next identifier. *)
Definition scheduler_of (s : St) : gmap nat nat * gmap nat Timer.t * nat :=
  (activeBots s, timers s, nextTimer s).

(** The state [stopTradingBot(userId)] leaves. *)
Definition stopped (userId : nat) (s : St) : St :=
  match activeBots s !! userId with
  | Some intervalId =>
      set_activeBots (delete userId) (set_timers (delete intervalId) (nextTimer s) s)
  | None => s
  end.


(** ** What the server does, one handler at a time *)

Inductive Op :=
| op_tick (userId : nat) (message : AlpacaMessage.t_)
| op_message (ws : nat) (data : ClientMessage)
| op_close (ws : nat)
| op_startTradingBot (userId : nat)
| op_stopTradingBot (userId : nat).

Definition perform (op : Op) : M unit :=
  match op with
  | op_tick userId message => handleAlpacaWebsocketMessage userId message
  | op_message ws data => on_message ws data
  | op_close ws => on_close ws
  | op_startTradingBot userId => startTradingBot userId
  | op_stopTradingBot userId => stopTradingBot userId
  end.

(** The states the server reaches from [s0], whatever the environment
    answers. *)
Inductive reaches (s0 : St) : St -> Prop :=
| reaches_here : reaches s0 s0
| reaches_step s e op : reaches s0 s -> reaches s0 (final (perform op e s)).

(** ** A concrete server, for the examples *)

Module Demo.
Definition apiKey : ApiKey.t := ApiKey.mk 1 1 "PK-DEMO" "SK-DEMO" "paper" 0.

Definition botSettings : BotSettings.t :=
  BotSettings.mk 1 1 true "mean_reversion" 5 "high" 0.

(** One BTCUSD, bought at 100. *)
Definition position : Position.t := Position.mk 1 1 "BTCUSD" 1 100 100 100 0 0 0.

Definition store : MemStorage.t :=
  MemStorage.mk [(1, apiKey)] [(1, botSettings)] [(1, position)] [] [] []
    (MemStorage.mkIds 2 2 2 1 1 1).

(** User 1 with these records, connected on socket 7, no bot running. *)
Definition server : St := mkSt store {[1 := [7]]} ∅ ∅ ∅ 0 None {[7 := 1]}.

Definition account : AccountInfo.t :=
  AccountInfo.mk "account" 10000 10000 10000 10000 "ACTIVE".

Definition accept (order : OrderRequest.t) : OrderResponse.t :=
  OrderResponse.mk "order-1" (OrderRequest.symbol order) (OrderRequest.side order)
    (OrderRequest.type order) (OrderRequest.qty order) 0 "accepted".

(** A broker that accepts every order, and one that rejects them. *)
Definition accepting : Env :=
  mkEnv 0 (fun _ => Ok account) (fun _ order => Ok (accept order)) (fun _ => true)
    None (fun _ => Ok []) (fun _ _ => Ok []).

Definition rejecting : Env :=
  mkEnv 0 (fun _ => Ok account) (fun _ _ => Throw "insufficient buying power")
    (fun _ => true) None (fun _ => Ok []) (fun _ _ => Ok []).

Definition tick (symbol : string) (price : float) : AlpacaMessage.t_ :=
  AlpacaMessage.mock (Some (MarketData.mk symbol price 0 0 0)).

(** The stored positions after each of a sequence of ticks for user 1. *)
Fixpoint positions_after (e : Env) (s : St) (prices : list float) : list (list Position.t) :=
  match prices with
  | [] => []
  | price :: rest =>
      let s' := final (handleAlpacaWebsocketMessage 1 (tick "BTCUSD" price) e s) in
      MemStorage.getPositionsByUserId (storage s') 1 :: positions_after e s' rest
  end.
End Demo.

(** ** Frames: what a computation leaves alone *)

(** [m] relates the state before to the state after by [R] and emits only
    events that satisfy [P]. *)
Definition respects {A} (R : St -> St -> Prop) (P : Event -> Prop) (m : M A) : Prop :=
  forall e s, R s (final (m e s)) /\ Forall P (output (m e s)).

(** The states that agree on a projection. *)
Definition same {X} (proj : St -> X) : St -> St -> Prop :=
  fun s s' => proj s' = proj s.

(** No constraint on the state. *)
Definition any_state : St -> St -> Prop := fun _ _ => True.

(** [m] calls [submitOrder] at most [n] times. *)
Definition submits_at_most {A} (n : nat) (m : M A) : Prop :=
  forall e s, submitOrder_calls (output (m e s)) <= n.

(** [m] does not throw. *)
Definition total {A} (m : M A) : Prop :=
  forall e s, exists a, result (m e s) = Ok a.

(** An invariant kept: the relation of a state that satisfies [I] to a state
    that still does. *)
Definition keeps (I : St -> Prop) : St -> St -> Prop :=
  fun s s' => I s -> I s'.

(** ** Postconditions *)

(** [post] holds of the result, the final state and the output of [m] run
    in [e] from [s]. *)
Definition wp {A} (m : M A) (post : Res A -> St -> list Event -> Prop) (e : Env) (s : St)
  : Prop :=
  post (result (m e s)) (final (m e s)) (output (m e s)).


(** ** The store as a whole *)

(** A table whose entries sit under their own [id], once each, below the
    counter that numbers the next entry. *)
Definition table_ok {V} (id : V -> nat) (next : nat) (m : Map V) : Prop :=
  well_keyed id m /\ Forall (fun entry => fst entry < next) m.

Definition store_ok (st : MemStorage.t) : Prop :=
  let n := MemStorage.nextId st in
  table_ok ApiKey.id (MemStorage.n_apiKeys n) (MemStorage.apiKeys st)
  /\ table_ok BotSettings.id (MemStorage.n_botSettings n) (MemStorage.botSettings st)
  /\ table_ok Position.id (MemStorage.n_positions n) (MemStorage.positions st)
  /\ table_ok Trade.id (MemStorage.n_trades n) (MemStorage.trades st)
  /\ table_ok PerformanceMetrics.id (MemStorage.n_performanceMetrics n)
       (MemStorage.performanceMetrics st)
  /\ table_ok SystemLog.id (MemStorage.n_systemLogs n) (MemStorage.systemLogs st).

(** The operations of the store that write. *)
Inductive StoreOp :=
| op_createApiKey (apiKey : ApiKey.insert)
| op_updateApiKey (id : nat) (patch : ApiKey.partial)
| op_createBotSettings (settings : BotSettings.insert)
| op_updateBotSettings (id : nat) (patch : BotSettings.partial)
| op_createPosition (position : Position.insert)
| op_updatePosition (id : nat) (patch : Position.partial)
| op_deletePosition (id : nat)
| op_createTrade (trade : Trade.insert)
| op_createPerformanceMetrics (metrics : PerformanceMetrics.insert)
| op_updatePerformanceMetrics (id : nat) (patch : PerformanceMetrics.partial)
| op_createSystemLog (log : SystemLog.insert)
| op_clearSystemLogs (userId : nat).

(** The store after an operation at time [now]. *)
Definition StoreOp_run (now : Z) (op : StoreOp) (st : MemStorage.t) : MemStorage.t :=
  match op with
  | op_createApiKey apiKey => snd (MemStorage.createApiKey now st apiKey)
  | op_updateApiKey id patch => snd (MemStorage.updateApiKey st id patch)
  | op_createBotSettings settings => snd (MemStorage.createBotSettings now st settings)
  | op_updateBotSettings id patch => snd (MemStorage.updateBotSettings now st id patch)
  | op_createPosition position => snd (MemStorage.createPosition now st position)
  | op_updatePosition id patch => snd (MemStorage.updatePosition now st id patch)
  | op_deletePosition id => snd (MemStorage.deletePosition st id)
  | op_createTrade trade => snd (MemStorage.createTrade now st trade)
  | op_createPerformanceMetrics metrics =>
      snd (MemStorage.createPerformanceMetrics now st metrics)
  | op_updatePerformanceMetrics id patch =>
      snd (MemStorage.updatePerformanceMetrics now st id patch)
  | op_createSystemLog log => snd (MemStorage.createSystemLog now st log)
  | op_clearSystemLogs userId => snd (MemStorage.clearSystemLogs st userId)
  end.

(** A list in the order [getTradesByUserId] and [getSystemLogsByUserId]
    answer in: latest first. *)
Fixpoint latest_first {A} (timestamp : A -> Z) (l : list A) : Prop :=
  match l with
  | [] => True
  | a :: rest =>
      Forall (fun b => (timestamp b <= timestamp a)%Z) rest /\ latest_first timestamp rest
  end.

(** A symbol with no dot in it. *)
Definition dotless (symbol : string) : Prop :=
  ~ In "."%char (list_ascii_of_string symbol).

(** The experiences [entries] added to a replay buffer, first to last. *)
Definition ReplayBuffer_add_all {Tensor} (self : ReplayBuffer.t Tensor)
    (entries : list (ReplayBuffer.entry Tensor)) : ReplayBuffer.t Tensor :=
  fold_left
    (fun self x =>
       ReplayBuffer.add self (ReplayBuffer.state x) (ReplayBuffer.action x)
         (ReplayBuffer.reward x) (ReplayBuffer.nextState x) (ReplayBuffer.done x))
    entries self.

(** The strategy [createStrategy type] builds reads the latest tick: it is
    the mean reversion (also the default) with its 14 points of history, or
    the momentum strategy with its 10. *)
Definition needs_a_tick (type : string) (historicalData : option (list MarketData.t))
  : Prop :=
  exists history,
    historicalData = Some history
    /\ ((type = "momentum" /\ 10 <= length history)
        \/ (selects_default type /\ 14 <= length history)).

(** ** A start that waits for the model file *)

(** ** Comparing runs *)

(** Two runs with the same result and the same final state, whose outward
    calls are the same up to their order. *)
Definition same_run {A} (x y : Res A * St * list Event) : Prop :=
  result x = result y /\ final x = final y /\ output x ≡ₚ output y.

Definition agree {A} (m1 m2 : M A) : Prop :=
  forall e s, same_run (m1 e s) (m2 e s).

(** The run [x] after the outward calls [out]. *)
Definition prefixed {A} (out : list Event) (x : Res A * St * list Event)
  : Res A * St * list Event :=
  (result x, final x, out ++ output x).

(** The calls [tasks], each run to its end, one after the other. *)
Fixpoint alone_all (tasks : list Task) : M unit :=
  match tasks with
  | [] => ret tt
  | task :: tasks => alone task;; alone_all tasks
  end.

Module Race.
(** User 1 on the learned-model strategy with stored credentials, connected
    on socket 7, the bot not running. *)
Definition botSettings : BotSettings.t :=
  BotSettings.mk 1 1 false "reinforcement" 5 "high" 0.

Definition store : MemStorage.t :=
  MemStorage.mk [(1, Demo.apiKey)] [(1, botSettings)] [] [] [] []
    (MemStorage.mkIds 2 2 1 1 1 1).

Definition server : Server :=
  mkServer (mkSt store {[1 := [7]]} ∅ ∅ ∅ 0 None {[7 := 1]}) [].

(** The saved model exists and loads. *)
Definition env : Env :=
  mkEnv 0 (fun _ => Ok Demo.account) (fun _ order => Ok (Demo.accept order))
    (fun _ => true) (Some (Ok tt)) (fun _ => Ok []) (fun _ _ => Ok []).

(** A [startBot] message is handled and the start it makes goes on until it
    waits for the model file: the handler is call 0, the start call 1, and
    call 2 is the [loadModel()] that the creation of the singleton has
    started. *)
Definition start_until_load : list Step :=
  [arrives 7 startBot; resumes 0; resumes 0; resumes 1; resumes 1].

(** The model file is read: call 2 ends, and call [start] goes on to its
    end. *)
Definition load_and_finish (start : nat) : list Step :=
  [resumes 2] ++ replicate 4 (resumes start).

(** A second [startBot] arrives while the first start waits; its handler is
    call 3 and its start, call 4, goes on until it waits for the file too.
    Then the file is read and both starts end. *)
Definition two_starts : list Step :=
  start_until_load
  ++ [arrives 7 startBot; resumes 3; resumes 3; resumes 4; resumes 4]
  ++ load_and_finish 1 ++ replicate 4 (resumes 4).

(** The second [startBot] arrives when the first start has ended. *)
Definition starts_in_turn : list Step :=
  start_until_load ++ load_and_finish 1
  ++ [arrives 7 startBot; resumes 3; resumes 3] ++ replicate 6 (resumes 4).

(** A [stopBot] arrives while the start waits and is handled to its end
    (call 3); then the file is read and the start ends. *)
Definition stop_while_starting : list Step :=
  start_until_load
  ++ [arrives 7 stopBot; resumes 3; resumes 3; resumes 3]
  ++ load_and_finish 1.

(** The [stopBot] arrives when the start has ended. *)
Definition stop_after_start : list Step :=
  start_until_load ++ load_and_finish 1
  ++ [arrives 7 stopBot; resumes 3; resumes 3; resumes 3].
End Race.
(* ===================================================================== *)
(** * Part III.  Proofs                                                   *)
(* ===================================================================== *)

(** ** Runs of the combinators *)

Lemma run_bind {A B} (m : M A) (k : A -> M B) e s :
  bind m k e s =
  match m e s with
  | (Ok a, s1, out1) => (result (k a e s1), final (k a e s1), out1 ++ output (k a e s1))
  | (Throw err, s1, out1) => (Throw err, s1, out1)
  end.
Proof.
  unfold bind, result, final, output.
  destruct (m e s) as [[[a|err] s1] out1]; [|reflexivity].
  destruct (k a e s1) as [[r s2] out2]; reflexivity.
Qed.

Lemma run_try_catch {A} (m : M A) (h : Error -> M A) e s :
  try_catch m h e s =
  match m e s with
  | (Ok a, s1, out1) => (Ok a, s1, out1)
  | (Throw err, s1, out1) =>
      (result (h err e s1), final (h err e s1), out1 ++ output (h err e s1))
  end.
Proof.
  unfold try_catch, result, final, output.
  destruct (m e s) as [[[a|err] s1] out1]; [reflexivity|].
  destruct (h err e s1) as [[r s2] out2]; reflexivity.
Qed.

Lemma run_eta {A} (x : Res A * St * list Event) : x = (result x, final x, output x).
Proof. destruct x as [[r s] out]; reflexivity. Qed.

Section Respects.
Context (R : St -> St -> Prop) `{!PreOrder R} (P : Event -> Prop).

Lemma respects_ret {A} (a : A) : respects R P (ret a).
Proof. intros e s; split; [reflexivity | constructor]. Qed.

Lemma respects_throw {A} err : respects R P (@throw A err).
Proof. intros e s; split; [reflexivity | constructor]. Qed.

Lemma respects_ask : respects R P ask.
Proof. intros e s; split; [reflexivity | constructor]. Qed.

Lemma respects_get : respects R P get.
Proof. intros e s; split; [reflexivity | constructor]. Qed.

Lemma respects_lift {A} (r : Res A) : respects R P (lift r).
Proof. destruct r; [apply respects_ret | apply respects_throw]. Qed.

Lemma respects_emit ev : P ev -> respects R P (emit ev).
Proof. intros H e s; split; [reflexivity | repeat constructor; exact H]. Qed.

Lemma respects_emit_all evs : Forall P evs -> respects R P (emit_all evs).
Proof. intros H e s; split; [reflexivity | exact H]. Qed.

Lemma respects_modify f : (forall s, R s (f s)) -> respects R P (modify f).
Proof. intros H e s; split; [apply H | constructor]. Qed.

Lemma respects_bind {A B} (m : M A) (k : A -> M B) :
  respects R P m -> (forall a, respects R P (k a)) -> respects R P (bind m k).
Proof.
  intros Hm Hk e s. rewrite run_bind.
  destruct (Hm e s) as [HR HP]. rewrite (run_eta (m e s)) in *.
  destruct (result (m e s)) as [a|err]; cbn in *.
  - destruct (Hk a e (final (m e s))) as [HR' HP']. split.
    + etransitivity; eassumption.
    + apply Forall_app; split; assumption.
  - split; assumption.
Qed.

Lemma respects_try_catch {A} (m : M A) (h : Error -> M A) :
  respects R P m -> (forall err, respects R P (h err)) -> respects R P (try_catch m h).
Proof.
  intros Hm Hh e s. rewrite run_try_catch.
  destruct (Hm e s) as [HR HP]. rewrite (run_eta (m e s)) in *.
  destruct (result (m e s)) as [a|err]; cbn in *.
  - split; assumption.
  - destruct (Hh err e (final (m e s))) as [HR' HP']. split.
    + etransitivity; eassumption.
    + apply Forall_app; split; assumption.
Qed.

Lemma respects_read {A} (f : MemStorage.t -> A) : respects R P (storage.read f).
Proof. intros e s; split; [reflexivity | constructor]. Qed.

Lemma respects_write {A} (f : Z -> MemStorage.t -> A * MemStorage.t) :
  (forall now s, R s (set_storage (fun _ => snd (f now (storage s))) s)) ->
  respects R P (storage.write f).
Proof.
  intros H e s. unfold storage.write, final, output.
  specialize (H (Date_now e) s).
  destruct (f (Date_now e) (storage s)) as [a st]; cbn in *.
  split; [exact H | constructor].
Qed.

Lemma respects_broadcastToUser userId data :
  P (broadcastToUser_call userId data) ->
  (forall socket, P (socket_send socket data)) ->
  respects R P (broadcastToUser userId data).
Proof.
  intros H1 H2 e s. unfold broadcastToUser, final, output.
  destruct (activeConnections s !! userId) as [connections|]; cbn.
  - split; [reflexivity|]. constructor; [exact H1|].
    apply List.Forall_forall. intros ev Hev. apply in_map_iff in Hev.
    destruct Hev as [socket [<- _]]. apply H2.
  - split; [reflexivity | repeat constructor; exact H1].
Qed.
End Respects.


#[global] Instance any_state_preorder : PreOrder any_state.
Proof. split; intros ?; intros; exact I. Qed.

#[global] Instance same_preorder {X} (proj : St -> X) : PreOrder (same proj).
Proof.
  split.
  - intros s. reflexivity.
  - intros s1 s2 s3 H12 H23. unfold same in *. congruence.
Qed.

(** ** Symbolic execution *)

Section WP.
Context (e : Env).

Lemma wp_ret {A} (a : A) post s : post (Ok a) s [] -> wp (ret a) post e s.
Proof. exact id. Qed.

Lemma wp_throw {A} err (post : Res A -> _) s :
  post (Throw err) s [] -> wp (throw err) post e s.
Proof. exact id. Qed.

Lemma wp_lift {A} (r : Res A) post s : post r s [] -> wp (lift r) post e s.
Proof. destruct r; exact id. Qed.

Lemma wp_ask post s : post (Ok e) s [] -> wp ask post e s.
Proof. exact id. Qed.

Lemma wp_get post s : post (Ok s) s [] -> wp get post e s.
Proof. exact id. Qed.

Lemma wp_modify f post s : post (Ok tt) (f s) [] -> wp (modify f) post e s.
Proof. exact id. Qed.

Lemma wp_emit ev post s : post (Ok tt) s [ev] -> wp (emit ev) post e s.
Proof. exact id. Qed.

Lemma wp_emit_all evs post s : post (Ok tt) s evs -> wp (emit_all evs) post e s.
Proof. exact id. Qed.

Lemma wp_read {A} (f : MemStorage.t -> A) post s :
  post (Ok (f (storage s))) s [] -> wp (storage.read f) post e s.
Proof. exact id. Qed.

Lemma wp_write {A} (f : Z -> MemStorage.t -> A * MemStorage.t) post s :
  post (Ok (fst (f (Date_now e) (storage s))))
       (set_storage (fun _ => snd (f (Date_now e) (storage s))) s) [] ->
  wp (storage.write f) post e s.
Proof.
  unfold wp, storage.write, result, final, output.
  destruct (f (Date_now e) (storage s)) as [a st]. exact id.
Qed.

Lemma wp_bind {A B} (m : M A) (k : A -> M B) post s :
  wp m (fun r s1 out1 =>
          match r with
          | Ok a => wp (k a) (fun r' s2 out2 => post r' s2 (out1 ++ out2)) e s1
          | Throw err => post (Throw err) s1 out1
          end) e s ->
  wp (bind m k) post e s.
Proof.
  unfold wp. rewrite run_bind.
  destruct (m e s) as [[[a|err] s1] out1]; exact id.
Qed.

Lemma wp_try_catch {A} (m : M A) (h : Error -> M A) post s :
  wp m (fun r s1 out1 =>
          match r with
          | Ok a => post (Ok a) s1 out1
          | Throw err => wp (h err) (fun r' s2 out2 => post r' s2 (out1 ++ out2)) e s1
          end) e s ->
  wp (try_catch m h) post e s.
Proof.
  unfold wp. rewrite run_try_catch.
  destruct (m e s) as [[[a|err] s1] out1]; exact id.
Qed.

Lemma wp_respects {A} (R : St -> St -> Prop) (P : Event -> Prop) (m : M A) post s :
  respects R P m ->
  (forall r s1 out1, R s s1 -> Forall P out1 -> post r s1 out1) ->
  wp m post e s.
Proof. intros H Hpost. destruct (H e s) as [HR HP]. apply Hpost; assumption. Qed.

Lemma wp_run {A} (m : M A) post s r s1 out1 :
  m e s = (r, s1, out1) -> post r s1 out1 -> wp m post e s.
Proof. unfold wp. intros ->. exact id. Qed.

Lemma wp_mono {A} (m : M A) (post post' : Res A -> St -> list Event -> Prop) s :
  wp m post e s -> (forall r s1 out1, post r s1 out1 -> post' r s1 out1) ->
  wp m post' e s.
Proof. intros H Himp. apply Himp, H. Qed.
End WP.

Lemma broadcastToUser_run userId msg e s :
  broadcastToUser userId msg e s =
  (Ok tt, s,
   broadcastToUser_call userId msg
   :: map (fun socket => socket_send socket msg) (receivers e s userId)).
Proof.
  unfold broadcastToUser, receivers.
  destruct (activeConnections s !! userId); reflexivity.
Qed.

Lemma wp_broadcastToUser userId msg post e s :
  post (Ok tt) s
    (broadcastToUser_call userId msg
     :: map (fun socket => socket_send socket msg) (receivers e s userId)) ->
  wp (broadcastToUser userId msg) post e s.
Proof. apply wp_run, broadcastToUser_run. Qed.

Lemma Forall_broadcast (P : Event -> Prop) userId msg sockets :
  P (broadcastToUser_call userId msg) ->
  (forall socket, P (socket_send socket msg)) ->
  Forall P (broadcastToUser_call userId msg
            :: map (fun socket => socket_send socket msg) sockets).
Proof.
  intros H1 H2. constructor; [exact H1|].
  apply List.Forall_forall. intros ev Hev. apply in_map_iff in Hev.
  destruct Hev as [socket [<- _]]. apply H2.
Qed.

(** The console lines of the learned-model strategy. *)

Lemma RL_loadModel_console e self :
  Forall (fun ev => is_console ev = true) (RL.loadModel e self).2.
Proof.
  unfold RL.loadModel, RL.loadModel_call, RL.loadModel_resume.
  destruct (model_file e) as [[|]|]; cbn;
    repeat case_match; simplify_eq; cbn; repeat constructor.
Qed.

Lemma RL_generateSignal_console e self symbol data history :
  Forall (fun ev => is_console ev = true) (RL.generateSignal e self symbol data history).2.
Proof.
  unfold RL.generateSignal.
  repeat (case_match; cbn; try solve [repeat constructor]).
Qed.

(** ** Tactics *)

Arguments MemStorage.getApiKeyByUserId : simpl never.
Arguments MemStorage.getBotSettingsByUserId : simpl never.
Arguments MemStorage.updateBotSettings : simpl never.
Arguments MemStorage.getPositionsByUserId : simpl never.
Arguments MemStorage.updatePosition : simpl never.
Arguments MemStorage.createTrade : simpl never.
Arguments MemStorage.getPerformanceMetricsByUserId : simpl never.
Arguments MemStorage.updatePerformanceMetrics : simpl never.
Arguments MemStorage.createSystemLog : simpl never.
Arguments MemStorage.getTradesByUserId : simpl never.
Arguments MemStorage.getSystemLogsByUserId : simpl never.
Arguments Array_find : simpl never.
Arguments Array_filter : simpl never.
Arguments Map_get : simpl never.
Arguments Map_set : simpl never.
Arguments parseAlpacaWebSocketMessage : simpl never.
Arguments createStrategy : simpl never.
Arguments AlpacaClient.is_test_key : simpl never.
Arguments getAlpacaClient : simpl never.
Arguments historicalData_of : simpl never.
Arguments updateInterval : simpl never.

Create HintDb pipeline.
#[global] Hint Unfold storage.getApiKeyByUserId storage.getBotSettingsByUserId
  storage.updateBotSettings storage.getPositionsByUserId storage.updatePosition
  storage.createTrade storage.getPerformanceMetricsByUserId
  storage.updatePerformanceMetrics storage.createSystemLog storage.getTradesByUserId
  storage.getSystemLogsByUserId console_error AlpacaClient_getAccount
  AlpacaClient_makeRequest_order AlpacaClient_submitOrder
  getReinforcementLearningStrategy rl_updateMarketData rl_generateSignal rl_loadModel
  rl_setAlpacaClient setInterval clearInterval : pipeline.

(** The named steps of the handlers. *)
Create HintDb steps.
#[global] Hint Unfold reconcilePosition positionReconciliation evaluateStrategy sizeOrder
  placeOrder orderDecision strategyAndOrder handleAlpacaWebsocketMessage
  initializeRLModel stopTradingBot startTradingBot on_message on_close : steps.

(** Console lines satisfy an event predicate that holds of every console
    line. *)
Ltac console_only :=
  eapply Forall_impl;
  [ eassumption
  | intros []; cbn; intros;
    solve [reflexivity | discriminate | trivial | repeat constructor] ].

(** The writes of the store that keep a table when the entry is absent. *)
Create HintDb store.
#[global] Hint Unfold MemStorage.updateBotSettings MemStorage.updatePosition
  MemStorage.updatePerformanceMetrics : store.

Ltac frame_side :=
  intros; unfold same; cbn;
  try solve [ reflexivity | trivial | discriminate
            | console_only
            | repeat constructor
            | repeat case_match; cbn; reflexivity
            | autounfold with store; repeat case_match; reflexivity ].

(** One step of a frame proof, by the shape of the computation. *)
Ltac frame_step :=
  lazymatch goal with
  | |- respects ?R ?P (bind _ _) => apply (respects_bind R P); [| intros ?]
  | |- respects ?R ?P (try_catch _ _) => apply (respects_try_catch R P); [| intros ?]
  | |- respects ?R ?P (ret _) => apply (respects_ret R P)
  | |- respects ?R ?P (throw _) => apply (respects_throw R P)
  | |- respects ?R ?P ask => apply (respects_ask R P)
  | |- respects ?R ?P get => apply (respects_get R P)
  | |- respects ?R ?P (lift _) => apply (respects_lift R P)
  | |- respects ?R ?P (emit _) => apply (respects_emit R P); frame_side
  | |- respects ?R ?P (emit_all _) => apply (respects_emit_all R P); frame_side
  | |- respects ?R ?P (modify _) => apply (respects_modify R P); frame_side
  | |- respects ?R ?P (storage.read _) => apply (respects_read R P)
  | |- respects ?R ?P (storage.write _) => apply (respects_write R P); frame_side
  | |- respects ?R ?P (broadcastToUser _ _) =>
      apply (respects_broadcastToUser R P); frame_side
  | |- respects _ _ (let '(_, _) := RL.loadModel ?e ?x in _) =>
      let H := fresh "Hlines" in
      pose proof (RL_loadModel_console e x) as H;
      destruct (RL.loadModel e x) as [[? ?] ?]; cbn in H
  | |- respects _ _ (let '(_, _) := RL.generateSignal ?e ?x ?a ?b ?c in _) =>
      let H := fresh "Hlines" in
      pose proof (RL_generateSignal_console e x a b c) as H;
      destruct (RL.generateSignal e x a b c) as [[? ?] ?]; cbn in H
  | |- respects _ _ (match ?x with _ => _ end) => destruct x
  | |- respects _ _ _ => progress autounfold with pipeline steps
  end.

Ltac frame := repeat frame_step.

(** One step of symbolic execution. *)
Ltac wp_step :=
  lazymatch goal with
  | |- wp (bind _ _) _ _ _ => apply wp_bind
  | |- wp (try_catch _ _) _ _ _ => apply wp_try_catch
  | |- wp (ret _) _ _ _ => apply wp_ret
  | |- wp (throw _) _ _ _ => apply wp_throw
  | |- wp (lift _) _ _ _ => apply wp_lift
  | |- wp ask _ _ _ => apply wp_ask
  | |- wp get _ _ _ => apply wp_get
  | |- wp (modify _) _ _ _ => apply wp_modify
  | |- wp (emit _) _ _ _ => apply wp_emit
  | |- wp (emit_all _) _ _ _ => apply wp_emit_all
  | |- wp (storage.read _) _ _ _ => apply wp_read
  | |- wp (storage.write _) _ _ _ => apply wp_write
  | |- wp (broadcastToUser _ _) _ _ _ => apply wp_broadcastToUser
  | |- wp _ _ _ _ => progress autounfold with pipeline
  end; cbn beta iota.

Ltac wp_steps := repeat wp_step.

(** ** The scheduler *)

Lemma scheduler_ok_ext s s' :
  scheduler_of s' = scheduler_of s -> scheduler_ok s -> scheduler_ok s'.
Proof.
  unfold scheduler_of. intros [= Hb Ht Hn] [H1 H2 H3].
  split; rewrite ?Hb, ?Ht, ?Hn; assumption.
Qed.

Lemma scheduler_ok_init : scheduler_ok St_init.
Proof.
  split; cbn.
  - intros userId intervalId H. rewrite lookup_empty in H. discriminate.
  - intros userId intervalId timer H. rewrite lookup_empty in H. discriminate.
  - intros intervalId _. apply lookup_empty.
Qed.

Lemma stopTradingBot_run userId e s :
  stopTradingBot userId e s = (Ok tt, stopped userId s, []).
Proof.
  unfold stopTradingBot, stopped, clearInterval.
  rewrite run_bind. cbn.
  destruct (activeBots s !! userId) as [intervalId|]; reflexivity.
Qed.

Lemma stopped_unregistered userId s : activeBots (stopped userId s) !! userId = None.
Proof.
  unfold stopped. destruct (activeBots s !! userId) as [intervalId|] eqn:H; cbn.
  - apply lookup_delete_eq.
  - exact H.
Qed.


Lemma stopped_nextTimer userId s : nextTimer (stopped userId s) = nextTimer s.
Proof. unfold stopped. destruct (activeBots s !! userId); reflexivity. Qed.

Lemma is_botUpdate_of_unique timer u v :
  is_botUpdate_of u timer = true -> is_botUpdate_of v timer = true -> u = v.
Proof.
  unfold is_botUpdate_of. destruct (Timer.run timer); [|discriminate].
  intros H1 H2. apply Nat.eqb_eq in H1, H2. congruence.
Qed.

Lemma scheduler_ok_stopped userId s : scheduler_ok s -> scheduler_ok (stopped userId s).
Proof.
  intros [H1 H2 H3]. unfold stopped.
  destruct (activeBots s !! userId) as [intervalId|] eqn:Hreg; [|split; assumption].
  destruct (H1 _ _ Hreg) as (timer & Htimer & Hkind).
  split; cbn.
  - intros u t Hu.
    apply lookup_delete_Some in Hu as [Hne Hu].
    destruct (H1 _ _ Hu) as (timer' & Htimer' & Hkind').
    exists timer'. split; [|exact Hkind'].
    rewrite lookup_delete_ne; [exact Htimer'|].
    intros <-. apply Hne. rewrite Htimer in Htimer'. injection Htimer' as <-.
    eapply is_botUpdate_of_unique; eassumption.
  - intros u t timer' Ht Hkind'.
    apply lookup_delete_Some in Ht as [Hne Ht].
    pose proof (H2 _ _ _ Ht Hkind') as Hu.
    rewrite lookup_delete_ne; [exact Hu|].
    intros <-. apply Hne. congruence.
  - intros t Ht. rewrite lookup_delete_None. right. apply H3, Ht.
Qed.

(** The state after a handle for [userId] is installed. *)
Lemma scheduler_ok_installed userId timer s s' :
  scheduler_ok s ->
  activeBots s !! userId = None ->
  is_botUpdate_of userId timer = true ->
  scheduler_of s'
  = (<[userId := nextTimer s]> (activeBots s), <[nextTimer s := timer]> (timers s),
     S (nextTimer s)) ->
  scheduler_ok s'.
Proof.
  intros [H1 H2 H3] Hnone Hkind. unfold scheduler_of. intros [= Hb Ht Hn].
  split; rewrite ?Hb, ?Ht, ?Hn.
  - intros u t Hu. apply lookup_insert_Some in Hu as [[<- <-]|[Hne Hu]].
    + exists timer. rewrite lookup_insert_eq. split; [reflexivity | exact Hkind].
    + destruct (H1 _ _ Hu) as (timer' & Htimer' & Hkind').
      exists timer'. split; [|exact Hkind'].
      rewrite lookup_insert_ne; [exact Htimer'|].
      intros <-. rewrite H3 in Htimer'; [discriminate | lia].
  - intros u t timer' Htimer' Hkind'.
    apply lookup_insert_Some in Htimer' as [[<- <-]|[Hne Htimer']].
    + rewrite (is_botUpdate_of_unique _ _ _ Hkind' Hkind). apply lookup_insert_eq.
    + pose proof (H2 _ _ _ Htimer' Hkind') as Hu.
      rewrite lookup_insert_ne; [exact Hu|]. intros <-. congruence.
  - intros t Hle. rewrite lookup_insert_ne; [apply H3; lia | lia].
Qed.


(** With the registry and the runtime in agreement, the live handles of a
    user are the registered one, or none. *)
Lemma liveHandles_registered userId s :
  scheduler_ok s ->
  liveHandles userId s =
  match activeBots s !! userId with
  | Some intervalId =>
      match timers s !! intervalId with
      | Some timer => {[intervalId := timer]}
      | None => ∅
      end
  | None => ∅
  end.
Proof.
  intros [H1 H2 H3]. unfold liveHandles. apply map_eq. intros t.
  destruct (activeBots s !! userId) as [intervalId|] eqn:Hreg.
  - destruct (H1 _ _ Hreg) as (timer & Htimer & Hkind). rewrite Htimer.
    destruct (decide (t = intervalId)) as [->|Hne].
    + rewrite lookup_singleton_eq. apply map_lookup_filter_Some. split; assumption.
    + rewrite lookup_singleton_ne by congruence.
      apply map_lookup_filter_None. right. intros timer' Htimer' Hkind'. cbn in Hkind'.
      pose proof (H2 _ _ _ Htimer' Hkind'). congruence.
  - rewrite lookup_empty. apply map_lookup_filter_None. right.
    intros timer' Htimer' Hkind'. cbn in Hkind'.
    pose proof (H2 _ _ _ Htimer' Hkind'). congruence.
Qed.


(** ** Computations that do not throw *)

#[global] Instance keeps_preorder (I : St -> Prop) : PreOrder (keeps I).
Proof.
  split.
  - intros s H. exact H.
  - intros s1 s2 s3 H12 H23 H. apply H23, H12, H.
Qed.

Lemma total_ret {A} (a : A) : total (ret a).
Proof. intros e s. exists a. reflexivity. Qed.

Lemma total_ask : total ask.
Proof. intros e s. exists e. reflexivity. Qed.

Lemma total_get : total get.
Proof. intros e s. exists s. reflexivity. Qed.

Lemma total_modify f : total (modify f).
Proof. intros e s. exists tt. reflexivity. Qed.

Lemma total_emit ev : total (emit ev).
Proof. intros e s. exists tt. reflexivity. Qed.

Lemma total_emit_all evs : total (emit_all evs).
Proof. intros e s. exists tt. reflexivity. Qed.

Lemma total_read {A} (f : MemStorage.t -> A) : total (storage.read f).
Proof. intros e s. eexists. reflexivity. Qed.

Lemma total_write {A} (f : Z -> MemStorage.t -> A * MemStorage.t) : total (storage.write f).
Proof.
  intros e s. unfold storage.write, result.
  destruct (f (Date_now e) (storage s)) as [a st]. exists a. reflexivity.
Qed.

Lemma total_broadcastToUser userId msg : total (broadcastToUser userId msg).
Proof. intros e s. rewrite broadcastToUser_run. exists tt. reflexivity. Qed.

Lemma total_bind {A B} (m : M A) (k : A -> M B) :
  total m -> (forall a, total (k a)) -> total (bind m k).
Proof.
  intros Hm Hk e s. rewrite run_bind.
  destruct (Hm e s) as [a Ha]. rewrite (run_eta (m e s)), Ha.
  destruct (Hk a e (final (m e s))) as [b Hb]. exists b. exact Hb.
Qed.

(** A [try] whose handler does not throw does not throw. *)
Lemma total_try_catch {A} (m : M A) (h : Error -> M A) :
  (forall err, total (h err)) -> total (try_catch m h).
Proof.
  intros Hh e s. rewrite run_try_catch. rewrite (run_eta (m e s)).
  destruct (result (m e s)) as [a|err].
  - exists a. reflexivity.
  - destruct (Hh err e (final (m e s))) as [b Hb]. exists b. exact Hb.
Qed.

Ltac total_step :=
  lazymatch goal with
  | |- total (bind _ _) => apply total_bind; [| intros ?]
  | |- total (try_catch _ _) => apply total_try_catch; intros ?
  | |- total (ret _) => apply total_ret
  | |- total ask => apply total_ask
  | |- total get => apply total_get
  | |- total (modify _) => apply total_modify
  | |- total (emit _) => apply total_emit
  | |- total (emit_all _) => apply total_emit_all
  | |- total (storage.read _) => apply total_read
  | |- total (storage.write _) => apply total_write
  | |- total (broadcastToUser _ _) => apply total_broadcastToUser
  | |- total (match ?x with _ => _ end) => destruct x
  | |- total _ => progress autounfold with pipeline
  end.

Ltac total_tac := repeat total_step.

Lemma wp_respects_total {A} (R : St -> St -> Prop) (P : Event -> Prop) (m : M A)
    post e s :
  respects R P m -> total m ->
  (forall a s1 out1, R s s1 -> Forall P out1 -> post (Ok a) s1 out1) ->
  wp m post e s.
Proof.
  intros H Ht Hpost. destruct (H e s) as [HR HP]. destruct (Ht e s) as [a Ha].
  unfold wp. rewrite Ha. apply Hpost; assumption.
Qed.

(** ** [startTradingBot] *)

Lemma total_initializeRLModel userId apiKey isTestMode :
  total (initializeRLModel userId apiKey isTestMode).
Proof. unfold initializeRLModel. total_tac. Qed.

Lemma total_stopTradingBot userId : total (stopTradingBot userId).
Proof. intros e s. rewrite stopTradingBot_run. exists tt. reflexivity. Qed.

Lemma total_startTradingBot userId : total (startTradingBot userId).
Proof.
  unfold startTradingBot.
  apply total_bind; [apply total_stopTradingBot | intros _].
  total_tac. apply total_initializeRLModel.
Qed.

(** The learned-model initialisation leaves the scheduler and the accounts
    of the store alone. *)
Lemma initializeRLModel_frame userId apiKey isTestMode :
  respects (same (fun s => (scheduler_of s, apiKeys_of s, botSettings_of s)))
    (fun _ => True) (initializeRLModel userId apiKey isTestMode).
Proof. frame. Qed.

Lemma storage_stopped userId s : storage (stopped userId s) = storage s.
Proof. unfold stopped. destruct (activeBots s !! userId); reflexivity. Qed.

(** What [startTradingBot] does to the scheduler: it stops the user's bot,
    and installs a fresh handle when the user has an API key and active
    settings. *)
Lemma startTradingBot_scheduler userId e s :
  let s' := final (startTradingBot userId e s) in
  apiKeys_of s' = apiKeys_of s
  /\ botSettings_of s' = botSettings_of s
  /\ match MemStorage.getApiKeyByUserId (storage s) userId,
           MemStorage.getBotSettingsByUserId (storage s) userId with
     | Some apiKey, Some botSettings =>
         if BotSettings.isActive botSettings then
           scheduler_of s'
           = (<[userId := nextTimer s]> (activeBots (stopped userId s)),
              <[nextTimer s :=
                  Timer.mk (Timer.botUpdate userId apiKey)
                    (updateInterval (BotSettings.tradingFrequency botSettings))]>
                (timers (stopped userId s)),
              S (nextTimer s))
         else scheduler_of s' = scheduler_of (stopped userId s)
     | _, _ => scheduler_of s' = scheduler_of (stopped userId s)
     end.
Proof.
  cbv zeta.
  change (wp (startTradingBot userId)
            (fun _ s' _ =>
               apiKeys_of s' = apiKeys_of s
               /\ botSettings_of s' = botSettings_of s
               /\ match MemStorage.getApiKeyByUserId (storage s) userId,
                        MemStorage.getBotSettingsByUserId (storage s) userId with
                  | Some apiKey, Some botSettings =>
                      if BotSettings.isActive botSettings then
                        scheduler_of s'
                        = (<[userId := nextTimer s]> (activeBots (stopped userId s)),
                           <[nextTimer s :=
                               Timer.mk (Timer.botUpdate userId apiKey)
                                 (updateInterval (BotSettings.tradingFrequency botSettings))]>
                             (timers (stopped userId s)),
                           S (nextTimer s))
                      else scheduler_of s' = scheduler_of (stopped userId s)
                  | _, _ => scheduler_of s' = scheduler_of (stopped userId s)
                  end) e s).
  unfold startTradingBot.
  wp_step. eapply wp_run; [apply stopTradingBot_run|]. cbn beta iota.
  wp_steps.
  rewrite !storage_stopped.
  assert (Hk : apiKeys_of (stopped userId s) = apiKeys_of s)
    by (unfold apiKeys_of; rewrite storage_stopped; reflexivity).
  assert (Hb : botSettings_of (stopped userId s) = botSettings_of s)
    by (unfold botSettings_of; rewrite storage_stopped; reflexivity).
  destruct (MemStorage.getApiKeyByUserId (storage s) userId) as [apiKey|];
    [|wp_step; auto].
  destruct (MemStorage.getBotSettingsByUserId (storage s) userId) as [botSettings|];
    [|wp_step; auto].
  destruct (BotSettings.isActive botSettings); cbn [negb]; [|wp_step; auto].
  wp_step.
  apply (wp_respects_total
           (same (fun s => (scheduler_of s, apiKeys_of s, botSettings_of s)))
           (fun _ => True)).
  { destruct (String.eqb _ _); [apply initializeRLModel_frame|]. frame. }
  { destruct (String.eqb _ _); [apply total_initializeRLModel | apply total_ret]. }
  intros [] s1 out1 HR _. unfold same in HR. cbn beta in HR.
  unfold scheduler_of in HR. injection HR as Ha Ht Hn Hk1 Hb1.
  wp_steps. split; [|split].
  - transitivity (apiKeys_of s1); [reflexivity | congruence].
  - transitivity (botSettings_of s1); [reflexivity | congruence].
  - unfold scheduler_of. cbn. rewrite Ha, Ht, Hn, stopped_nextTimer. reflexivity.
Qed.


Lemma getBotSettingsByUserId_ext s s' userId :
  botSettings_of s' = botSettings_of s ->
  MemStorage.getBotSettingsByUserId (storage s') userId
  = MemStorage.getBotSettingsByUserId (storage s) userId.
Proof. unfold botSettings_of, MemStorage.getBotSettingsByUserId. intros ->. reflexivity. Qed.

(** ** The registry and the runtime stay in agreement *)



Lemma startTradingBot_keeps userId :
  respects (keeps scheduler_ok) (fun _ => True) (startTradingBot userId).
Proof.
  intros e s. split; [|apply Forall_forall; auto].
  intros Hok.
  destruct (startTradingBot_scheduler userId e s) as (_ & _ & H).
  pose proof (scheduler_ok_stopped userId s Hok) as Hstopped.
  destruct (MemStorage.getApiKeyByUserId (storage s) userId) as [apiKey|];
    [|eapply scheduler_ok_ext; eassumption].
  destruct (MemStorage.getBotSettingsByUserId (storage s) userId) as [botSettings|];
    [|eapply scheduler_ok_ext; eassumption].
  destruct (BotSettings.isActive botSettings); [|eapply scheduler_ok_ext; eassumption].
  eapply scheduler_ok_installed;
    [exact Hstopped | apply stopped_unregistered | | rewrite stopped_nextTimer; exact H].
  cbn. apply Nat.eqb_refl.
Qed.









(** ** Tables stored under their own identifiers *)

Section WellKeyed.
Context {V : Type} (id : V -> nat).

Lemma well_keyed_cons k v (m : Map V) :
  well_keyed id ((k, v) :: m) -> k = id v /\ (k ∉ map fst m) /\ well_keyed id m.
Proof.
  intros [Hkeys Hnodup]. apply Forall_cons in Hkeys as [Hk Hkeys].
  apply NoDup_cons in Hnodup as [Hnotin Hnodup]. repeat split; assumption.
Qed.

Lemma keyed_value_key (m : Map V) v :
  Forall (fun entry => fst entry = id (snd entry)) m ->
  v ∈ Map_values m -> id v ∈ map fst m.
Proof.
  intros Hkeys Hin. unfold Map_values in Hin.
  apply list_elem_of_In, in_map_iff in Hin as [[k x] [Hx Hin]]. cbn in Hx. subst x.
  apply list_elem_of_In, in_map_iff. exists (k, v). split; [|exact Hin].
  apply list_elem_of_In in Hin.
  rewrite Forall_forall in Hkeys. apply (Hkeys _ Hin).
Qed.

Lemma Array_find_elem (p : V -> bool) (l : list V) v :
  Array_find p l = Some v -> v ∈ l /\ p v = true.
Proof.
  unfold Array_find. intros H. apply find_some in H as [Hin Hp].
  split; [apply list_elem_of_In, Hin | exact Hp].
Qed.

(** The entry found by a scan of the values is the one stored under its
    identifier. *)
Lemma Map_get_found (p : V -> bool) (m : Map V) v :
  well_keyed id m -> Array_find p (Map_values m) = Some v -> Map_get (id v) m = Some v.
Proof.
  induction m as [|[k x] m IH]; intros Hwf Hfind; [discriminate|].
  apply well_keyed_cons in Hwf as (Hk & Hnotin & Hwf). cbn in Hk.
  unfold Array_find, Map_values in Hfind. cbn in Hfind. unfold Map_get. cbn.
  destruct (p x) eqn:Hpx.
  - injection Hfind as ->. rewrite Hk, Nat.eqb_refl. reflexivity.
  - fold (Map_values m) in Hfind. fold (Array_find p (Map_values m)) in Hfind.
    destruct (Nat.eqb (id v) k) eqn:Hkey.
    + exfalso. apply Nat.eqb_eq in Hkey. apply Hnotin. rewrite <- Hkey.
      apply keyed_value_key; [apply Hwf|]. apply (Array_find_elem _ _ _ Hfind).
    + apply IH; assumption.
Qed.




End WellKeyed.

(** ** [startBot] and [stopBot] *)





Lemma scheduler_ok_demo : scheduler_ok Demo.server.
Proof. eapply scheduler_ok_ext; [|apply scheduler_ok_init]. reflexivity. Qed.



(** C8.  The period of the recurring update is a fixed lookup on the
    trading frequency: 300000 ms for ['low'], 60000 ms for ['medium'],
    10000 ms for ['high'] and the default 60000 ms for anything else; and the
    handle [startTradingBot] installs for a user with an API key and active
    settings runs with the period looked up for the user's
    [tradingFrequency], whatever else the settings, the store or the
    environment hold. *)
Theorem scheduler_period_lookup :
  updateInterval "low" = 300000%Z
  /\ updateInterval "medium" = 60000%Z
  /\ updateInterval "high" = 10000%Z
  /\ (forall tradingFrequency,
         tradingFrequency <> "low" -> tradingFrequency <> "medium" ->
         tradingFrequency <> "high" ->
         updateInterval tradingFrequency = 60000%Z)
  /\ (forall userId e s apiKey botSettings,
         MemStorage.getApiKeyByUserId (storage s) userId = Some apiKey ->
         MemStorage.getBotSettingsByUserId (storage s) userId = Some botSettings ->
         BotSettings.isActive botSettings = true ->
         exists intervalId timer,
           activeBots (final (startTradingBot userId e s)) !! userId = Some intervalId
           /\ timers (final (startTradingBot userId e s)) !! intervalId = Some timer
           /\ Timer.interval timer
              = updateInterval (BotSettings.tradingFrequency botSettings)).
Proof.
  split; [reflexivity|]. split; [reflexivity|]. split; [reflexivity|]. split.
  - intros f Hlow Hmedium Hhigh. unfold updateInterval.
    apply String.eqb_neq in Hlow, Hmedium, Hhigh.
    rewrite Hlow, Hmedium, Hhigh. reflexivity.
  - intros userId e s apiKey botSettings Hkey Hsettings Hactive.
    destruct (startTradingBot_scheduler userId e s) as (_ & _ & H).
    rewrite Hkey, Hsettings, Hactive in H.
    unfold scheduler_of in H. injection H as Ha Ht _.
    eexists _, _. rewrite Ha, Ht, !lookup_insert_eq. repeat split.
Qed.

(** The demo user trades at high frequency: the handle runs every 10 s; and
    an unknown frequency gets the default. *)
Lemma scheduler_period_lookup_witness :
  updateInterval "hourly" = 60000%Z
  /\ exists intervalId timer,
       activeBots (final (startTradingBot 1 Demo.accepting Demo.server)) !! 1
       = Some intervalId
       /\ timers (final (startTradingBot 1 Demo.accepting Demo.server)) !! intervalId
          = Some timer
       /\ Timer.interval timer = 10000%Z.
Proof.
  destruct scheduler_period_lookup as (_ & _ & _ & Hother & Hstart).
  split.
  - apply Hother; discriminate.
  - apply (Hstart 1 Demo.accepting Demo.server Demo.apiKey Demo.botSettings); reflexivity.
Defined.



(** ** Overlapping calls *)

(** C3.  The invariant holds as long as no start overlaps another call, and
    fails when two do.  [startTradingBot] is [async] and nobody awaits it:
    between its [stopTradingBot] and its [setInterval] it waits, for the
    store and, on the learned-model strategy, for the model file.  In the
    schedule [Race.two_starts] a second [startBot] message arrives while the
    first start waits for the file: the second start finds no handle to
    clear, and when the file is read both starts install an interval.  Every
    call has then returned, user 1 has two live handles, and the registry
    knows the second only, so that no later stop clears the first.  The same
    two messages, the second arriving when the first start has ended
    ([Race.starts_in_turn], or the two handlers composed), leave one live
    handle. *)
Theorem overlapping_starts_leave_two_handles :
  let overlapped := fst (run Race.env Race.two_starts Race.server) in
  let in_turn := fst (run Race.env Race.starts_in_turn Race.server) in
  let composed :=
    final (on_message 7 startBot Race.env
             (final (on_message 7 startBot Race.env (state Race.server)))) in
  Forall (fun call => call = Done) (suspended overlapped)
  /\ size (liveHandles 1 (state overlapped)) = 2
  /\ timers (state overlapped) !! 0
     = Some (Timer.mk (Timer.botUpdate 1 Demo.apiKey) 10000)
  /\ timers (state overlapped) !! 1
     = Some (Timer.mk (Timer.botUpdate 1 Demo.apiKey) 10000)
  /\ activeBots (state overlapped) !! 1 = Some 1
  /\ timers (final (stopTradingBot 1 Race.env (state overlapped))) !! 0
     = Some (Timer.mk (Timer.botUpdate 1 Demo.apiKey) 10000)
  /\ Forall (fun call => call = Done) (suspended in_turn)
  /\ size (liveHandles 1 (state in_turn)) = 1
  /\ size (liveHandles 1 composed) = 1.
Proof.
  vm_compute. repeat split; repeat constructor.
Qed.

(** C6.  The round trip holds when the stop is handled after the start has
    run to its end, and fails when it is handled while the start waits.  In
    the schedule [Race.stop_while_starting] the [stopBot] message arrives while
    the start made by the [startBot] message waits for the model file: the
    stop writes [isActive = false], finds no handle to clear and broadcasts
    [botStatus] with [isActive = false]; the start, which read the settings
    before, then installs its interval and broadcasts [botStatus] with
    [isActive = true].  Every call has then returned: the settings are
    inactive and user 1 has a live, registered handle.  The same two
    messages, the stop arriving when the start has ended
    ([Race.stop_after_start], or the two handlers composed), leave the
    settings inactive and no handle. *)
Theorem stop_during_start_leaves_a_handle :
  let overlapped := run Race.env Race.stop_while_starting Race.server in
  let after := state (fst overlapped) in
  let in_turn := fst (run Race.env Race.stop_after_start Race.server) in
  let composed :=
    final (on_message 7 stopBot Race.env
             (final (on_message 7 startBot Race.env (state Race.server)))) in
  Forall (fun call => call = Done) (suspended (fst overlapped))
  /\ BotSettings.isActive <$> MemStorage.getBotSettingsByUserId (storage after) 1
     = Some false
  /\ size (liveHandles 1 after) = 1
  /\ activeBots after !! 1 = Some 0
  /\ timers after !! 0 = Some (Timer.mk (Timer.botUpdate 1 Demo.apiKey) 10000)
  /\ (exists before between,
        snd overlapped
        = before
          ++ [broadcastToUser_call 1 (botStatus_msg false None)]
          ++ between
          ++ [broadcastToUser_call 1 (botStatus_msg true (Some "reinforcement"));
              socket_send 7 (botStatus_msg true (Some "reinforcement"))])
  /\ Forall (fun call => call = Done) (suspended in_turn)
  /\ BotSettings.isActive
       <$> MemStorage.getBotSettingsByUserId (storage (state in_turn)) 1
     = Some false
  /\ size (liveHandles 1 (state in_turn)) = 0
  /\ BotSettings.isActive <$> MemStorage.getBotSettingsByUserId (storage composed) 1
     = Some false
  /\ size (liveHandles 1 composed) = 0.
Proof.
  vm_compute. split; [repeat constructor|]. do 4 (split; [reflexivity|]).
  split; [|split; [repeat constructor | repeat split]].
  exists [],
    [socket_send 7 (botStatus_msg false None);
     console "log" "Model loaded successfully";
     console "log" "Reinforcement learning model loaded successfully";
     console "log" "Model loaded successfully";
     console "log" "Reinforcement learning model loaded successfully"].
  reflexivity.
Qed.
(** ** Calls that nothing interrupts

    The compositions [startTradingBot] and [on_message] are the runs of the
    asynchronous calls in which every resumption follows at once. *)

(** Runs that agree. *)

Lemma same_run_refl {A} (x : Res A * St * list Event) : same_run x x.
Proof. repeat split; reflexivity. Qed.

Lemma same_run_eq {A} (x y : Res A * St * list Event) : x = y -> same_run x y.
Proof. intros ->; apply same_run_refl. Qed.

Lemma same_run_trans {A} (x y z : Res A * St * list Event) :
  same_run x y -> same_run y z -> same_run x z.
Proof.
  intros (? & ? & ?) (? & ? & ?); repeat split; etrans; eassumption.
Qed.

Lemma same_run_bind {A B} (m : M A) (k1 k2 : A -> M B) e s :
  (forall a s1, same_run (k1 a e s1) (k2 a e s1)) ->
  same_run (bind m k1 e s) (bind m k2 e s).
Proof.
  intros H. rewrite !run_bind.
  destruct (m e s) as [[[a|err] s1] out1]; [|apply same_run_refl].
  destruct (H a s1) as (Hr & Hs & Hout).
  repeat split; cbn; [assumption .. | by apply Permutation_app_head].
Qed.

Lemma prefixed_prefixed {A} o1 o2 (x : Res A * St * list Event) :
  prefixed o1 (prefixed o2 x) = prefixed (o1 ++ o2) x.
Proof. unfold prefixed. cbn. by rewrite app_assoc. Qed.

Lemma prefixed_nil {A} (x : Res A * St * list Event) : prefixed [] x = x.
Proof. unfold prefixed. cbn. by rewrite <- run_eta. Qed.

Lemma same_run_prefixed {A} o1 o2 (x y : Res A * St * list Event) :
  same_run x y -> o1 ≡ₚ o2 -> same_run (prefixed o1 x) (prefixed o2 y).
Proof.
  intros (Hr & Hs & Ho) H. repeat split; cbn; [assumption..|].
  by apply Permutation_app.
Qed.

(** The laws of sequencing and of [try], run by run. *)

Lemma bind_run {A B} (m : M A) (k : A -> M B) e s a s1 out1 :
  m e s = (Ok a, s1, out1) -> bind m k e s = prefixed out1 (k a e s1).
Proof. intros H. rewrite run_bind, H. reflexivity. Qed.

Lemma bind_assoc {A B C} (m : M A) (f : A -> M B) (g : B -> M C) e s :
  bind (bind m f) g e s = bind m (fun a => bind (f a) g) e s.
Proof.
  rewrite !run_bind.
  destruct (m e s) as [[[a|err] s1] out1]; [|reflexivity].
  rewrite run_bind.
  destruct (f a e s1) as [[[b|err] s2] out2]; cbn; [|reflexivity].
  by rewrite app_assoc.
Qed.

Lemma bind_ret_l {A B} (a : A) (k : A -> M B) e s : bind (ret a) k e s = k a e s.
Proof. rewrite run_bind. cbn. by rewrite <- run_eta. Qed.

Lemma bind_ret_r (m : M unit) e s : bind m (fun _ => ret tt) e s = m e s.
Proof.
  rewrite run_bind. destruct (m e s) as [[[[]|err] s1] out1]; cbn; [|reflexivity].
  by rewrite app_nil_r.
Qed.

Lemma try_catch_bind {A B} (m : M A) (k : A -> M B) h e s :
  total m ->
  try_catch (bind m k) h e s = bind m (fun a => try_catch (k a) h) e s.
Proof.
  intros Hm. rewrite run_try_catch, !run_bind.
  destruct (Hm e s) as [a Ha].
  destruct (m e s) as [[[a'|err] s1] out1]; cbn in Ha; simplify_eq.
  rewrite run_try_catch.
  destruct (k a e s1) as [[[b|err] s2] out2]; cbn; [reflexivity|].
  by rewrite app_assoc.
Qed.

Lemma try_catch_total {A} (m : M A) h e s :
  total m -> try_catch m h e s = m e s.
Proof.
  intros Hm. rewrite run_try_catch. destruct (Hm e s) as [a Ha].
  destruct (m e s) as [[[a'|err] s1] out1]; cbn in Ha; by simplify_eq.
Qed.

Lemma try_catch_assoc {A B C} (m : M A) (f : A -> M B) (g : B -> M C) h e s :
  try_catch (bind (bind m f) g) h e s =
  try_catch (bind m (fun a => bind (f a) g)) h e s.
Proof. by rewrite !run_try_catch, bind_assoc. Qed.

Lemma try_catch_ret_l {A B} (a : A) (k : A -> M B) h e s :
  try_catch (bind (ret a) k) h e s = try_catch (k a) h e s.
Proof. by rewrite !run_try_catch, bind_ret_l. Qed.

Lemma bind_try_catch_bind {A B C} (m : M A) (k : A -> M B) h (g : B -> M C) e s :
  total m ->
  bind (try_catch (bind m k) h) g e s =
  bind m (fun a => bind (try_catch (k a) h) g) e s.
Proof.
  intros Hm. rewrite <- bind_assoc, !(run_bind _ g).
  by rewrite try_catch_bind.
Qed.

Lemma bind_try_catch_ret {A B} (a : A) h (g : A -> M B) e s :
  bind (try_catch (ret a) h) g e s = g a e s.
Proof. apply bind_ret_l. Qed.

Lemma bind_try_catch_throw {A B} err (h : Error -> M A) (g : A -> M B) e s :
  bind (try_catch (throw err) h) g e s = bind (h err) g e s.
Proof.
  rewrite !run_bind, run_try_catch. cbn.
  by destruct (h err e s) as [[[a|err'] s1] out1].
Qed.

Lemma bind_try_catch_thrown {A B C} err (k : A -> M B) (h : Error -> M B)
    (g : B -> M C) e s :
  bind (try_catch (bind (throw err) k) h) g e s = bind (h err) g e s.
Proof. apply (bind_try_catch_throw err h g e s). Qed.

(** A call run alone never throws, and its run follows the code of its
    segments. *)

Lemma alone_Await resume e s :
  alone (Await resume) e s =
  match resume e s with
  | (Ok (rest, started), s1, out1) =>
      let '(_, s2, out2) := alone_all started e s1 in
      let '(_, s3, out3) := alone rest e s2 in
      (Ok tt, s3, out1 ++ out2 ++ out3)
  | (Throw _, s1, out1) => (Ok tt, s1, out1)
  end.
Proof. reflexivity. Qed.

Lemma alone_result task e s : result (alone task e s) = Ok tt.
Proof.
  destruct task as [|resume]; [reflexivity|].
  rewrite alone_Await.
  destruct (resume e s) as [[[[rest started]|err] s1] out1]; [|reflexivity].
  destruct (alone_all started e s1) as [[r2 s2] out2].
  destruct (alone rest e s2) as [[r3 s3] out3]. reflexivity.
Qed.

Lemma alone_eta task e s :
  alone task e s = (Ok tt, final (alone task e s), output (alone task e s)).
Proof. rewrite <- (alone_result task e s). apply run_eta. Qed.

Lemma alone_all_result tasks e s : result (alone_all tasks e s) = Ok tt.
Proof.
  revert s. induction tasks as [|task tasks IH]; intros s; [reflexivity|].
  cbn [alone_all]. rewrite run_bind, (alone_eta task). cbn. apply IH.
Qed.

Lemma alone_all_eta tasks e s :
  alone_all tasks e s =
  (Ok tt, final (alone_all tasks e s), output (alone_all tasks e s)).
Proof. rewrite <- (alone_all_result tasks e s). apply run_eta. Qed.

Lemma total_alone task : total (alone task).
Proof. intros e s. exists tt. apply alone_result. Qed.

Lemma total_alone_all tasks : total (alone_all tasks).
Proof. intros e s. exists tt. apply alone_all_result. Qed.

Lemma alone_returns e s : alone (Await returns) e s = (Ok tt, s, []).
Proof. reflexivity. Qed.

Lemma alone_await rest e s : alone (Await (await rest)) e s = alone (Await rest) e s.
Proof.
  rewrite (alone_Await (await rest)).
  unfold await, ret. cbn [alone_all ret app].
  rewrite (alone_eta (Await rest) e s). reflexivity.
Qed.

Lemma alone_ret rest started e s :
  alone (Await (ret (rest, started))) e s =
  (alone_all started;; alone rest) e s.
Proof.
  rewrite alone_Await, run_bind. unfold ret at 1. cbv beta iota.
  rewrite (alone_all_eta started). cbv beta iota.
  rewrite (alone_eta rest). cbn. reflexivity.
Qed.

Lemma alone_all_nil e s : alone_all [] e s = (Ok tt, s, []).
Proof. reflexivity. Qed.

Lemma alone_all_one task e s : alone_all [task] e s = alone task e s.
Proof. cbn [alone_all]. apply bind_ret_r. Qed.

Lemma alone_bind {A} (m : M A) (k : A -> Segment) e s :
  total m ->
  alone (Await (bind m k)) e s = bind m (fun a => alone (Await (k a))) e s.
Proof.
  intros Hm. rewrite alone_Await, !run_bind.
  destruct (Hm e s) as [a Ha].
  destruct (m e s) as [[[a'|err] s1] out1]; cbn in Ha; simplify_eq.
  rewrite (alone_Await (k a)).
  destruct (k a e s1) as [[[[rest started]|err] s2] out2]; cbn.
  - destruct (alone_all started e s2) as [[r3 s3] out3].
    destruct (alone rest e s3) as [[r4 s4] out4]. cbn. by rewrite <- ?app_assoc.
  - reflexivity.
Qed.

Lemma alone_guarded_bind {A} (m : M A) (k : A -> Segment) e s :
  total m ->
  alone (Await (guarded (bind m k))) e s =
  bind m (fun a => alone (Await (guarded (k a)))) e s.
Proof.
  intros Hm. rewrite alone_Await, !run_bind. unfold guarded at 1.
  rewrite run_try_catch, run_bind.
  destruct (Hm e s) as [a Ha].
  destruct (m e s) as [[[a'|err] s1] out1]; cbn in Ha; simplify_eq.
  rewrite (alone_Await (guarded (k a))). unfold guarded. rewrite run_try_catch.
  destruct (k a e s1) as [[[[rest started]|err] s2] out2]; cbn.
  - destruct (alone_all started e s2) as [[r3 s3] out3].
    destruct (alone rest e s3) as [[r4 s4] out4]. cbn. by rewrite <- !app_assoc.
  - by rewrite !app_nil_r, <- !app_assoc.
Qed.

Lemma alone_guarded_await rest e s :
  alone (Await (guarded (await rest))) e s = alone (Await rest) e s.
Proof. apply alone_await. Qed.

Lemma alone_guarded_returns e s : alone (Await (guarded returns)) e s = (Ok tt, s, []).
Proof. reflexivity. Qed.

Lemma alone_guarded_throw err e s :
  alone (Await (guarded (throw err))) e s =
  console_error "Error handling WebSocket message:" e s.
Proof. reflexivity. Qed.

Lemma alone_guarded_ret_l {A} (a : A) (k : A -> Segment) e s :
  alone (Await (guarded (bind (ret a) k))) e s = alone (Await (guarded (k a))) e s.
Proof.
  rewrite !alone_Await. unfold guarded. by rewrite !run_try_catch, bind_ret_l.
Qed.

(** The singleton of the learned-model strategy: its methods never throw,
    and what each does once the singleton exists. *)

Lemma total_getRL_async : total getReinforcementLearningStrategy_async.
Proof.
  unfold getReinforcementLearningStrategy_async. total_tac.
Qed.

Lemma total_getRL : total getReinforcementLearningStrategy.
Proof.
  unfold getReinforcementLearningStrategy. total_tac.
Qed.

Lemma total_rl_setAlpacaClient alpaca : total (rl_setAlpacaClient alpaca).
Proof. unfold rl_setAlpacaClient. apply total_bind; [apply total_getRL|]. intros. total_tac. Qed.

Lemma total_rl_loadModel_call : total rl_loadModel_call.
Proof.
  unfold rl_loadModel_call. total_tac.
Qed.

Lemma total_rl_loadModel : total rl_loadModel.
Proof.
  unfold rl_loadModel. apply total_bind; [apply total_getRL|]. intros. total_tac.
Qed.

Ltac total_side :=
  first [ apply total_stopTradingBot | apply total_initializeRLModel
        | apply total_getRL_async | apply total_getRL
        | apply total_rl_setAlpacaClient | apply total_rl_loadModel_call
        | apply total_rl_loadModel | apply total_alone | apply total_alone_all
        | total_tac ].

Lemma createSystemLog_run log e s :
  storage.createSystemLog log e s =
  (Ok (MemStorage.createSystemLog (Date_now e) (storage s) log).1,
   set_storage (fun _ => (MemStorage.createSystemLog (Date_now e) (storage s) log).2) s,
   []).
Proof. reflexivity. Qed.

Lemma getRL_some e s rl :
  rlStrategy s = Some rl ->
  getReinforcementLearningStrategy e s = (Ok rl, s, []).
Proof.
  intros H. unfold getReinforcementLearningStrategy.
  rewrite (bind_run get _ e s s s []) by reflexivity. rewrite H. reflexivity.
Qed.

Lemma getRL_async_some e s rl :
  rlStrategy s = Some rl ->
  getReinforcementLearningStrategy_async e s = (Ok (rl, []), s, []).
Proof.
  intros H. unfold getReinforcementLearningStrategy_async.
  rewrite (bind_run get _ e s s s []) by reflexivity. rewrite H. reflexivity.
Qed.

Lemma getRL_none e s :
  rlStrategy s = None ->
  let rl := RL.new ["BTCUSD"; "ETHUSD"; "SOLUSD"; "AVAXUSD"] 100 in
  getReinforcementLearningStrategy e s =
  (Ok (RL.loadModel e rl).1.2, set_rlStrategy (Some (RL.loadModel e rl).1.2) s,
   (RL.loadModel e rl).2).
Proof.
  intros H rl. unfold getReinforcementLearningStrategy.
  rewrite (bind_run get _ e s s s []) by reflexivity. rewrite H.
  rewrite (bind_run ask _ e s e s []) by reflexivity. fold rl.
  destruct (RL.loadModel e rl) as [[b rl'] lines]. cbn. by rewrite ?app_nil_r.
Qed.

Lemma getRL_async_none e s :
  rlStrategy s = None ->
  let rl := RL.new ["BTCUSD"; "ETHUSD"; "SOLUSD"; "AVAXUSD"] 100 in
  getReinforcementLearningStrategy_async e s =
  (Ok ((RL.loadModel_call e rl).1.1,
       if (RL.loadModel_call e rl).1.2 then [Await (rl_loadModel_resume returns)] else []),
   set_rlStrategy (Some (RL.loadModel_call e rl).1.1) s,
   (RL.loadModel_call e rl).2).
Proof.
  intros H rl. unfold getReinforcementLearningStrategy_async.
  rewrite (bind_run get _ e s s s []) by reflexivity. rewrite H.
  rewrite (bind_run ask _ e s e s []) by reflexivity. fold rl.
  destruct (RL.loadModel_call e rl) as [[rl' waits] lines]. cbn. by rewrite ?app_nil_r.
Qed.

Lemma rl_setAlpacaClient_some alpaca e s rl :
  rlStrategy s = Some rl ->
  rl_setAlpacaClient alpaca e s =
  (Ok tt, set_rlStrategy (Some (RL.setAlpacaClient rl alpaca)) s, []).
Proof.
  intros H. unfold rl_setAlpacaClient.
  rewrite (bind_run _ _ e s _ _ _ (getRL_some e s rl H)). reflexivity.
Qed.

Lemma rl_loadModel_some e s rl :
  rlStrategy s = Some rl ->
  rl_loadModel e s =
  (Ok tt, set_rlStrategy (Some (RL.loadModel e rl).1.2) s, (RL.loadModel e rl).2).
Proof.
  intros H. unfold rl_loadModel.
  rewrite (bind_run _ _ e s _ _ _ (getRL_some e s rl H)).
  rewrite (bind_run ask _ e s e s []) by reflexivity.
  destruct (RL.loadModel e rl) as [[b rl'] lines]. cbn. by rewrite ?app_nil_r.
Qed.

Lemma rl_loadModel_call_some e s rl :
  rlStrategy s = Some rl ->
  rl_loadModel_call e s =
  (Ok (RL.loadModel_call e rl).1.2,
   set_rlStrategy (Some (RL.loadModel_call e rl).1.1) s,
   (RL.loadModel_call e rl).2).
Proof.
  intros H. unfold rl_loadModel_call.
  rewrite (bind_run get _ e s s s []) by reflexivity. rewrite H.
  rewrite (bind_run ask _ e s e s []) by reflexivity.
  destruct (RL.loadModel_call e rl) as [[rl' waits] lines]. cbn. by rewrite ?app_nil_r.
Qed.

Lemma rl_loadModel_resume_some rest e s rl :
  rlStrategy s = Some rl ->
  alone (Await (rl_loadModel_resume rest)) e s =
  prefixed (RL.loadModel_resume e rl).2
    (alone (Await rest) e (set_rlStrategy (Some (RL.loadModel_resume e rl).1.2) s)).
Proof.
  intros H. unfold rl_loadModel_resume.
  rewrite alone_bind by total_side.
  rewrite (bind_run get _ e s s s []) by reflexivity. rewrite H.
  rewrite alone_bind by total_side.
  rewrite (bind_run ask _ e s e s []) by reflexivity.
  destruct (RL.loadModel_resume e rl) as [[b rl'] lines].
  rewrite alone_bind by total_side.
  rewrite (bind_run (modify _) _ e s tt _ []) by reflexivity.
  rewrite alone_bind by total_side.
  rewrite (bind_run (emit_all _) _ e _ tt _ lines) by reflexivity.
  cbn. reflexivity.
Qed.

Lemma rl_load_alone e s rl :
  rlStrategy s = Some rl ->
  alone (Await (rl_loadModel_resume returns)) e s =
  (Ok tt, set_rlStrategy (Some (RL.loadModel_resume e rl).1.2) s,
   (RL.loadModel_resume e rl).2).
Proof.
  intros H. rewrite (rl_loadModel_resume_some _ _ _ _ H), alone_returns.
  unfold prefixed. cbn. by rewrite app_nil_r.
Qed.

(** One step of a run: of a method of the singleton, of a primitive, of a
    call run alone, of the composition. *)

Ltac known := first [eassumption | reflexivity].

Ltac run_piece :=
  first
    [ erewrite (bind_run getReinforcementLearningStrategy_async)
        by first [apply getRL_async_some; known | apply getRL_async_none; known]
    | erewrite (bind_run getReinforcementLearningStrategy)
        by first [apply getRL_some; known | apply getRL_none; known]
    | erewrite (bind_run (rl_setAlpacaClient _)) by (apply rl_setAlpacaClient_some; known)
    | erewrite (bind_run rl_loadModel_call) by (apply rl_loadModel_call_some; known)
    | erewrite (bind_run rl_loadModel) by (apply rl_loadModel_some; known)
    | erewrite (bind_run (alone (Await (rl_loadModel_resume returns))))
        by (apply rl_load_alone; known)
    | erewrite rl_loadModel_resume_some by known
    | erewrite (bind_run get) by reflexivity
    | erewrite (bind_run ask) by reflexivity
    | erewrite (bind_run (modify _)) by reflexivity
    | erewrite (bind_run (emit _)) by reflexivity
    | erewrite (bind_run (emit_all _)) by reflexivity
    | erewrite (bind_run (console_error _)) by reflexivity
    | erewrite (bind_run (storage.createSystemLog _)) by apply createSystemLog_run ].

Ltac alone_piece :=
  first
    [ rewrite alone_await
    | rewrite alone_ret
    | rewrite alone_returns
    | rewrite alone_all_one
    | rewrite alone_bind by total_side ].

Ltac seq_piece :=
  first
    [ rewrite bind_try_catch_thrown
    | rewrite bind_try_catch_bind by total_side
    | rewrite bind_try_catch_ret
    | rewrite bind_try_catch_throw
    | rewrite bind_assoc
    | rewrite bind_ret_l ].

Ltac pieces :=
  repeat first [alone_piece | run_piece | seq_piece | progress cbn [snd alone_all]].

Ltac rl_cbn :=
  cbn [RL.loadModel_call RL.loadModel RL.loadModel_resume RL.initializeAgent RL.new
       RL.set_agent RL.set_modelLoaded RL.setAlpacaClient RL.agent RL.env
       model_file negb fst snd alone_all].

Ltac same_rest Hrest :=
  rewrite ?prefixed_prefixed;
  apply same_run_prefixed;
  [ apply Hrest
  | first [ reflexivity
          | rewrite ?app_nil_r, ?app_nil_l; apply Permutation_app_comm ] ].

(** The initialisation of the learned model.  The outward calls agree up to
    their order: when the singleton is created, the model file exists and the
    credentials are unusable, the console lines of the [loadModel()] that the
    creation has started come after the report of the credentials instead of
    before. *)

Lemma initializeRLModel_alone userId apiKey isTestMode rest_a rest_s :
  agree (alone (Await rest_a)) rest_s ->
  agree (alone (Await (initializeRLModel_async userId apiKey isTestMode rest_a)))
        (initializeRLModel userId apiKey isTestMode;; rest_s).
Proof.
  intros Hrest e s.
  unfold initializeRLModel_async, initializeRLModel.
  destruct (getAlpacaClient _ _ _) as [alpaca|error]; cbn [lift].
  - destruct (rlStrategy s) as [rl|] eqn:Hrl.
    + pieces. unfold RL.loadModel.
      destruct (RL.loadModel_call e _) as [[rl2 []] lines]; cbn [fst snd]; pieces.
      * destruct (RL.loadModel_resume e rl2) as [[b rl3] lines3]; cbn [fst snd].
        same_rest Hrest.
      * same_rest Hrest.
    + destruct e as [now account order open [[[]|err]|] predict calc].
      all: repeat first [progress pieces | progress rl_cbn].
      all: try same_rest Hrest.
  - destruct (rlStrategy s) as [rl|] eqn:Hrl.
    + pieces. same_rest Hrest.
    + destruct e as [now account order open [[[]|err]|] predict calc].
      all: repeat first [progress pieces | progress rl_cbn].
      all: try same_rest Hrest.
Qed.

(** [startTradingBot] *)

Lemma start_alone userId strategy isTestMode apiKey frequency :
  agree
    (alone
       (Await
          (storage.createSystemLog
             {| SystemLog.i_userId := userId;
                SystemLog.i_level := INFO;
                SystemLog.i_message :=
                  [Lit "Bot started with "; Lit strategy;
                   Lit " strategy"; Lit (testMsg isTestMode)] |};;
           await
             (broadcastToUser userId (botStatus_msg true (Some strategy));;
              do intervalId <-
                setInterval (Timer.botUpdate userId apiKey) (updateInterval frequency);
              modify (set_activeBots (<[userId := intervalId]>));;
              returns))))
    (storage.createSystemLog
       {| SystemLog.i_userId := userId;
          SystemLog.i_level := INFO;
          SystemLog.i_message :=
            [Lit "Bot started with "; Lit strategy;
             Lit " strategy"; Lit (testMsg isTestMode)] |};;
     broadcastToUser userId (botStatus_msg true (Some strategy));;
     do intervalId <-
       setInterval (Timer.botUpdate userId apiKey) (updateInterval frequency);
     modify (set_activeBots (<[userId := intervalId]>))).
Proof.
  intros e s.
  rewrite alone_bind by total_side. apply same_run_bind; intros _ s1.
  rewrite alone_await.
  rewrite alone_bind by total_side. apply same_run_bind; intros _ s2.
  rewrite alone_bind by total_side. apply same_run_bind; intros intervalId s3.
  rewrite alone_bind by total_side.
  apply same_run_eq. rewrite <- (bind_ret_r (modify _)).
  reflexivity.
Qed.

Lemma startTradingBot_alone userId :
  agree (alone (Await (startTradingBot_async userId))) (startTradingBot userId).
Proof.
  intros e s. unfold startTradingBot_async, startTradingBot.
  rewrite alone_bind by total_side. apply same_run_bind; intros _ s1.
  rewrite alone_bind by total_side. apply same_run_bind; intros apiKey s2.
  rewrite alone_await.
  rewrite alone_bind by total_side. apply same_run_bind; intros botSettings s3.
  rewrite alone_await.
  destruct apiKey as [apiKey|], botSettings as [botSettings|];
    try (rewrite alone_returns; apply same_run_refl).
  destruct (negb _); [rewrite alone_returns; apply same_run_refl|].
  cbv zeta.
  destruct (String.eqb _ _).
  - apply initializeRLModel_alone, start_alone.
  - rewrite bind_ret_l. apply start_alone.
Qed.

(** The message handler *)

Lemma startTradingBot_async_call userId e s :
  exists rest s1 out1,
    startTradingBot_async userId e s = (Ok (rest, []), s1, out1).
Proof.
  unfold startTradingBot_async. rewrite run_bind.
  destruct (total_stopTradingBot userId e s) as [[] H].
  destruct (stopTradingBot userId e s) as [[[[]|err] s1] out1]; cbn in H; simplify_eq.
  eexists _, _, _. reflexivity.
Qed.

Lemma starts_the_bot_alone userId e s :
  alone (Await (guarded (starts_the_bot userId))) e s =
  alone (Await (startTradingBot_async userId)) e s.
Proof.
  rewrite !alone_Await. unfold guarded, starts_the_bot, start_call.
  rewrite run_try_catch, run_bind, run_try_catch, run_bind.
  destruct (startTradingBot_async_call userId e s) as (rest & s1 & out1 & ->).
  cbn [fst snd result final output ret]. cbv beta iota.
  cbn [alone_all alone]. rewrite run_bind, (alone_eta rest). cbn.
  rewrite !app_nil_r. by destruct (alone rest e s1) as [[r3 s3] out3].
Qed.

Ltac hstep :=
  first
    [ rewrite alone_guarded_await
    | rewrite alone_guarded_ret_l
    | rewrite try_catch_assoc
    | rewrite try_catch_ret_l
    | rewrite alone_guarded_bind by total_side;
      rewrite try_catch_bind by total_side;
      apply same_run_bind; intros ? ? ].

Ltac hcase :=
  match goal with
  | |- same_run (alone (Await (guarded (bind (lift ?x) _))) _ _) _ =>
      destruct x; cbn [lift]
  | |- same_run (alone (Await (guarded (match ?x with _ => _ end))) _ _) _ =>
      destruct x
  end.

Ltac hleaf :=
  first
    [ by apply same_run_eq
    | rewrite starts_the_bot_alone, try_catch_total by apply total_startTradingBot;
      apply startTradingBot_alone
    | rewrite alone_guarded_bind, try_catch_total by total_side;
      rewrite <- (bind_ret_r (broadcastToUser _ _));
      by apply same_run_eq ].

Lemma on_message_alone ws data :
  agree (alone (Await (on_message_async ws data))) (on_message ws data).
Proof.
  intros e s. unfold on_message_async, on_message.
  destruct data as [|[|n]| | |type]; try hleaf.
  all: repeat first [hstep | hcase]; try hleaf.
Qed.


(** ** Position reconciliation *)

Lemma Array_find_filter {A} (p q : A -> bool) (l : list A) :
  Array_find p (Array_filter q l) = Array_find (fun x => q x && p x) l.
Proof.
  unfold Array_find, Array_filter.
  induction l as [|x l IH]; [reflexivity|]. cbn.
  destruct (q x); cbn; [|exact IH]. destruct (p x); [reflexivity | exact IH].
Qed.

Lemma Map_get_set {V} k (v : V) (m : Map V) : Map_get k (Map_set k v m) = Some v.
Proof.
  induction m as [|[k' x] m IH]; unfold Map_get, Map_set; cbn.
  - rewrite Nat.eqb_refl. reflexivity.
  - destruct (Nat.eqb k k') eqn:Hk; cbn.
    + rewrite Nat.eqb_refl. reflexivity.
    + rewrite Hk. exact IH.
Qed.

(** The position a tick reconciles is stored under its identifier, and
    belongs to the user under the tick's symbol. *)
Lemma position_for_stored userId marketData s position :
  well_keyed Position.id (positions_of s) ->
  position_for userId marketData s = Some position ->
  Map_get (Position.id position) (positions_of s) = Some position
  /\ Position.userId position = userId
  /\ Position.symbol position = MarketData.symbol marketData.
Proof.
  intros Hwf Hfind. unfold position_for, MemStorage.getPositionsByUserId in Hfind.
  rewrite Array_find_filter in Hfind.
  split; [exact (Map_get_found Position.id _ _ _ Hwf Hfind)|].
  apply Array_find_elem in Hfind as [_ Hp]. apply andb_true_iff in Hp as [Hu Hs].
  split; [apply Nat.eqb_eq, Hu | apply String.eqb_eq, Hs].
Qed.

Lemma reconcilePosition_stores userId isTestMode marketData positions position e s :
  Map_get (Position.id position) (positions_of s) = Some position ->
  positions_of (final (reconcilePosition userId isTestMode marketData positions position e s))
  = Map_set (Position.id position)
      (reconciled position (MarketData.price marketData) (Date_now e)) (positions_of s).
Proof.
  intros Hget.
  change (wp (reconcilePosition userId isTestMode marketData positions position)
            (fun _ s' _ =>
               positions_of s'
               = Map_set (Position.id position)
                   (reconciled position (MarketData.price marketData) (Date_now e))
                   (positions_of s)) e s).
  unfold reconcilePosition. wp_step. wp_step. wp_step.
  apply (wp_respects _ (same positions_of) (fun _ => True)); [frame|].
  intros r s1 out1 Hs1 _. unfold same in Hs1. rewrite Hs1.
  unfold positions_of in *. cbn [storage set_storage].
  unfold MemStorage.updatePosition. rewrite Hget. reflexivity.
Qed.

Lemma strategyAndOrder_positions userId isTestMode marketData :
  respects (same positions_of) (fun ev => is_positionUpdate ev = false)
    (strategyAndOrder userId isTestMode marketData).
Proof. frame. Qed.

Lemma handler_tick message :
  match message with
  | AlpacaMessage.mock data => data
  | AlpacaMessage.stream _ _ => parseAlpacaWebSocketMessage message
  end = parseAlpacaWebSocketMessage message.
Proof. destruct message; reflexivity. Qed.

Lemma positionReconciliation_skipped userId isTestMode marketData e s :
  position_for userId marketData s = None ->
  positionReconciliation userId isTestMode marketData e s = (Ok tt, s, []).
Proof.
  intros H. unfold positionReconciliation. rewrite run_bind.
  unfold storage.getPositionsByUserId, storage.read. cbn.
  unfold position_for in H. rewrite H. reflexivity.
Qed.

(** C5.  A tick whose symbol has no persisted position of the user does not
    reach the reconciliation: after the whole handler the position table is
    what it was (no position created or updated by the cache update, the
    broadcast of the tick or any later step), and no [positionUpdate] is
    broadcast or sent. *)
Theorem tick_without_position_leaves_positions userId message e s :
  (forall marketData,
      parseAlpacaWebSocketMessage message = Some marketData ->
      position_for userId marketData s = None) ->
  positions_of (final (handleAlpacaWebsocketMessage userId message e s)) = positions_of s
  /\ Forall (fun ev => is_positionUpdate ev = false)
       (output (handleAlpacaWebsocketMessage userId message e s))
  /\ (forall marketData isTestMode,
         parseAlpacaWebSocketMessage message = Some marketData ->
         positionReconciliation userId isTestMode marketData e
           (set_marketDataCache (<[MarketData.symbol marketData := marketData]>) s)
         = (Ok tt,
            set_marketDataCache (<[MarketData.symbol marketData := marketData]>) s, [])).
Proof.
  intros Hnone.
  enough (positions_of (final (handleAlpacaWebsocketMessage userId message e s))
          = positions_of s
          /\ Forall (fun ev => is_positionUpdate ev = false)
               (output (handleAlpacaWebsocketMessage userId message e s))) as [H1 H2].
  { split; [exact H1|]. split; [exact H2|]. intros marketData isTestMode Hparse.
    apply positionReconciliation_skipped. apply (Hnone _ Hparse). }
  change (wp (handleAlpacaWebsocketMessage userId message)
            (fun _ s' out =>
               positions_of s' = positions_of s
               /\ Forall (fun ev => is_positionUpdate ev = false) out) e s).
  unfold handleAlpacaWebsocketMessage.
  wp_step. wp_step. wp_step. wp_step. rewrite handler_tick.
  destruct (parseAlpacaWebSocketMessage message) as [marketData|] eqn:Hparse.
  - specialize (Hnone marketData eq_refl).
    wp_step. wp_step. set (s1 := set_marketDataCache _ s).
    wp_step. wp_step. wp_step.
    eapply wp_run; [apply positionReconciliation_skipped; exact Hnone|]. cbn beta iota.
    eapply wp_respects; [apply strategyAndOrder_positions|].
    intros r s2 out2 HR HP.
    assert (Hout : Forall (fun ev => is_positionUpdate ev = false)
                     ([] ++ (broadcastToUser_call userId (marketData_msg marketData)
                             :: map (fun socket => socket_send socket (marketData_msg marketData))
                                  (receivers e s1 userId)) ++ [] ++ out2)).
    { cbn [app]. rewrite app_comm_cons. apply Forall_app. split; [|exact HP].
      apply Forall_broadcast; reflexivity. }
    destruct r as [[]|err].
    + split; [exact HR | exact Hout].
    + wp_steps. split; [exact HR|].
      apply Forall_app. split; [exact Hout | repeat constructor].
  - wp_step. split; [reflexivity | constructor].
Qed.

(** A tick for ETHUSD on the demo server, which holds BTCUSD only. *)
Lemma tick_without_position_leaves_positions_witness :
  positions_of
    (final (handleAlpacaWebsocketMessage 1 (Demo.tick "ETHUSD" 1650) Demo.accepting
              Demo.server))
  = [(1, Demo.position)].
Proof.
  apply (tick_without_position_leaves_positions 1 (Demo.tick "ETHUSD" 1650) Demo.accepting
           Demo.server).
  intros marketData [= <-]. reflexivity.
Defined.
(** ** Numbers as the numeric columns hold them *)

Lemma toString_Prim2SF x : Prim2SF (JS.toString x) = drop_zero_sign (Prim2SF x).
Proof.
  unfold JS.toString, JS.is_negative_zero. rewrite FloatAxioms.classify_spec.
  destruct (Prim2SF x) as [[|]|[|]| |[|] m ex] eqn:Hx;
    unfold FloatAxioms.SF64classify, SFclassify; cbn [drop_zero_sign];
    try (rewrite Hx; reflexivity); try reflexivity;
    destruct (Z.eqb _ _); rewrite Hx; reflexivity.
Qed.

Ltac zero_sign_cases x y :=
  apply FloatAxioms.Prim2SF_inj; rewrite !toString_Prim2SF;
  rewrite ?FloatAxioms.mul_spec, ?FloatAxioms.sub_spec, ?FloatAxioms.div_spec;
  rewrite ?toString_Prim2SF;
  destruct (Prim2SF x) as [[|]|[|]| |[|] ? ?], (Prim2SF y) as [[|]|[|]| |[|] ? ?];
  reflexivity.

(** The sign of a zero operand does not show in what a column holds of a
    product, of a difference or of a quotient by a fixed divisor. *)
Lemma toString_mul_r x y : JS.toString (x * JS.toString y) = JS.toString (x * y).
Proof. zero_sign_cases x y. Qed.

Lemma toString_mul_l x y : JS.toString (JS.toString x * y) = JS.toString (x * y).
Proof. zero_sign_cases x y. Qed.

Lemma toString_sub_l x y : JS.toString (JS.toString x - y) = JS.toString (x - y).
Proof. zero_sign_cases x y. Qed.

Lemma toString_div_l x y : JS.toString (JS.toString x / y) = JS.toString (x / y).
Proof. zero_sign_cases x y. Qed.


Lemma toString_profit qty price entryPrice :
  JS.toString (qty * (JS.toString price - entryPrice))
  = JS.toString (qty * (price - entryPrice)).
Proof.
  rewrite <- (toString_mul_r qty (JS.toString price - entryPrice)), toString_sub_l.
  apply toString_mul_r.
Qed.

Lemma toString_profit_percent price entryPrice :
  JS.toString (((JS.toString price - entryPrice) / entryPrice) * 100)
  = JS.toString (((price - entryPrice) / entryPrice) * 100).
Proof.
  rewrite <- (toString_mul_l ((JS.toString price - entryPrice) / entryPrice)),
    <- (toString_div_l (JS.toString price - entryPrice)), toString_sub_l, toString_div_l.
  apply toString_mul_l.
Qed.

(** C4.  After a tick for a symbol under which the user has a persisted
    position, the stored position keeps its quantity and entry price, has the
    tick's price as current price, and satisfies
    [marketValue = qty * currentPrice],
    [unrealizedPl = qty * (currentPrice - entryPrice)] and
    [unrealizedPlPerc = ((currentPrice - entryPrice) / entryPrice) * 100],
    in the arithmetic of JavaScript numbers and as a numeric column holds a
    number, which is without the sign of a zero; for one BTCUSD bought at 100
    and the ticks 100, 105, 95 the stored [unrealizedPl] is 0, 5, -5 and the
    stored [unrealizedPlPerc] is 0, 5, -5. *)
Theorem reconciled_position_values :
  (forall userId message marketData position e s,
      well_keyed Position.id (positions_of s) ->
      parseAlpacaWebSocketMessage message = Some marketData ->
      position_for userId marketData s = Some position ->
      exists stored,
        Map_get (Position.id position)
          (positions_of (final (handleAlpacaWebsocketMessage userId message e s)))
        = Some stored
        /\ Position.symbol stored = MarketData.symbol marketData
        /\ Position.qty stored = Position.qty position
        /\ Position.entryPrice stored = Position.entryPrice position
        /\ Position.currentPrice stored = JS.toString (MarketData.price marketData)
        /\ Position.marketValue stored
           = JS.toString (Position.qty stored * Position.currentPrice stored)
        /\ Position.unrealizedPl stored
           = JS.toString
               (Position.qty stored
                * (Position.currentPrice stored - Position.entryPrice stored))
        /\ Position.unrealizedPlPerc stored
           = JS.toString
               (((Position.currentPrice stored - Position.entryPrice stored)
                 / Position.entryPrice stored) * 100))
  /\ (forall e,
         map (map Position.unrealizedPl)
           (Demo.positions_after e Demo.server [100; 105; 95]%float)
         = [[0]; [5]; [-5]]%float
         /\ map (map Position.unrealizedPlPerc)
              (Demo.positions_after e Demo.server [100; 105; 95]%float)
            = [[0]; [5]; [-5]]%float).
Proof.
  split.
  - intros userId message marketData position e s Hwf Hparse Hfind.
    destruct (position_for_stored _ _ _ _ Hwf Hfind) as (Hget & _ & Hsymbol).
    exists (reconciled position (MarketData.price marketData) (Date_now e)).
    split;
      [|cbn; split; [exact Hsymbol|]; do 3 (split; [reflexivity|]); split; [|split]].
    2: symmetry; apply toString_mul_r.
    2: symmetry; apply toString_profit.
    2: symmetry; apply toString_profit_percent.
    change (wp (handleAlpacaWebsocketMessage userId message)
              (fun _ s' _ =>
                 Map_get (Position.id position) (positions_of s')
                 = Some (reconciled position (MarketData.price marketData) (Date_now e)))
              e s).
    assert (Hdone : forall s',
               positions_of s'
               = Map_set (Position.id position)
                   (reconciled position (MarketData.price marketData) (Date_now e))
                   (positions_of s) ->
               Map_get (Position.id position) (positions_of s')
               = Some (reconciled position (MarketData.price marketData) (Date_now e))).
    { intros s' ->. apply Map_get_set. }
    unfold handleAlpacaWebsocketMessage.
    wp_step. wp_step. wp_step. wp_step. rewrite handler_tick, Hparse.
    wp_step. wp_step. set (s1 := set_marketDataCache _ s).
    wp_step. wp_step. wp_step.
    unfold positionReconciliation. wp_step. wp_step. wp_step.
    fold (position_for userId marketData s1).
    change (position_for userId marketData s1) with (position_for userId marketData s).
    rewrite Hfind.
    pose proof (reconcilePosition_stores userId
                  match MemStorage.getApiKeyByUserId (storage s) userId with
                  | Some apiKey => AlpacaClient.is_test_key (ApiKey.alpacaApiKey apiKey)
                  | None => false
                  end marketData (MemStorage.getPositionsByUserId (storage s1) userId)
                  position e s1 Hget) as Hstored.
    unfold wp at 1.
    destruct (result (reconcilePosition _ _ _ _ _ e s1)) as [[]|err].
    + eapply wp_respects; [apply strategyAndOrder_positions|].
      intros r s2 out2 HR _. unfold same in HR.
      destruct r as [[]|err]; [|wp_steps]; apply Hdone; rewrite HR; exact Hstored.
    + wp_steps. apply Hdone. exact Hstored.
  - intros e. split; vm_compute; reflexivity.
Qed.

(** The tick at 105 on the demo server. *)
Lemma reconciled_position_values_witness :
  exists stored,
    Map_get 1
      (positions_of
         (final (handleAlpacaWebsocketMessage 1 (Demo.tick "BTCUSD" 105) Demo.accepting
                   Demo.server)))
    = Some stored
    /\ Position.symbol stored = "BTCUSD"
    /\ Position.qty stored = 1%float
    /\ Position.entryPrice stored = 100%float
    /\ Position.currentPrice stored = 105%float
    /\ Position.marketValue stored = 105%float
    /\ Position.unrealizedPl stored = 5%float
    /\ Position.unrealizedPlPerc stored = 5%float.
Proof.
  destruct (proj1 reconciled_position_values 1 (Demo.tick "BTCUSD" 105)
              (MarketData.mk "BTCUSD" 105 0 0 0) Demo.position Demo.accepting Demo.server)
    as (stored & Hstored & Hsymbol & Hqty & HentryPrice & HcurrentPrice
        & HmarketValue & HunrealizedPl & HunrealizedPlPerc).
  - split; cbn; [repeat constructor | apply NoDup_singleton].
  - reflexivity.
  - reflexivity.
  - exists stored.
    rewrite HmarketValue, HunrealizedPl, HunrealizedPlPerc, HcurrentPrice, Hqty,
      HentryPrice.
    split; [exact Hstored|]. split; [exact Hsymbol|]. repeat split.
Defined.

(** ** The order decision *)

Lemma submitOrder_calls_app out1 out2 :
  submitOrder_calls (out1 ++ out2) = submitOrder_calls out1 + submitOrder_calls out2.
Proof. unfold submitOrder_calls. rewrite List.filter_app, length_app. reflexivity. Qed.

Lemma filter_submitOrder_quiet out :
  Forall (fun ev => is_submitOrder ev = false) out -> List.filter is_submitOrder out = [].
Proof.
  induction 1 as [|ev out Hev _ IH]; [reflexivity|]. cbn. rewrite Hev. exact IH.
Qed.

Lemma Forall_sends (P : Event -> Prop) msg sockets :
  (forall socket, P (socket_send socket msg)) ->
  Forall P (map (fun socket => socket_send socket msg) sockets).
Proof.
  intros H. apply List.Forall_forall. intros ev Hev. apply in_map_iff in Hev.
  destruct Hev as [socket [<- _]]. apply H.
Qed.

(** A client built from stored credentials talks to the broker. *)
Lemma getAlpacaClient_live apiKey secretKey isPaper alpaca :
  getAlpacaClient apiKey secretKey isPaper = Ok alpaca ->
  AlpacaClient.isTestMode alpaca = false.
Proof.
  unfold getAlpacaClient. destruct (_ && _); [|discriminate].
  intros [= <-]. reflexivity.
Qed.

Lemma sizeOrder_frame botSettings signal accountValue :
  respects (same outside_rl) (fun ev => is_console ev = true)
    (sizeOrder botSettings signal accountValue).
Proof. frame. Qed.

(** The outcome of a submission: the store gets the trade log and the trade
    when the broker accepts, and the error log when it throws; either way
    the handler goes on, and [submitOrder] was called once. *)
Lemma placeOrder_outcome userId alpaca orderRequest e s :
  AlpacaClient.isTestMode alpaca = false ->
  let run := placeOrder userId alpaca orderRequest e s in
  result run = Ok tt
  /\ List.filter is_submitOrder (output run) = [alpaca_submitOrder alpaca orderRequest]
  /\ outside_rl (final run)
     = outside_rl
         (set_storage
            (fun st =>
               match http_postOrder e alpaca orderRequest with
               | Ok order =>
                   snd (MemStorage.createTrade (Date_now e)
                          (snd (MemStorage.createSystemLog (Date_now e) st
                                  (SystemLog.mkInsert userId TRADE
                                     [Lit (Action_toUpperCase (OrderResponse.side order));
                                      Lit " order executed: ";
                                      Num (OrderResponse.qty order); Lit " ";
                                      Lit (OrderResponse.symbol order);
                                      Lit " @ market price"])))
                          (Trade.mkInsert userId (OrderResponse.symbol order)
                             (OrderResponse.side order) (OrderResponse.qty order) 0
                             (OrderResponse.type order) (OrderResponse.status order)))
               | Throw err =>
                   snd (MemStorage.createSystemLog (Date_now e) st
                          (SystemLog.mkInsert userId ERROR
                             [Lit "Order execution failed: "; Lit err]))
               end) s)
  /\ rlStrategy (final run) = rlStrategy s
  /\ match http_postOrder e alpaca orderRequest with
     | Ok order => In (broadcastToUser_call userId (orderUpdate_msg order)) (output run)
     | Throw _ => True
     end.
Proof.
  intros Hlive. cbv zeta.
  change (wp (placeOrder userId alpaca orderRequest)
            (fun r s' out =>
               r = Ok tt
               /\ List.filter is_submitOrder out = [alpaca_submitOrder alpaca orderRequest]
               /\ outside_rl s'
                  = outside_rl
                      (set_storage
                         (fun st =>
                            match http_postOrder e alpaca orderRequest with
                            | Ok order =>
                                snd (MemStorage.createTrade (Date_now e)
                                       (snd (MemStorage.createSystemLog (Date_now e) st
                                               (SystemLog.mkInsert userId TRADE
                                                  [Lit (Action_toUpperCase
                                                          (OrderResponse.side order));
                                                   Lit " order executed: ";
                                                   Num (OrderResponse.qty order); Lit " ";
                                                   Lit (OrderResponse.symbol order);
                                                   Lit " @ market price"])))
                                       (Trade.mkInsert userId (OrderResponse.symbol order)
                                          (OrderResponse.side order)
                                          (OrderResponse.qty order) 0
                                          (OrderResponse.type order)
                                          (OrderResponse.status order)))
                            | Throw err =>
                                snd (MemStorage.createSystemLog (Date_now e) st
                                       (SystemLog.mkInsert userId ERROR
                                          [Lit "Order execution failed: "; Lit err]))
                            end) s)
               /\ rlStrategy s' = rlStrategy s
               /\ match http_postOrder e alpaca orderRequest with
                  | Ok order => In (broadcastToUser_call userId (orderUpdate_msg order)) out
                  | Throw _ => True
                  end) e s).
  unfold placeOrder. wp_steps. rewrite Hlive.
  destruct (http_postOrder e alpaca orderRequest) as [order|err]; wp_steps.
  - split; [reflexivity|]. split; [|split; [reflexivity|split; [reflexivity|]]].
    + cbn [app]. cbn [List.filter is_submitOrder]. f_equal.
      apply filter_submitOrder_quiet.
      apply Forall_sends. reflexivity.
    + cbn. right. left. reflexivity.
  - split; [reflexivity|]. split; [reflexivity|]. split; [reflexivity|].
    split; [reflexivity | exact I].
Qed.

Lemma wp_respects_result {A} (R : St -> St -> Prop) (P : Event -> Prop) (m : M A)
    post e s :
  respects R P m ->
  (forall r s1 out1,
      r = result (m e s) -> R s s1 -> Forall P out1 -> post r s1 out1) ->
  wp m post e s.
Proof. intros H Hpost. destruct (H e s) as [HR HP]. apply Hpost; auto. Qed.

(** The order request is for the signal: its symbol, and its action as the
    side. *)
Lemma sizeOrder_for_signal botSettings signal accountValue e s orderRequest :
  result (sizeOrder botSettings signal accountValue e s) = Ok orderRequest ->
  OrderRequest.symbol orderRequest = StrategySignal.symbol signal
  /\ OrderRequest.side orderRequest = StrategySignal.action signal.
Proof.
  change (wp (sizeOrder botSettings signal accountValue)
            (fun r _ _ =>
               r = Ok orderRequest ->
               OrderRequest.symbol orderRequest = StrategySignal.symbol signal
               /\ OrderRequest.side orderRequest = StrategySignal.action signal) e s).
  unfold sizeOrder.
  destruct (String.eqb _ _); [|wp_step; intros [= <-]; split; reflexivity].
  wp_step.
  apply (wp_respects _ (fun _ _ => True) (fun _ => True)).
  { intros e' s'. split; [exact I | apply Forall_forall; auto]. }
  intros [rl|err] s1 out1 _ _; [|discriminate].
  wp_steps.
  unfold RL.signalToOrder.
  repeat (case_match; try discriminate); simplify_eq; wp_steps;
    intros [= <-]; split; reflexivity.
Qed.

(** The order decision either submits nothing and leaves the store alone,
    or reaches the submission of an order for an admitted signal, with
    nothing submitted before it. *)
Lemma orderDecision_outcome userId botSettings signal e s :
  let run := orderDecision userId botSettings signal e s in
  (List.filter is_submitOrder (output run) = [] /\ outside_rl (final run) = outside_rl s)
  \/ (exists alpaca orderRequest s0 out0,
         admitted signal = true
         /\ AlpacaClient.isTestMode alpaca = false
         /\ OrderRequest.symbol orderRequest = StrategySignal.symbol signal
         /\ OrderRequest.side orderRequest = StrategySignal.action signal
         /\ outside_rl s0 = outside_rl s
         /\ Forall (fun ev => is_submitOrder ev = false) out0
         /\ result run = result (placeOrder userId alpaca orderRequest e s0)
         /\ final run = final (placeOrder userId alpaca orderRequest e s0)
         /\ output run = out0 ++ output (placeOrder userId alpaca orderRequest e s0)).
Proof.
  cbv zeta.
  change (wp (orderDecision userId botSettings signal)
            (fun r s' out =>
               (List.filter is_submitOrder out = [] /\ outside_rl s' = outside_rl s)
               \/ (exists alpaca orderRequest s0 out0,
                      admitted signal = true
                      /\ AlpacaClient.isTestMode alpaca = false
                      /\ OrderRequest.symbol orderRequest = StrategySignal.symbol signal
                      /\ OrderRequest.side orderRequest = StrategySignal.action signal
                      /\ outside_rl s0 = outside_rl s
                      /\ Forall (fun ev => is_submitOrder ev = false) out0
                      /\ r = result (placeOrder userId alpaca orderRequest e s0)
                      /\ s' = final (placeOrder userId alpaca orderRequest e s0)
                      /\ out = out0 ++ output (placeOrder userId alpaca orderRequest e s0)))
            e s).
  unfold orderDecision.
  destruct (admitted signal) eqn:Hadmitted; [|wp_step; left; split; reflexivity].
  wp_steps.
  destruct (MemStorage.getApiKeyByUserId (storage s) userId) as [apiKey|];
    [|wp_step; left; split; reflexivity].
  wp_steps.
  destruct (getAlpacaClient _ _ _) as [alpaca|err] eqn:Hclient;
    [|left; split; reflexivity].
  apply getAlpacaClient_live in Hclient.
  wp_steps.
  destruct (http_getAccount e alpaca) as [account|err]; wp_steps;
    [|left; split; reflexivity].
  eapply wp_respects_result; [apply sizeOrder_frame|].
  intros [orderRequest|err] s0 out0 Hresult Hs0 Hout0.
  - right. exists alpaca, orderRequest, s0, ([alpaca_getAccount alpaca] ++ [] ++ [] ++ out0).
    destruct (sizeOrder_for_signal _ _ _ _ _ _ (eq_sym Hresult)) as [Hsymbol Hside].
    split; [reflexivity|]. split; [exact Hclient|]. split; [exact Hsymbol|].
    split; [exact Hside|]. split; [exact Hs0|]. split.
    + cbn. constructor; [reflexivity|].
      eapply Forall_impl; [exact Hout0|]. intros []; cbn; congruence.
    + unfold wp. rewrite <- !app_assoc. repeat split.
  - left. split; [|exact Hs0].
    cbn. apply filter_submitOrder_quiet.
    eapply Forall_impl; [exact Hout0|]. intros []; cbn; congruence.
Qed.

Lemma admitted_spec signal :
  admitted signal = true ->
  StrategySignal.action signal <> hold
  /\ (70 <? StrategySignal.confidence signal)%float = true.
Proof.
  unfold admitted. intros H. apply andb_true_iff in H as [Haction Hconfidence].
  split; [|exact Hconfidence].
  intros Hhold. rewrite Hhold in Haction. discriminate.
Qed.

(** IEEE comparison: [x <= y] excludes [y < x]. *)
Lemma SFcompare_antisym x y c :
  SFcompare x y = Some c -> SFcompare y x = Some (CompOpp c).
Proof.
  destruct x as [sx|sx| |sx mx ex], y as [sy|sy| |sy my ey]; cbn;
    try discriminate; intros [= <-];
    try (destruct sx; reflexivity); try (destruct sy; reflexivity);
    try (destruct sx, sy; reflexivity).
  destruct sx, sy; try reflexivity.
  - rewrite (Z.compare_antisym ex ey).
    destruct (ex ?= ey)%Z; cbn; try reflexivity.
    change (PosDef.Pos.compare_cont Eq mx my) with (Pos.compare mx my).
    change (PosDef.Pos.compare_cont Eq my mx) with (Pos.compare my mx).
    rewrite (Pos.compare_antisym mx my). destruct (mx ?= my)%positive; reflexivity.
  - rewrite (Z.compare_antisym ex ey).
    destruct (ex ?= ey)%Z; cbn; try reflexivity.
    change (PosDef.Pos.compare_cont Eq mx my) with (Pos.compare mx my).
    change (PosDef.Pos.compare_cont Eq my mx) with (Pos.compare my mx).
    rewrite (Pos.compare_antisym mx my). destruct (mx ?= my)%positive; reflexivity.
Qed.

Lemma float_leb_not_gt (x y : float) : (x <=? y)%float = true -> (y <? x)%float = false.
Proof.
  rewrite FloatAxioms.leb_spec, FloatAxioms.ltb_spec. unfold SFleb, SFltb.
  destruct (SFcompare (Prim2SF x) (Prim2SF y)) as [c|] eqn:H; [|discriminate].
  rewrite (SFcompare_antisym _ _ _ H). destruct c; cbn; congruence.
Qed.

Lemma not_admitted signal :
  StrategySignal.action signal = hold
  \/ (StrategySignal.confidence signal <=? 70)%float = true ->
  admitted signal = false.
Proof.
  unfold admitted. intros [Hhold|Hlow].
  - rewrite Hhold. reflexivity.
  - rewrite (float_leb_not_gt _ _ Hlow). apply andb_false_r.
Qed.

Lemma orderDecision_submits userId botSettings signal e s :
  let run := orderDecision userId botSettings signal e s in
  List.filter is_submitOrder (output run) = []
  \/ (admitted signal = true
      /\ exists alpaca orderRequest,
           List.filter is_submitOrder (output run) = [alpaca_submitOrder alpaca orderRequest]
           /\ OrderRequest.symbol orderRequest = StrategySignal.symbol signal
           /\ OrderRequest.side orderRequest = StrategySignal.action signal).
Proof.
  cbv zeta.
  pose proof (orderDecision_outcome userId botSettings signal e s) as H. cbv zeta in H.
  destruct H as [[Hnone _]|(alpaca & orderRequest & s0 & out0 & Hadm & Hlive & Hsym & Hside
                            & _ & Hquiet & _ & _ & Hout)].
  - left. exact Hnone.
  - right. split; [exact Hadm|]. exists alpaca, orderRequest.
    pose proof (placeOrder_outcome userId alpaca orderRequest e s0 Hlive) as Hplace.
    cbv zeta in Hplace. destruct Hplace as (_ & Hone & _).
    rewrite Hout, List.filter_app, (filter_submitOrder_quiet _ Hquiet), Hone.
    repeat split; assumption.
Qed.

(** ** Counting submissions *)

Lemma submits_quiet {A} (R : St -> St -> Prop) (m : M A) :
  respects R (fun ev => is_submitOrder ev = false) m -> submits_at_most 0 m.
Proof.
  intros H e s. destruct (H e s) as [_ Hquiet].
  unfold submitOrder_calls. rewrite (filter_submitOrder_quiet _ Hquiet). reflexivity.
Qed.

Lemma submits_le {A} n n' (m : M A) : n <= n' -> submits_at_most n m -> submits_at_most n' m.
Proof. intros Hle H e s. specialize (H e s). lia. Qed.

Lemma submits_bind {A B} n1 n2 (m : M A) (k : A -> M B) :
  submits_at_most n1 m -> (forall a, submits_at_most n2 (k a)) ->
  submits_at_most (n1 + n2) (bind m k).
Proof.
  intros Hm Hk e s. rewrite run_bind. specialize (Hm e s).
  destruct (m e s) as [[[a|err] s1] out1]; unfold output in *; cbn [fst snd] in *.
  - rewrite submitOrder_calls_app. specialize (Hk a e s1). unfold output in Hk. lia.
  - lia.
Qed.

Lemma submits_try_catch {A} n1 n2 (m : M A) (h : Error -> M A) :
  submits_at_most n1 m -> (forall err, submits_at_most n2 (h err)) ->
  submits_at_most (n1 + n2) (try_catch m h).
Proof.
  intros Hm Hh e s. rewrite run_try_catch. specialize (Hm e s).
  destruct (m e s) as [[[a|err] s1] out1]; unfold output in *; cbn [fst snd] in *.
  - lia.
  - rewrite submitOrder_calls_app. specialize (Hh err e s1). unfold output in Hh. lia.
Qed.

Lemma orderDecision_submits_once userId botSettings signal :
  submits_at_most 1 (orderDecision userId botSettings signal).
Proof.
  intros e s. unfold submitOrder_calls.
  pose proof (orderDecision_submits userId botSettings signal e s) as H. cbv zeta in H.
  destruct H as [->|(_ & alpaca & orderRequest & -> & _)]; cbn; lia.
Qed.

Lemma strategyAndOrder_submits_once userId isTestMode marketData :
  submits_at_most 1 (strategyAndOrder userId isTestMode marketData).
Proof.
  unfold strategyAndOrder.
  apply (submits_bind 0 1); [apply (submits_quiet any_state); frame|].
  intros [botSettings|]; [|apply (submits_le 0); [lia|]; apply (submits_quiet any_state); frame].
  destruct (BotSettings.isActive botSettings);
    [|apply (submits_le 0); [lia|]; apply (submits_quiet any_state); frame].
  apply (submits_bind 0 1); [apply (submits_quiet any_state); frame|].
  intros signal.
  apply (submits_bind 0 1); [apply (submits_quiet any_state); frame|].
  intros _. apply orderDecision_submits_once.
Qed.

Lemma handleAlpacaWebsocketMessage_submits_once userId message :
  submits_at_most 1 (handleAlpacaWebsocketMessage userId message).
Proof.
  unfold handleAlpacaWebsocketMessage.
  apply (submits_try_catch 1 0); [|intros err; apply (submits_quiet any_state); frame].
  apply (submits_bind 0 1); [apply (submits_quiet any_state); frame|].
  intros apiKey. cbv zeta.
  destruct (match message with AlpacaMessage.mock data => data | _ => _ end) as [marketData|];
    [|apply (submits_le 0); [lia|]; apply (submits_quiet any_state); frame].
  apply (submits_bind 0 1); [apply (submits_quiet any_state); frame|]. intros _.
  apply (submits_bind 0 1); [apply (submits_quiet any_state); frame|]. intros _.
  apply (submits_bind 0 1); [apply (submits_quiet any_state); frame|]. intros _.
  apply strategyAndOrder_submits_once.
Qed.

(** C1.  The order decision for a signal calls [submitOrder] at most once,
    and only for a signal whose action is not hold and whose confidence is
    above 70, with an order for that signal's symbol and action; for a hold
    signal or a confidence of at most 70 the step does nothing at all: no
    call, no order request, no change of state.  A run of the tick handler,
    which evaluates one signal, calls [submitOrder] at most once. *)
Theorem order_admission_gate :
  (forall userId botSettings signal e s,
      let run := orderDecision userId botSettings signal e s in
      submitOrder_calls (output run) <= 1
      /\ (forall alpaca orderRequest,
             In (alpaca_submitOrder alpaca orderRequest) (output run) ->
             StrategySignal.action signal <> hold
             /\ (70 <? StrategySignal.confidence signal)%float = true
             /\ OrderRequest.symbol orderRequest = StrategySignal.symbol signal
             /\ OrderRequest.side orderRequest = StrategySignal.action signal)
      /\ (StrategySignal.action signal = hold
          \/ (StrategySignal.confidence signal <=? 70)%float = true ->
          run = (Ok tt, s, [])))
  /\ (forall userId message e s,
         submitOrder_calls (output (handleAlpacaWebsocketMessage userId message e s)) <= 1).
Proof.
  split.
  - intros userId botSettings signal e s run. split; [|split].
    + apply orderDecision_submits_once.
    + intros alpaca orderRequest Hin.
      assert (Hfiltered : In (alpaca_submitOrder alpaca orderRequest)
                            (List.filter is_submitOrder (output run)))
        by (apply filter_In; split; [exact Hin | reflexivity]).
      pose proof (orderDecision_submits userId botSettings signal e s) as H.
      cbv zeta in H. fold run in H.
      destruct H as [Hnone|(Hadm & alpaca' & orderRequest' & Hone & Hsym & Hside)].
      * rewrite Hnone in Hfiltered. destruct Hfiltered.
      * rewrite Hone in Hfiltered. destruct Hfiltered as [[= <- <-]|[]].
        destruct (admitted_spec _ Hadm). repeat split; assumption.
    + intros Hskip. subst run. unfold orderDecision.
      rewrite (not_admitted _ Hskip). reflexivity.
  - intros userId message e s. apply handleAlpacaWebsocketMessage_submits_once.
Qed.

(** A buy signal at confidence 85 is submitted once by the demo server; a
    buy signal at confidence 70 and a hold signal at 99 are not. *)
Lemma order_admission_gate_witness :
  let strong := StrategySignal.mk "ETHUSD" buy 85 0 in
  let weak := StrategySignal.mk "ETHUSD" buy 70 0 in
  let held := StrategySignal.mk "ETHUSD" hold 99 0 in
  let alpaca := AlpacaClient.new "PK-DEMO" "SK-DEMO" true in
  let order := OrderRequest.mk "ETHUSD" 1 buy "market" "gtc" in
  In (alpaca_submitOrder alpaca order)
    (output (orderDecision 1 Demo.botSettings strong Demo.accepting Demo.server))
  /\ (StrategySignal.action strong <> hold
      /\ (70 <? StrategySignal.confidence strong)%float = true
      /\ OrderRequest.symbol order = StrategySignal.symbol strong
      /\ OrderRequest.side order = StrategySignal.action strong)
  /\ orderDecision 1 Demo.botSettings weak Demo.accepting Demo.server
     = (Ok tt, Demo.server, [])
  /\ orderDecision 1 Demo.botSettings held Demo.accepting Demo.server
     = (Ok tt, Demo.server, []).
Proof.
  intros strong weak held alpaca order.
  destruct order_admission_gate as [Hgate _].
  assert (Hin : In (alpaca_submitOrder alpaca order)
                  (output (orderDecision 1 Demo.botSettings strong Demo.accepting
                             Demo.server)))
    by (vm_compute; right; left; reflexivity).
  split; [exact Hin|]. split; [|split].
  - apply (proj1 (proj2 (Hgate 1 Demo.botSettings strong Demo.accepting Demo.server))
             alpaca order Hin).
  - apply (proj2 (proj2 (Hgate 1 Demo.botSettings weak Demo.accepting Demo.server))).
    right. reflexivity.
  - apply (proj2 (proj2 (Hgate 1 Demo.botSettings held Demo.accepting Demo.server))).
    left. reflexivity.
Defined.

(** C9.  An admitted signal of a user who has no stored API key is dropped
    without a trace: the order decision makes no call, writes no trade and no
    log entry of any level, and leaves the whole state as it was. *)
Theorem missing_api_key_skips_silently userId botSettings signal e s :
  BotSettings.isActive botSettings = true ->
  StrategySignal.action signal <> hold ->
  (70 <? StrategySignal.confidence signal)%float = true ->
  MemStorage.getApiKeyByUserId (storage s) userId = None ->
  orderDecision userId botSettings signal e s = (Ok tt, s, []).
Proof.
  intros _ Haction Hconfidence Hkey. unfold orderDecision, admitted.
  rewrite Hconfidence.
  destruct (StrategySignal.action signal); [| |congruence]; cbn [Action_eqb negb andb].
  all: rewrite run_bind; unfold storage.getApiKeyByUserId, storage.read; cbn;
    rewrite Hkey; reflexivity.
Qed.

(** User 2 has no API key on the demo server. *)
Lemma missing_api_key_skips_silently_witness :
  orderDecision 2 Demo.botSettings (StrategySignal.mk "ETHUSD" sell 90 0)
    Demo.accepting Demo.server
  = (Ok tt, Demo.server, []).
Proof.
  apply missing_api_key_skips_silently.
  - reflexivity.
  - discriminate.
  - reflexivity.
  - reflexivity.
Defined.

(** C2.  When [submitOrder] throws in the order decision, the step ends
    normally with one ERROR entry appended to the system log (carrying the
    broker's message), no trade recorded, [submitOrder] called once and not
    again, and everything else of the state as it was: nothing the handler
    wrote before is undone.  And the trade table changes in an order decision
    only by the record of an order that [submitOrder] returned. *)
Theorem broker_rejection_is_logged :
  (forall userId botSettings signal e s alpaca orderRequest err,
      let run := orderDecision userId botSettings signal e s in
      In (alpaca_submitOrder alpaca orderRequest) (output run) ->
      http_postOrder e alpaca orderRequest = Throw err ->
      result run = Ok tt
      /\ systemLogs_of (final run)
         = Map_set (MemStorage.n_systemLogs (MemStorage.nextId (storage s)))
             (SystemLog.mk (MemStorage.n_systemLogs (MemStorage.nextId (storage s)))
                userId ERROR [Lit "Order execution failed: "; Lit err] (Date_now e))
             (systemLogs_of s)
      /\ trades_of (final run) = trades_of s
      /\ submitOrder_calls (output run) = 1
      /\ (apiKeys_of (final run), botSettings_of (final run), positions_of (final run),
          MemStorage.performanceMetrics (storage (final run)))
         = (apiKeys_of s, botSettings_of s, positions_of s,
            MemStorage.performanceMetrics (storage s))
      /\ (activeConnections (final run), marketDataCache (final run), activeBots (final run),
          timers (final run), session (final run))
         = (activeConnections s, marketDataCache s, activeBots s, timers s, session s))
  /\ (forall userId botSettings signal e s,
         let run := orderDecision userId botSettings signal e s in
         trades_of (final run) = trades_of s
         \/ exists alpaca orderRequest order,
              In (alpaca_submitOrder alpaca orderRequest) (output run)
              /\ http_postOrder e alpaca orderRequest = Ok order
              /\ trades_of (final run)
                 = Map_set (MemStorage.n_trades (MemStorage.nextId (storage s)))
                     (Trade.mk (MemStorage.n_trades (MemStorage.nextId (storage s)))
                        userId (OrderResponse.symbol order) (OrderResponse.side order)
                        (OrderResponse.qty order) 0 (OrderResponse.type order)
                        (OrderResponse.status order) (Date_now e))
                     (trades_of s)).
Proof.
  split.
  - intros userId botSettings signal e s alpaca orderRequest err run Hin Hthrow.
    pose proof (orderDecision_outcome userId botSettings signal e s) as H.
    cbv zeta in H. fold run in H.
    assert (Hfiltered : In (alpaca_submitOrder alpaca orderRequest)
                          (List.filter is_submitOrder (output run)))
      by (apply filter_In; split; [exact Hin | reflexivity]).
    destruct H as [[Hnone _]|(alpaca' & orderRequest' & s0 & out0 & _ & Hlive & _ & _ & Hs0
                              & Hquiet & Hresult & Hfinal & Hout)].
    { rewrite Hnone in Hfiltered. destruct Hfiltered. }
    pose proof (placeOrder_outcome userId alpaca' orderRequest' e s0 Hlive) as Hplace.
    cbv zeta in Hplace. destruct Hplace as (Hok & Hone & Hstate & _ & _).
    rewrite Hout, List.filter_app, (filter_submitOrder_quiet _ Hquiet), Hone in Hfiltered.
    destruct Hfiltered as [[= <- <-]|[]].
    rewrite Hthrow in Hstate. rewrite <- Hfinal in Hstate.
    unfold outside_rl in Hstate, Hs0. cbn [storage set_storage] in Hstate.
    injection Hs0 as Hst0 Hc0 Hm0 Hb0 Ht0 Hn0 Hse0.
    injection Hstate as Hst Hc Hm Hb Ht Hn Hse. rewrite Hst0 in Hst.
    split; [rewrite Hresult; exact Hok|].
    unfold systemLogs_of, trades_of, apiKeys_of, botSettings_of, positions_of.
    rewrite Hst. split; [reflexivity|]. split; [reflexivity|]. split.
    + unfold submitOrder_calls.
      rewrite Hout, List.filter_app, (filter_submitOrder_quiet _ Hquiet), Hone. reflexivity.
    + split; [reflexivity|]. congruence.
  - intros userId botSettings signal e s run.
    pose proof (orderDecision_outcome userId botSettings signal e s) as H.
    cbv zeta in H. fold run in H.
    destruct H as [[_ Hsame]|(alpaca & orderRequest & s0 & out0 & _ & Hlive & _ & _ & Hs0
                              & Hquiet & Hresult & Hfinal & Hout)].
    { left. unfold outside_rl in Hsame. injection Hsame as Hst _ _ _ _ _ _.
      unfold trades_of. rewrite Hst. reflexivity. }
    pose proof (placeOrder_outcome userId alpaca orderRequest e s0 Hlive) as Hplace.
    cbv zeta in Hplace. destruct Hplace as (_ & Hone & Hstate & _ & _).
    rewrite <- Hfinal in Hstate.
    unfold outside_rl in Hstate, Hs0. cbn [storage set_storage] in Hstate.
    injection Hs0 as Hst0 _ _ _ _ _ _. injection Hstate as Hst _ _ _ _ _ _.
    rewrite Hst0 in Hst. unfold trades_of. rewrite Hst.
    destruct (http_postOrder e alpaca orderRequest) as [order|err] eqn:Hpost.
    + right. exists alpaca, orderRequest, order. split; [|split; [exact Hpost|reflexivity]].
      assert (Hin : In (alpaca_submitOrder alpaca orderRequest)
                      (List.filter is_submitOrder (output run))).
      { rewrite Hout, List.filter_app, (filter_submitOrder_quiet _ Hquiet), Hone.
        left. reflexivity. }
      apply filter_In in Hin. apply Hin.
    + left. reflexivity.
Qed.

(** The demo server with a broker that rejects the order: one ERROR entry,
    no trade. *)
Lemma broker_rejection_is_logged_witness :
  let strong := StrategySignal.mk "ETHUSD" buy 85 0 in
  let run := orderDecision 1 Demo.botSettings strong Demo.rejecting Demo.server in
  result run = Ok tt
  /\ systemLogs_of (final run)
     = [(1, SystemLog.mk 1 1 ERROR
              [Lit "Order execution failed: "; Lit "insufficient buying power"] 0)]
  /\ trades_of (final run) = []
  /\ submitOrder_calls (output run) = 1.
Proof.
  intros strong run.
  destruct broker_rejection_is_logged as [Hrejected _].
  destruct (Hrejected 1 Demo.botSettings strong Demo.rejecting Demo.server
              (AlpacaClient.new "PK-DEMO" "SK-DEMO" true)
              (OrderRequest.mk "ETHUSD" 1 buy "market" "gtc")
              "insufficient buying power")
    as (H1 & H2 & H3 & H4 & _).
  - vm_compute. right. left. reflexivity.
  - reflexivity.
  - fold run in H1, H2, H3, H4. repeat split; assumption.
Defined.

(** ** The live window of history *)

Lemma filter_unique {A} (f : A -> bool) (x : A) (l : list A) :
  NoDup l -> x ∈ l -> f x = true -> (forall y, y ∈ l -> f y = true -> y = x) ->
  List.filter f l = [x].
Proof.
  induction l as [|a l IH]; intros Hnd Hin Hfx Huniq.
  - inversion Hin.
  - apply NoDup_cons in Hnd as [Hnotin Hnd]. cbn.
    assert (Hnone : forall l', (forall y, y ∈ l' -> f y = true -> y = x) -> x ∉ l' ->
                               List.filter f l' = []).
    { clear. induction l' as [|b l' IH']; intros Hu Hx; [reflexivity|]. cbn.
      destruct (f b) eqn:Hb.
      - exfalso. apply Hx. rewrite <- (Hu b); [left | left | exact Hb].
      - apply IH'.
        + intros y Hy. apply Hu. right. exact Hy.
        + intros Hx'. apply Hx. right. exact Hx'. }
    destruct (f a) eqn:Hfa.
    + assert (a = x) as -> by (apply Huniq; [left | exact Hfa]).
      f_equal. apply Hnone; [|exact Hnotin].
      intros y Hy. apply Huniq. right. exact Hy.
    + apply IH; try assumption.
      * apply elem_of_cons in Hin as [->|Hin]; [congruence | exact Hin].
      * intros y Hy. apply Huniq. right. exact Hy.
Qed.

(** The cache has one entry per symbol: the window built from it for a
    cached tick is that tick alone. *)
Lemma historicalData_of_cached (cache : gmap string MarketData.t) marketData :
  cache !! MarketData.symbol marketData = Some marketData ->
  historicalData_of cache marketData = [marketData].
Proof.
  intros Hlook. unfold historicalData_of.
  rewrite (filter_unique _ (MarketData.symbol marketData, marketData));
    [reflexivity | | | |].
  - apply NoDup_map_to_list.
  - apply elem_of_map_to_list. exact Hlook.
  - cbn. apply String.eqb_refl.
  - intros [k v] Hin Hk. cbn in Hk. apply String.eqb_eq in Hk. subst k.
    apply elem_of_map_to_list in Hin. congruence.
Qed.

Lemma createStrategy_default type :
  selects_default type -> createStrategy type = Strategy_of MeanReversionStrategy.new.
Proof.
  intros (Hmomentum & Hppo & Hreinforcement). unfold createStrategy.
  apply String.eqb_neq in Hmomentum, Hppo, Hreinforcement.
  rewrite Hmomentum, Hppo, Hreinforcement.
  destruct (String.eqb type "mean_reversion"); reflexivity.
Qed.

Lemma evaluateStrategy_holds userId isTestMode botSettings marketData e s :
  selects_default (BotSettings.strategy botSettings) ->
  marketDataCache s !! MarketData.symbol marketData = Some marketData ->
  result (evaluateStrategy userId isTestMode botSettings marketData e s)
  = Ok (hold_signal (Date_now e) (MarketData.symbol marketData)).
Proof.
  intros Hdefault Hcached.
  change (wp (evaluateStrategy userId isTestMode botSettings marketData)
            (fun r _ _ => r = Ok (hold_signal (Date_now e) (MarketData.symbol marketData)))
            e s).
  unfold evaluateStrategy. wp_step. wp_step.
  rewrite (historicalData_of_cached _ _ Hcached).
  destruct Hdefault as (Hmomentum & Hppo & Hreinforcement).
  pose proof Hreinforcement as Hne. apply String.eqb_neq in Hne. rewrite Hne.
  rewrite (createStrategy_default _ (conj Hmomentum (conj Hppo Hreinforcement))).
  wp_steps. reflexivity.
Qed.

Lemma holding_console level text : holding (console level text).
Proof. split; [reflexivity | exact I]. Qed.

Lemma evaluateStrategy_quiet userId isTestMode botSettings marketData :
  respects (same trades_of) holding
    (evaluateStrategy userId isTestMode botSettings marketData).
Proof. frame. Qed.

Lemma positionReconciliation_quiet userId isTestMode marketData :
  respects (same (fun s => (marketDataCache s, botSettings_of s, trades_of s))) holding
    (positionReconciliation userId isTestMode marketData).
Proof. frame. Qed.

Lemma orderDecision_hold userId botSettings now symbol e s :
  orderDecision userId botSettings (hold_signal now symbol) e s = (Ok tt, s, []).
Proof. reflexivity. Qed.

(** On a rule-based strategy the evaluation is the one of the strategy
    object the factory builds. *)
Lemma evaluateStrategy_rule_based userId isTestMode botSettings marketData e s :
  BotSettings.strategy botSettings <> "reinforcement" ->
  evaluateStrategy userId isTestMode botSettings marketData e s
  = evaluateWith userId (createStrategy (BotSettings.strategy botSettings)) isTestMode
      marketData e s.
Proof.
  intros Hrule. apply String.eqb_neq in Hrule.
  unfold evaluateStrategy, evaluateWith. rewrite !run_bind. cbn.
  rewrite Hrule. reflexivity.
Qed.

(** Whatever the strategy object, it is asked about the tick, alone, and
    about the window read from the cache. *)
Lemma evaluateWith_asks userId (strategy : Strategy) isTestMode marketData e s :
  result (evaluateWith userId strategy isTestMode marketData e s)
  = Strategy_analyze strategy (Date_now e) (MarketData.symbol marketData) [marketData]
      (Some (historicalData_of (marketDataCache s) marketData)).
Proof.
  change (wp (evaluateWith userId strategy isTestMode marketData)
            (fun r _ _ =>
               r = Strategy_analyze strategy (Date_now e) (MarketData.symbol marketData)
                     [marketData]
                     (Some (historicalData_of (marketDataCache s) marketData))) e s).
  unfold evaluateWith. wp_step. wp_step. cbv zeta. wp_step. wp_step. wp_step.
  destruct (Strategy_analyze _ _ _ _ _) as [signal|err]; wp_steps; reflexivity.
Qed.

(** The handler of a tick, for an active bot on the default strategy, up to
    the evaluation and from it on: the tick is cached, broadcast and
    reconciled, which leaves the cache alone; the strategy is evaluated; its
    signal is broadcast, and nothing follows. *)
Lemma handler_evaluates userId message marketData botSettings e s :
  parseAlpacaWebSocketMessage message = Some marketData ->
  MemStorage.getBotSettingsByUserId (storage s) userId = Some botSettings ->
  BotSettings.isActive botSettings = true ->
  selects_default (BotSettings.strategy botSettings) ->
  let isTestMode :=
    match MemStorage.getApiKeyByUserId (storage s) userId with
    | Some apiKey => AlpacaClient.is_test_key (ApiKey.alpacaApiKey apiKey)
    | None => false
    end in
  exists before evaluated,
    marketDataCache before
    = <[MarketData.symbol marketData := marketData]> (marketDataCache s)
    /\ evaluateStrategy userId isTestMode botSettings marketData e before
       = (Ok (hold_signal (Date_now e) (MarketData.symbol marketData)), evaluated,
          output (evaluateStrategy userId isTestMode botSettings marketData e before))
    /\ final (handleAlpacaWebsocketMessage userId message e s) = evaluated
    /\ In (broadcastToUser_call userId
             (strategySignal_msg (hold_signal (Date_now e) (MarketData.symbol marketData))))
         (output (handleAlpacaWebsocketMessage userId message e s)).
Proof.
  intros Hparse Hsettings Hactive Hdefault isTestMode.
  change (wp (handleAlpacaWebsocketMessage userId message)
            (fun _ s' out =>
               exists before evaluated,
                 marketDataCache before
                 = <[MarketData.symbol marketData := marketData]> (marketDataCache s)
                 /\ evaluateStrategy userId isTestMode botSettings marketData e before
                    = (Ok (hold_signal (Date_now e) (MarketData.symbol marketData)),
                       evaluated,
                       output (evaluateStrategy userId isTestMode botSettings marketData
                                 e before))
                 /\ s' = evaluated
                 /\ In (broadcastToUser_call userId
                          (strategySignal_msg
                             (hold_signal (Date_now e) (MarketData.symbol marketData))))
                      out) e s).
  unfold handleAlpacaWebsocketMessage.
  wp_step. wp_step. wp_step. wp_step. rewrite handler_tick, Hparse.
  wp_step. wp_step. set (s1 := set_marketDataCache _ s).
  wp_step. wp_step. wp_step.
  eapply (wp_respects_result
            (same (fun s => (marketDataCache s, botSettings_of s, trades_of s)))).
  { apply positionReconciliation_quiet. }
  intros r3 s3 out3 Hr3 Hs3 _. unfold same in Hs3.
  injection Hs3 as Hcache3 Hbot3 _.
  assert (Htotal : exists a, r3 = Ok a).
  { subst r3. unfold positionReconciliation.
    apply total_bind; [apply total_read|]. intros positions.
    destruct (Array_find _ _); [|apply total_ret].
    unfold reconcilePosition. total_tac. }
  destruct Htotal as [[] ->].
  unfold strategyAndOrder. wp_step. wp_step. wp_step.
  rewrite (getBotSettingsByUserId_ext s s3) by exact Hbot3.
  rewrite Hsettings, Hactive.
  wp_step.
  fold isTestMode.
  pose proof (evaluateStrategy_holds userId isTestMode botSettings marketData e s3
                Hdefault) as Hholds.
  rewrite Hcache3 in Hholds. specialize (Hholds (lookup_insert_eq _ _ _)).
  unfold wp at 1. rewrite Hholds.
  wp_step. wp_step.
  eapply wp_run; [apply orderDecision_hold|].
  eexists s3, _. split; [exact Hcache3|]. split; [|split; [reflexivity|]].
  - rewrite (run_eta (evaluateStrategy _ _ _ _ _ _)) at 1. rewrite Hholds. reflexivity.
  - rewrite !in_app_iff. cbn [In]. auto 10.
Qed.

(** C10.  In the tick handler the window of history handed to the strategy
    is read from the latest-value cache, which the handler has just updated
    with the tick: it is the current tick and nothing else.  The handler
    evaluates the strategy in a state whose cache holds the tick; the
    evaluation on a rule-based strategy is the one of the strategy object the
    factory builds; and that object, whatever it is, is asked about the tick
    alone as data and the window read from the cache as history.  The default
    mean-reversion strategy, which wants 14 points, therefore answers the
    hold signal with confidence 0 on every live tick, and for a user on the
    default strategy a tick never reaches the broker: no call of
    [getAccount] or [submitOrder], no trade, and every signal broadcast is
    hold with confidence 0. *)
Theorem live_window_is_one_tick :
  (forall (cache : gmap string MarketData.t) marketData,
      historicalData_of (<[MarketData.symbol marketData := marketData]> cache) marketData
      = [marketData])
  /\ MeanReversionStrategy.lookbackPeriod MeanReversionStrategy.new = 14%Z
  /\ (forall type now marketData,
         selects_default type ->
         Strategy_analyze (createStrategy type) now (MarketData.symbol marketData)
           [marketData] (Some [marketData])
         = Ok (hold_signal now (MarketData.symbol marketData)))
  /\ (forall userId message e s,
         (forall botSettings,
             MemStorage.getBotSettingsByUserId (storage s) userId = Some botSettings ->
             selects_default (BotSettings.strategy botSettings)) ->
         Forall holding (output (handleAlpacaWebsocketMessage userId message e s))
         /\ trades_of (final (handleAlpacaWebsocketMessage userId message e s))
            = trades_of s)
  /\ (forall userId (strategy : Strategy) isTestMode marketData e s,
         result (evaluateWith userId strategy isTestMode marketData e s)
         = Strategy_analyze strategy (Date_now e) (MarketData.symbol marketData)
             [marketData] (Some (historicalData_of (marketDataCache s) marketData)))
  /\ (forall userId isTestMode botSettings marketData e s,
         BotSettings.strategy botSettings <> "reinforcement" ->
         evaluateStrategy userId isTestMode botSettings marketData e s
         = evaluateWith userId (createStrategy (BotSettings.strategy botSettings))
             isTestMode marketData e s)
  /\ (forall userId message marketData botSettings e s,
         parseAlpacaWebSocketMessage message = Some marketData ->
         MemStorage.getBotSettingsByUserId (storage s) userId = Some botSettings ->
         BotSettings.isActive botSettings = true ->
         selects_default (BotSettings.strategy botSettings) ->
         let isTestMode :=
           match MemStorage.getApiKeyByUserId (storage s) userId with
           | Some apiKey => AlpacaClient.is_test_key (ApiKey.alpacaApiKey apiKey)
           | None => false
           end in
         let run := handleAlpacaWebsocketMessage userId message e s in
         exists before,
           let evaluation :=
             evaluateStrategy userId isTestMode botSettings marketData e before in
           marketDataCache before
           = <[MarketData.symbol marketData := marketData]> (marketDataCache s)
           /\ historicalData_of (marketDataCache before) marketData = [marketData]
           /\ result evaluation
              = Ok (hold_signal (Date_now e) (MarketData.symbol marketData))
           /\ final run = final evaluation
           /\ In (broadcastToUser_call userId
                    (strategySignal_msg
                       (hold_signal (Date_now e) (MarketData.symbol marketData))))
                (output run)).
Proof.
  split; [|split; [reflexivity|split; [|split; [|split; [|split]]]]].
  - intros cache marketData. apply historicalData_of_cached, lookup_insert_eq.
  - intros type now marketData Hdefault.
    rewrite (createStrategy_default _ Hdefault). reflexivity.
  - intros userId message e s Hdefault.
    change (wp (handleAlpacaWebsocketMessage userId message)
              (fun _ s' out => Forall holding out /\ trades_of s' = trades_of s) e s).
    unfold handleAlpacaWebsocketMessage.
    wp_step. wp_step. wp_step. wp_step. rewrite handler_tick.
    destruct (parseAlpacaWebSocketMessage message) as [marketData|];
      [|wp_step; split; [constructor | reflexivity]].
    wp_step. wp_step. set (s1 := set_marketDataCache _ s).
    wp_step. wp_step.
    assert (Htick : Forall holding
                      (broadcastToUser_call userId (marketData_msg marketData)
                       :: map (fun socket => socket_send socket (marketData_msg marketData))
                            (receivers e s1 userId)))
      by (apply Forall_broadcast; repeat constructor).
    assert (Hcatch : forall (r : Res unit) s' out,
               Forall holding out -> trades_of s' = trades_of s ->
               match r with
               | Ok a => Forall holding out /\ trades_of s' = trades_of s
               | Throw err =>
                   wp (console_error "Error handling Alpaca WebSocket message:")
                     (fun _ s2 out2 =>
                        Forall holding (out ++ out2) /\ trades_of s2 = trades_of s) e s'
               end).
    { intros [|] s' out Hout Hs'; [split; assumption|]. wp_steps.
      split; [|exact Hs']. apply Forall_app. split; [exact Hout|].
      repeat constructor. }
    wp_step.
    eapply wp_respects; [apply positionReconciliation_quiet|].
    intros r3 s3 out3 Hs3 Hout3. unfold same in Hs3. injection Hs3 as Hcache3 Hbot3 Htrades3.
    assert (Hprefix : Forall holding
                        ([] ++ (broadcastToUser_call userId (marketData_msg marketData)
                                :: map (fun socket =>
                                          socket_send socket (marketData_msg marketData))
                                     (receivers e s1 userId)) ++ out3)).
    { cbn [app]. rewrite app_comm_cons. apply Forall_app. split; assumption. }
    destruct r3 as [[]|err]; [|apply (Hcatch (Throw err)); [exact Hprefix | exact Htrades3]].
    unfold strategyAndOrder. wp_step. wp_step. wp_step.
    rewrite (getBotSettingsByUserId_ext s s3) by exact Hbot3.
    destruct (MemStorage.getBotSettingsByUserId (storage s) userId) as [botSettings|]
      eqn:Hsettings;
      [|wp_step; apply (Hcatch (Ok tt));
        [rewrite !app_nil_r in *; exact Hprefix | exact Htrades3]].
    specialize (Hdefault botSettings eq_refl).
    destruct (BotSettings.isActive botSettings);
      [|wp_step; apply (Hcatch (Ok tt));
        [rewrite !app_nil_r in *; exact Hprefix | exact Htrades3]].
    wp_step.
    eapply wp_respects_result; [apply evaluateStrategy_quiet|].
    intros r4 s4 out4 Hr4 Htrades4 Hout4. unfold same in Htrades4.
    rewrite evaluateStrategy_holds in Hr4;
      [|exact Hdefault | rewrite Hcache3; apply lookup_insert_eq].
    subst r4. wp_step. wp_step.
    eapply wp_run; [apply orderDecision_hold|].
    apply (Hcatch (Ok tt));
      [|transitivity (trades_of s3); [exact Htrades4 | exact Htrades3]].
    repeat (apply Forall_app; split);
      solve [ assumption | constructor
            | apply Forall_broadcast; repeat constructor ].
  - intros. apply evaluateWith_asks.
  - intros. apply evaluateStrategy_rule_based. assumption.
  - intros userId message marketData botSettings e s Hparse Hsettings Hactive Hdefault.
    cbv zeta.
    destruct (handler_evaluates userId message marketData botSettings e s
                Hparse Hsettings Hactive Hdefault)
      as (before & evaluated & Hcache & Hrun & Hfinal & Hsignal).
    exists before. split; [exact Hcache|]. split; [|split; [|split]].
    + rewrite Hcache. apply historicalData_of_cached, lookup_insert_eq.
    + rewrite Hrun. reflexivity.
    + rewrite Hrun. exact Hfinal.
    + exact Hsignal.
Qed.

(** A tick on the demo server, whose user is on the default strategy. *)
Lemma live_window_is_one_tick_witness :
  Forall holding
    (output (handleAlpacaWebsocketMessage 1 (Demo.tick "BTCUSD" 105) Demo.accepting
               Demo.server))
  /\ trades_of
       (final (handleAlpacaWebsocketMessage 1 (Demo.tick "BTCUSD" 105) Demo.accepting
                 Demo.server))
     = []
  /\ Strategy_analyze (createStrategy "mean_reversion") 0 "BTCUSD"
       [MarketData.mk "BTCUSD" 105 0 0 0] (Some [MarketData.mk "BTCUSD" 105 0 0 0])
     = Ok (hold_signal 0 "BTCUSD")
  /\ In (broadcastToUser_call 1 (strategySignal_msg (hold_signal 0 "BTCUSD")))
       (output (handleAlpacaWebsocketMessage 1 (Demo.tick "BTCUSD" 105) Demo.accepting
                  Demo.server)).
Proof.
  destruct live_window_is_one_tick as (_ & _ & Hanalyze & Htick & _ & _ & Hhandler).
  assert (Hdefault : selects_default "mean_reversion") by (repeat split; discriminate).
  split; [|split; [|split]].
  - apply (Htick 1 (Demo.tick "BTCUSD" 105) Demo.accepting Demo.server).
    intros botSettings [= <-]. exact Hdefault.
  - apply (Htick 1 (Demo.tick "BTCUSD" 105) Demo.accepting Demo.server).
    intros botSettings [= <-]. exact Hdefault.
  - apply (Hanalyze "mean_reversion" 0%Z (MarketData.mk "BTCUSD" 105 0 0 0) Hdefault).
  - destruct (Hhandler 1 (Demo.tick "BTCUSD" 105) (MarketData.mk "BTCUSD" 105 0 0 0)
                Demo.botSettings Demo.accepting Demo.server eq_refl eq_refl eq_refl Hdefault)
      as (before & _ & _ & _ & _ & Hsignal).
    exact Hsignal.
Defined.

(** ** Strategies without enough history *)

(** C7.  A strategy asked to analyze with insufficient history answers the
    hold signal with confidence 0 and throws nothing: the mean-reversion and
    momentum strategies below their [lookbackPeriod], the oscillator below
    twice its longest period, the placeholder learning strategy below two
    recent points, and [generateSignal] of the learned-model strategy below
    30 points (whatever its state; it cannot throw at all). *)
Theorem insufficient_history_holds :
  (forall (self : MeanReversionStrategy.t) now symbol data history,
      insufficient (MeanReversionStrategy.lookbackPeriod self) history ->
      analyze self now symbol data history = Ok (hold_signal now symbol))
  /\ (forall (self : MomentumStrategy.t) now symbol data history,
         insufficient (MomentumStrategy.lookbackPeriod self) history ->
         analyze self now symbol data history = Ok (hold_signal now symbol))
  /\ (forall (self : PPOStrategy.t) now symbol data history,
         insufficient (PPOStrategy.requiredDataPoints self) history ->
         analyze self now symbol data history = Ok (hold_signal now symbol))
  /\ (forall (self : ReinforcementLearningStrategy.t) now symbol data history,
         length data < 2 ->
         analyze self now symbol data history = Ok (hold_signal now symbol))
  /\ (forall e (self : RL.t) symbol data history,
         length data < 30 ->
         RL.generateSignal e self symbol data history
         = (hold_signal (Date_now e) symbol, self, [])).
Proof.
  repeat split.
  - intros self now symbol data [points|] H; cbn; [|reflexivity].
    unfold MeanReversionStrategy.analyze. cbn in H.
    apply Z.ltb_lt in H. rewrite H. reflexivity.
  - intros self now symbol data [points|] H; cbn; [|reflexivity].
    unfold MomentumStrategy.analyze. cbn in H.
    apply Z.ltb_lt in H. rewrite H. reflexivity.
  - intros self now symbol data [points|] H; cbn; [|reflexivity].
    unfold PPOStrategy.analyze. cbn in H.
    apply Z.ltb_lt in H. rewrite H. reflexivity.
  - intros self now symbol data history H. cbn.
    unfold ReinforcementLearningStrategy.analyze.
    apply Nat.ltb_lt in H. rewrite H. reflexivity.
  - intros e self symbol data history H. unfold RL.generateSignal.
    apply Nat.ltb_lt in H. rewrite H, !orb_true_r. reflexivity.
Qed.

(** One tick of history, for each strategy as the factory builds it, and for
    a learned-model strategy whose model is loaded. *)
Lemma insufficient_history_holds_witness :
  let tick := MarketData.mk "BTCUSD" 100 0 0 0 in
  let loaded := RL.set_modelLoaded (RL.initializeAgent (RL.new ["BTCUSD"] 100)) true in
  let e := mkEnv 0 (fun _ => Throw "offline") (fun _ _ => Throw "offline") (fun _ => true)
             None (fun _ => Ok []) (fun _ _ => Ok []) in
  analyze MeanReversionStrategy.new 0 "BTCUSD" [tick] (Some [tick])
  = Ok (hold_signal 0 "BTCUSD")
  /\ analyze MomentumStrategy.new 0 "BTCUSD" [tick] (Some [tick])
     = Ok (hold_signal 0 "BTCUSD")
  /\ analyze PPOStrategy.new 0 "BTCUSD" [tick] (Some [tick])
     = Ok (hold_signal 0 "BTCUSD")
  /\ analyze ReinforcementLearningStrategy.new 0 "BTCUSD" [tick] (Some [tick])
     = Ok (hold_signal 0 "BTCUSD")
  /\ RL.generateSignal e loaded "BTCUSD" [tick] (Some [tick])
     = (hold_signal 0 "BTCUSD", loaded, []).
Proof.
  intros tick loaded e.
  destruct insufficient_history_holds as (H1 & H2 & H3 & H4 & H5).
  split; [|split; [|split; [|split]]].
  - apply H1. vm_compute. reflexivity.
  - apply H2. vm_compute. reflexivity.
  - apply H3. vm_compute. reflexivity.
  - apply H4. simpl. lia.
  - apply (H5 e loaded). simpl. lia.
Defined.

(* ===================================================================== *)
(** * Part IV.  More of the pipeline                                      *)
(* ===================================================================== *)

(** ** Every live tick holds *)

Lemma RL_generateSignal_short e self symbol data history :
  length data < 30 ->
  RL.generateSignal e self symbol data history = (hold_signal (Date_now e) symbol, self, []).
Proof.
  intros H. unfold RL.generateSignal.
  apply Nat.ltb_lt in H. rewrite H, !orb_true_r. reflexivity.
Qed.

(** One point of history is too little for every strategy the factory
    builds outside ['reinforcement']. *)
Lemma createStrategy_one_point type now marketData :
  type <> "reinforcement" ->
  Strategy_analyze (createStrategy type) now (MarketData.symbol marketData)
    [marketData] (Some [marketData])
  = Ok (hold_signal now (MarketData.symbol marketData)).
Proof.
  intros Hne. apply String.eqb_neq in Hne. unfold createStrategy. rewrite Hne.
  destruct (String.eqb type "mean_reversion"); [reflexivity|].
  destruct (String.eqb type "momentum"); [reflexivity|].
  destruct (String.eqb type "ppo"); reflexivity.
Qed.

Lemma rl_updateMarketData_any symbol data :
  respects any_state (fun _ => True) (rl_updateMarketData symbol data).
Proof. frame. Qed.

Lemma rl_generateSignal_short symbol data history e s :
  length data < 30 ->
  result (rl_generateSignal symbol data history e s) = Ok (hold_signal (Date_now e) symbol).
Proof.
  intros Hshort.
  change (wp (rl_generateSignal symbol data history)
            (fun r _ _ => r = Ok (hold_signal (Date_now e) symbol)) e s).
  unfold rl_generateSignal, getReinforcementLearningStrategy.
  wp_step. wp_step. wp_step.
  destruct (rlStrategy s) as [rl|].
  - wp_steps. rewrite (RL_generateSignal_short _ _ _ _ _ Hshort). wp_steps. reflexivity.
  - wp_steps. destruct (RL.loadModel e _) as [[loaded rl] lines]. wp_steps.
    rewrite (RL_generateSignal_short _ _ _ _ _ Hshort). wp_steps. reflexivity.
Qed.

(** Whatever the strategy, the signal evaluated on a live tick is the hold
    signal: the window holds the tick alone. *)
Lemma evaluateStrategy_live userId isTestMode botSettings marketData e s signal :
  marketDataCache s !! MarketData.symbol marketData = Some marketData ->
  result (evaluateStrategy userId isTestMode botSettings marketData e s) = Ok signal ->
  signal = hold_signal (Date_now e) (MarketData.symbol marketData).
Proof.
  intros Hcached.
  change (wp (evaluateStrategy userId isTestMode botSettings marketData)
            (fun r _ _ =>
               r = Ok signal ->
               signal = hold_signal (Date_now e) (MarketData.symbol marketData)) e s).
  unfold evaluateStrategy. wp_step. wp_step.
  rewrite (historicalData_of_cached _ _ Hcached).
  destruct (String.eqb (BotSettings.strategy botSettings) "reinforcement") eqn:Hrl.
  - wp_step.
    apply (wp_respects _ any_state (fun _ => True)); [apply rl_updateMarketData_any|].
    intros [[]|err] s1 out1 _ _; [|discriminate].
    wp_step.
    eapply (wp_respects_result any_state (fun _ => True)).
    { unfold rl_generateSignal. frame. }
    intros r s2 out2 Hr _ _.
    rewrite rl_generateSignal_short in Hr by (cbn; lia). subst r.
    wp_steps. congruence.
  - apply String.eqb_neq in Hrl.
    cbv zeta. wp_step. wp_step. wp_step.
    rewrite (createStrategy_one_point _ _ _ Hrl).
    wp_steps. congruence.
Qed.

(** X1.  A live tick never trades, whatever strategy the user has chosen:
    the handler of a tick makes no call of the broker ([getAccount],
    [submitOrder]), leaves the trade table as it was, and every strategy
    signal it broadcasts is hold with confidence 0.  The window of history
    is the tick alone, short of the 14, 10, 52 and 30 points the strategies
    ask for. *)
Theorem live_tick_never_trades userId message e s :
  Forall holding (output (handleAlpacaWebsocketMessage userId message e s))
  /\ trades_of (final (handleAlpacaWebsocketMessage userId message e s)) = trades_of s.
Proof.
  change (wp (handleAlpacaWebsocketMessage userId message)
            (fun _ s' out => Forall holding out /\ trades_of s' = trades_of s) e s).
  unfold handleAlpacaWebsocketMessage.
  wp_step. wp_step. wp_step. wp_step. rewrite handler_tick.
  destruct (parseAlpacaWebSocketMessage message) as [marketData|];
    [|wp_step; split; [constructor | reflexivity]].
  wp_step. wp_step. set (s1 := set_marketDataCache _ s).
  wp_step. wp_step.
  assert (Htick : Forall holding
                    (broadcastToUser_call userId (marketData_msg marketData)
                     :: map (fun socket => socket_send socket (marketData_msg marketData))
                          (receivers e s1 userId)))
    by (apply Forall_broadcast; repeat constructor).
  assert (Hcatch : forall (r : Res unit) s' out,
             Forall holding out -> trades_of s' = trades_of s ->
             match r with
             | Ok a => Forall holding out /\ trades_of s' = trades_of s
             | Throw err =>
                 wp (console_error "Error handling Alpaca WebSocket message:")
                   (fun _ s2 out2 =>
                      Forall holding (out ++ out2) /\ trades_of s2 = trades_of s) e s'
             end).
  { intros [|] s' out Hout Hs'; [split; assumption|]. wp_steps.
    split; [|exact Hs']. apply Forall_app. split; [exact Hout|].
    repeat constructor. }
  wp_step.
  eapply wp_respects; [apply positionReconciliation_quiet|].
  intros r3 s3 out3 Hs3 Hout3. unfold same in Hs3. injection Hs3 as Hcache3 Hbot3 Htrades3.
  assert (Hprefix : Forall holding
                      ([] ++ (broadcastToUser_call userId (marketData_msg marketData)
                              :: map (fun socket =>
                                        socket_send socket (marketData_msg marketData))
                                   (receivers e s1 userId)) ++ out3)).
  { cbn [app]. rewrite app_comm_cons. apply Forall_app. split; assumption. }
  destruct r3 as [[]|err]; [|apply (Hcatch (Throw err)); [exact Hprefix | exact Htrades3]].
  unfold strategyAndOrder. wp_step. wp_step. wp_step.
  destruct (MemStorage.getBotSettingsByUserId (storage s3) userId) as [botSettings|];
    [|wp_step; apply (Hcatch (Ok tt));
      [rewrite !app_nil_r in *; exact Hprefix | exact Htrades3]].
  destruct (BotSettings.isActive botSettings);
    [|wp_step; apply (Hcatch (Ok tt));
      [rewrite !app_nil_r in *; exact Hprefix | exact Htrades3]].
  wp_step.
  eapply wp_respects_result; [apply evaluateStrategy_quiet|].
  intros r4 s4 out4 Hr4 Htrades4 Hout4. unfold same in Htrades4.
  assert (Htrades : trades_of s4 = trades_of s)
    by (transitivity (trades_of s3); [exact Htrades4 | exact Htrades3]).
  destruct r4 as [signal|err].
  2: { apply (Hcatch (Throw err)); [|exact Htrades].
       repeat (apply Forall_app; split);
         solve [ assumption | constructor
               | apply Forall_broadcast; repeat constructor ]. }
  symmetry in Hr4. apply evaluateStrategy_live in Hr4;
    [|rewrite Hcache3; apply lookup_insert_eq].
  subst signal. wp_step. wp_step.
  eapply wp_run; [apply orderDecision_hold|].
  apply (Hcatch (Ok tt)); [|exact Htrades].
  repeat (apply Forall_app; split);
    solve [ assumption | constructor
          | apply Forall_broadcast; repeat constructor ].
Qed.

(** ** Handlers end normally *)

Lemma total_handleAlpacaWebsocketMessage userId message :
  total (handleAlpacaWebsocketMessage userId message).
Proof. unfold handleAlpacaWebsocketMessage. apply total_try_catch. intros err. total_tac. Qed.

Lemma total_on_message ws data : total (on_message ws data).
Proof. unfold on_message. apply total_try_catch. intros err. total_tac. Qed.

Lemma total_on_close ws : total (on_close ws).
Proof. unfold on_close. total_tac. Qed.

(** X2.  No handler of the server throws: the tick handler and the message
    handler catch whatever their steps throw and print it, the close handler
    and [stopTradingBot] have nothing that throws, and [startTradingBot],
    whose promise nobody awaits, catches the failures of the model
    initialisation itself. *)
Theorem handlers_end_normally op e s : result (perform op e s) = Ok tt.
Proof.
  assert (H : total (perform op)).
  { destruct op; cbn [perform].
    - apply total_handleAlpacaWebsocketMessage.
    - apply total_on_message.
    - apply total_on_close.
    - apply total_startTradingBot.
    - apply total_stopTradingBot. }
  destruct (H e s) as [[] Hresult]. exact Hresult.
Qed.

(** ** What a tick changes *)

Lemma positionReconciliation_cache userId isTestMode marketData :
  respects (same (fun s => (marketDataCache s, activeConnections s, session s)))
    (fun _ => True) (positionReconciliation userId isTestMode marketData).
Proof. frame. Qed.

Lemma strategyAndOrder_cache userId isTestMode marketData :
  respects (same (fun s => (marketDataCache s, activeConnections s, session s)))
    (fun _ => True) (strategyAndOrder userId isTestMode marketData).
Proof. frame. Qed.

(** X3.  A message that carries no tick (no data, or a stream that is
    neither a bar nor a trade) is dropped without any effect.  A tick is
    cached under its symbol, replacing the previous tick of that symbol only,
    and is broadcast to the user before anything else happens; the cache
    holds it whatever the later steps do, even when one of them throws. *)
Theorem tick_is_cached_and_broadcast userId message e s :
  (parseAlpacaWebSocketMessage message = None ->
   handleAlpacaWebsocketMessage userId message e s = (Ok tt, s, []))
  /\ (forall marketData,
         parseAlpacaWebSocketMessage message = Some marketData ->
         marketDataCache (final (handleAlpacaWebsocketMessage userId message e s))
         = <[MarketData.symbol marketData := marketData]> (marketDataCache s)
         /\ exists rest,
              output (handleAlpacaWebsocketMessage userId message e s)
              = broadcastToUser_call userId (marketData_msg marketData)
                :: map (fun socket => socket_send socket (marketData_msg marketData))
                     (receivers e s userId)
                ++ rest).
Proof.
  split.
  - intros Hparse. unfold handleAlpacaWebsocketMessage.
    rewrite run_try_catch, run_bind. unfold storage.getApiKeyByUserId, storage.read.
    cbn beta iota. rewrite handler_tick, Hparse. reflexivity.
  - intros marketData Hparse.
    change (wp (handleAlpacaWebsocketMessage userId message)
              (fun _ s' out =>
                 marketDataCache s'
                 = <[MarketData.symbol marketData := marketData]> (marketDataCache s)
                 /\ exists rest,
                      out = broadcastToUser_call userId (marketData_msg marketData)
                            :: map (fun socket =>
                                      socket_send socket (marketData_msg marketData))
                                 (receivers e s userId)
                            ++ rest) e s).
    unfold handleAlpacaWebsocketMessage.
    wp_step. wp_step. wp_step. wp_step. rewrite handler_tick, Hparse.
    wp_step. wp_step. set (s1 := set_marketDataCache _ s).
    wp_step. wp_step.
    change (receivers e s1 userId) with (receivers e s userId).
    set (tick := broadcastToUser_call userId (marketData_msg marketData)
                 :: map (fun socket => socket_send socket (marketData_msg marketData))
                      (receivers e s userId)).
    assert (Hcatch : forall (r : Res unit) s' out,
               marketDataCache s' = marketDataCache s1 ->
               (exists rest, out = tick ++ rest) ->
               match r with
               | Ok a =>
                   marketDataCache s'
                   = <[MarketData.symbol marketData := marketData]> (marketDataCache s)
                   /\ exists rest, out = tick ++ rest
               | Throw err =>
                   wp (console_error "Error handling Alpaca WebSocket message:")
                     (fun _ s2 out2 =>
                        marketDataCache s2
                        = <[MarketData.symbol marketData := marketData]>
                            (marketDataCache s)
                        /\ exists rest, out ++ out2 = tick ++ rest) e s'
               end).
    { intros [|] s' out Hs' [rest ->].
      - split; [exact Hs'|]. exists rest. reflexivity.
      - wp_steps. split; [exact Hs'|].
        eexists. rewrite <- app_assoc. reflexivity. }
    wp_step.
    eapply wp_respects; [apply positionReconciliation_cache|].
    intros r3 s3 out3 Hs3 _. unfold same in Hs3. injection Hs3 as Hcache3 _ _.
    destruct r3 as [[]|err].
    2: { apply (Hcatch (Throw err)); [exact Hcache3|]. exists out3. reflexivity. }
    eapply wp_respects; [apply strategyAndOrder_cache|].
    intros r4 s4 out4 Hs4 _. unfold same in Hs4. injection Hs4 as Hcache4 _ _.
    apply (Hcatch r4); [transitivity (marketDataCache s3); assumption|].
    exists (out3 ++ out4).
    cbn [app]. rewrite <- ?app_assoc. reflexivity.
Qed.

(** A stream of quotes is dropped; a trade of BTCUSD is cached. *)
Lemma tick_is_cached_and_broadcast_witness :
  handleAlpacaWebsocketMessage 1
    (AlpacaMessage.stream (Some "Q.BTCUSD") (Some (AlpacaMessage.mkPayload 1 2 3)))
    Demo.accepting Demo.server
  = (Ok tt, Demo.server, [])
  /\ marketDataCache
       (final (handleAlpacaWebsocketMessage 1
                 (AlpacaMessage.stream (Some "T.BTCUSD")
                    (Some (AlpacaMessage.mkPayload 1 2 3)))
                 Demo.accepting Demo.server))
     = {["BTCUSD" := MarketData.mk "BTCUSD" 2 3 0 0]}.
Proof.
  split.
  - apply (proj1 (tick_is_cached_and_broadcast 1 _ Demo.accepting Demo.server)).
    reflexivity.
  - apply (proj2 (tick_is_cached_and_broadcast 1 _ Demo.accepting Demo.server)
             (MarketData.mk "BTCUSD" 2 3 0 0)).
    reflexivity.
Defined.

(** ** The master switch *)

Lemma positionReconciliation_accounts userId isTestMode marketData :
  respects
    (same (fun s => (marketDataCache s, apiKeys_of s, botSettings_of s, systemLogs_of s,
                     trades_of s, MemStorage.nextId (storage s), rlStrategy s)))
    (fun ev => signal_of ev = None /\ is_broker_call ev = false)
    (positionReconciliation userId isTestMode marketData).
Proof. frame. Qed.

(** X4.  [isActive] is the master switch of the strategy: for a user whose
    settings are inactive, or who has no settings, a tick evaluates no
    strategy.  It writes no system log and no trade, leaves the learned
    model untouched, calls no broker and broadcasts no signal. *)
Theorem inactive_bot_evaluates_nothing userId message e s :
  (forall botSettings,
      MemStorage.getBotSettingsByUserId (storage s) userId = Some botSettings ->
      BotSettings.isActive botSettings = false) ->
  let run := handleAlpacaWebsocketMessage userId message e s in
  systemLogs_of (final run) = systemLogs_of s
  /\ trades_of (final run) = trades_of s
  /\ rlStrategy (final run) = rlStrategy s
  /\ Forall (fun ev => signal_of ev = None /\ is_broker_call ev = false) (output run).
Proof.
  intros Hinactive. cbv zeta.
  change (wp (handleAlpacaWebsocketMessage userId message)
            (fun _ s' out =>
               systemLogs_of s' = systemLogs_of s
               /\ trades_of s' = trades_of s
               /\ rlStrategy s' = rlStrategy s
               /\ Forall (fun ev => signal_of ev = None /\ is_broker_call ev = false) out)
            e s).
  unfold handleAlpacaWebsocketMessage.
  wp_step. wp_step. wp_step. wp_step. rewrite handler_tick.
  destruct (parseAlpacaWebSocketMessage message) as [marketData|];
    [|wp_step; repeat split; constructor].
  wp_step. wp_step. set (s1 := set_marketDataCache _ s).
  wp_step. wp_step. wp_step.
  eapply wp_respects; [apply positionReconciliation_accounts|].
  intros r3 s3 out3 Hs3 Hout3. unfold same in Hs3.
  injection Hs3 as _ _ Hbot3 Hlogs3 Htrades3 _ Hrl3.
  assert (Hout : Forall (fun ev => signal_of ev = None /\ is_broker_call ev = false)
                   ([] ++ (broadcastToUser_call userId (marketData_msg marketData)
                           :: map (fun socket =>
                                     socket_send socket (marketData_msg marketData))
                                (receivers e s1 userId)) ++ out3)).
  { cbn [app]. rewrite app_comm_cons. apply Forall_app. split; [|exact Hout3].
    apply Forall_broadcast; repeat constructor. }
  destruct r3 as [[]|err].
  2: { wp_steps. repeat split; try assumption.
       apply Forall_app. split; [exact Hout | repeat constructor]. }
  unfold strategyAndOrder. wp_step. wp_step. wp_step.
  rewrite (getBotSettingsByUserId_ext s s3) by exact Hbot3.
  destruct (MemStorage.getBotSettingsByUserId (storage s) userId) as [botSettings|]
    eqn:Hsettings.
  - rewrite (Hinactive botSettings eq_refl). wp_step.
    repeat split; try assumption. rewrite !app_nil_r in *. exact Hout.
  - wp_step. repeat split; try assumption. rewrite !app_nil_r in *. exact Hout.
Qed.

(** The demo user with the bot switched off. *)
Lemma inactive_bot_evaluates_nothing_witness :
  let off :=
    set_storage
      (fun st =>
         snd (MemStorage.updateBotSettings 0 st 1
                (BotSettings.mkPartial None (Some false) None None None)))
      Demo.server in
  let run := handleAlpacaWebsocketMessage 1 (Demo.tick "BTCUSD" 105) Demo.accepting off in
  systemLogs_of (final run) = []
  /\ trades_of (final run) = []
  /\ rlStrategy (final run) = None
  /\ Forall (fun ev => signal_of ev = None /\ is_broker_call ev = false) (output run).
Proof.
  intros off run.
  apply (inactive_bot_evaluates_nothing 1 (Demo.tick "BTCUSD" 105) Demo.accepting off).
  intros botSettings [= <-]. reflexivity.
Defined.

(** ** One log entry per evaluated tick *)

(** X5.  For an active bot on a rule-based strategy, every tick appends
    exactly one entry to the system log, at level SIGNAL, naming the strategy
    and the hold signal with its confidence 0.0 (marked for a test key), and
    broadcasts that hold signal to the user: the log grows with every tick
    although no tick can trade. *)
Theorem active_bot_logs_every_tick userId message marketData botSettings e s :
  parseAlpacaWebSocketMessage message = Some marketData ->
  MemStorage.getBotSettingsByUserId (storage s) userId = Some botSettings ->
  BotSettings.isActive botSettings = true ->
  BotSettings.strategy botSettings <> "reinforcement" ->
  let run := handleAlpacaWebsocketMessage userId message e s in
  let id := MemStorage.n_systemLogs (MemStorage.nextId (storage s)) in
  let isTestMode :=
    match MemStorage.getApiKeyByUserId (storage s) userId with
    | Some apiKey => AlpacaClient.is_test_key (ApiKey.alpacaApiKey apiKey)
    | None => false
    end in
  systemLogs_of (final run)
  = Map_set id
      (SystemLog.mk id userId SIGNAL
         [Lit (Strategy_getName (createStrategy (BotSettings.strategy botSettings)));
          Lit " "; Lit "hold"; Lit " signal detected for ";
          Lit (MarketData.symbol marketData); Lit " (confidence: "; Fixed 1 0%float;
          Lit "%)"; Lit (testMsg isTestMode)]
         (Date_now e))
      (systemLogs_of s)
  /\ MemStorage.n_systemLogs (MemStorage.nextId (storage (final run))) = S id
  /\ In (broadcastToUser_call userId
           (strategySignal_msg
              (hold_signal (Date_now e) (MarketData.symbol marketData))))
       (output run).
Proof.
  intros Hparse Hsettings Hactive Hrule. cbv zeta.
  set (logged := Map_set _ _ _).
  change (wp (handleAlpacaWebsocketMessage userId message)
            (fun _ s' out =>
               systemLogs_of s' = logged
               /\ MemStorage.n_systemLogs (MemStorage.nextId (storage s'))
                  = S (MemStorage.n_systemLogs (MemStorage.nextId (storage s)))
               /\ In (broadcastToUser_call userId
                        (strategySignal_msg
                           (hold_signal (Date_now e) (MarketData.symbol marketData))))
                    out) e s).
  unfold handleAlpacaWebsocketMessage.
  wp_step. wp_step. wp_step. wp_step. rewrite handler_tick, Hparse.
  wp_step. wp_step. set (s1 := set_marketDataCache _ s).
  wp_step. wp_step. wp_step.
  eapply (wp_respects_result
            (same (fun s => (marketDataCache s, apiKeys_of s, botSettings_of s,
                             systemLogs_of s, trades_of s, MemStorage.nextId (storage s),
                             rlStrategy s)))).
  { apply positionReconciliation_accounts. }
  intros r3 s3 out3 Hr3 Hs3 _. unfold same in Hs3.
  injection Hs3 as Hcache3 _ Hbot3 Hlogs3 _ Hnext3 _.
  assert (Htotal : exists a, r3 = Ok a).
  { subst r3. unfold positionReconciliation.
    apply total_bind; [apply total_read|]. intros positions.
    destruct (Array_find _ _); [|apply total_ret].
    unfold reconcilePosition. total_tac. }
  destruct Htotal as [[] ->].
  unfold strategyAndOrder. wp_step. wp_step. wp_step.
  rewrite (getBotSettingsByUserId_ext s s3) by exact Hbot3.
  rewrite Hsettings, Hactive.
  wp_step. unfold evaluateStrategy. wp_step. wp_step.
  rewrite (historicalData_of_cached (marketDataCache s3) marketData)
    by (rewrite Hcache3; apply lookup_insert_eq).
  pose proof Hrule as Hne. apply String.eqb_neq in Hne. rewrite Hne.
  cbv zeta. wp_step. wp_step. wp_step.
  rewrite (createStrategy_one_point _ _ _ Hrule).
  wp_steps.
  eapply wp_run; [apply orderDecision_hold|].
  split; [|split].
  - unfold systemLogs_of, MemStorage.createSystemLog. cbn.
    fold (systemLogs_of s3). rewrite Hnext3, Hlogs3. reflexivity.
  - unfold MemStorage.createSystemLog. cbn. rewrite Hnext3. reflexivity.
  - rewrite !in_app_iff. cbn [In]. auto 10.
Qed.

(** The demo user, whose bot is active on mean reversion. *)
Lemma active_bot_logs_every_tick_witness :
  let run :=
    handleAlpacaWebsocketMessage 1 (Demo.tick "BTCUSD" 105) Demo.accepting Demo.server in
  systemLogs_of (final run)
  = [(1, SystemLog.mk 1 1 SIGNAL
            [Lit "Mean Reversion"; Lit " "; Lit "hold"; Lit " signal detected for ";
             Lit "BTCUSD"; Lit " (confidence: "; Fixed 1 0%float; Lit "%)";
             Lit EmptyString] 0)]
  /\ MemStorage.n_systemLogs (MemStorage.nextId (storage (final run))) = 2
  /\ In (broadcastToUser_call 1 (strategySignal_msg (hold_signal 0 "BTCUSD")))
       (output run).
Proof.
  apply (active_bot_logs_every_tick 1 (Demo.tick "BTCUSD" 105)
           (MarketData.mk "BTCUSD" 105 0 0 0) Demo.botSettings Demo.accepting Demo.server).
  - reflexivity.
  - reflexivity.
  - reflexivity.
  - discriminate.
Defined.

(** ** The order decision, beyond the gate *)

(** X6.  An order the broker accepts is recorded in this order: the call of
    [getAccount], the one call of [submitOrder] with the basic market order
    (one unit, good till cancelled) for the signal, a TRADE entry in the
    system log, the trade with the price left at 0, and the broadcast of the
    order to the user.  This is the order decision of a rule-based strategy
    for an admitted signal and usable credentials. *)
Theorem accepted_order_is_recorded userId botSettings signal apiKey alpaca account order
    e s :
  admitted signal = true ->
  BotSettings.strategy botSettings <> "reinforcement" ->
  MemStorage.getApiKeyByUserId (storage s) userId = Some apiKey ->
  getAlpacaClient (ApiKey.alpacaApiKey apiKey) (ApiKey.alpacaSecretKey apiKey)
    (String.eqb (ApiKey.environment apiKey) "paper") = Ok alpaca ->
  http_getAccount e alpaca = Ok account ->
  http_postOrder e alpaca (basicOrder signal) = Ok order ->
  let run := orderDecision userId botSettings signal e s in
  let logId := MemStorage.n_systemLogs (MemStorage.nextId (storage s)) in
  let tradeId := MemStorage.n_trades (MemStorage.nextId (storage s)) in
  result run = Ok tt
  /\ systemLogs_of (final run)
     = Map_set logId
         (SystemLog.mk logId userId TRADE
            [Lit (Action_toUpperCase (OrderResponse.side order)); Lit " order executed: ";
             Num (OrderResponse.qty order); Lit " "; Lit (OrderResponse.symbol order);
             Lit " @ market price"] (Date_now e))
         (systemLogs_of s)
  /\ trades_of (final run)
     = Map_set tradeId
         (Trade.mk tradeId userId (OrderResponse.symbol order) (OrderResponse.side order)
            (OrderResponse.qty order) 0 (OrderResponse.type order)
            (OrderResponse.status order) (Date_now e))
         (trades_of s)
  /\ output run
     = [alpaca_getAccount alpaca; alpaca_submitOrder alpaca (basicOrder signal);
        broadcastToUser_call userId (orderUpdate_msg order)]
       ++ map (fun socket => socket_send socket (orderUpdate_msg order))
            (receivers e s userId).
Proof.
  intros Hadmitted Hrule Hkey Hclient Haccount Horder. cbv zeta.
  change (wp (orderDecision userId botSettings signal)
            (fun r s' out =>
               r = Ok tt
               /\ systemLogs_of s'
                  = Map_set (MemStorage.n_systemLogs (MemStorage.nextId (storage s)))
                      (SystemLog.mk (MemStorage.n_systemLogs (MemStorage.nextId (storage s)))
                         userId TRADE
                         [Lit (Action_toUpperCase (OrderResponse.side order));
                          Lit " order executed: "; Num (OrderResponse.qty order);
                          Lit " "; Lit (OrderResponse.symbol order);
                          Lit " @ market price"] (Date_now e))
                      (systemLogs_of s)
               /\ trades_of s'
                  = Map_set (MemStorage.n_trades (MemStorage.nextId (storage s)))
                      (Trade.mk (MemStorage.n_trades (MemStorage.nextId (storage s)))
                         userId (OrderResponse.symbol order) (OrderResponse.side order)
                         (OrderResponse.qty order) 0 (OrderResponse.type order)
                         (OrderResponse.status order) (Date_now e))
                      (trades_of s)
               /\ out
                  = [alpaca_getAccount alpaca; alpaca_submitOrder alpaca (basicOrder signal);
                     broadcastToUser_call userId (orderUpdate_msg order)]
                    ++ map (fun socket => socket_send socket (orderUpdate_msg order))
                         (receivers e s userId)) e s).
  unfold orderDecision. rewrite Hadmitted.
  wp_steps. rewrite Hkey. wp_steps. rewrite Hclient. wp_steps. rewrite Haccount. wp_steps.
  unfold sizeOrder. apply String.eqb_neq in Hrule. rewrite Hrule. wp_steps.
  unfold placeOrder. wp_steps.
  rewrite (getAlpacaClient_live _ _ _ _ Hclient), Horder. wp_steps.
  repeat split.
Qed.

(** The demo user's strong buy signal, accepted by the broker. *)
Lemma accepted_order_is_recorded_witness :
  let strong := StrategySignal.mk "ETHUSD" buy 85 0 in
  let run := orderDecision 1 Demo.botSettings strong Demo.accepting Demo.server in
  result run = Ok tt
  /\ systemLogs_of (final run)
     = [(1, SystemLog.mk 1 1 TRADE
              [Lit "BUY"; Lit " order executed: "; Num 1; Lit " "; Lit "ETHUSD";
               Lit " @ market price"] 0)]
  /\ trades_of (final run)
     = [(1, Trade.mk 1 1 "ETHUSD" buy 1 0 "market" "accepted" 0)]
  /\ output run
     = [alpaca_getAccount (AlpacaClient.new "PK-DEMO" "SK-DEMO" true);
        alpaca_submitOrder (AlpacaClient.new "PK-DEMO" "SK-DEMO" true)
          (OrderRequest.mk "ETHUSD" 1 buy "market" "gtc");
        broadcastToUser_call 1
          (orderUpdate_msg (Demo.accept (OrderRequest.mk "ETHUSD" 1 buy "market" "gtc")));
        socket_send 7
          (orderUpdate_msg (Demo.accept (OrderRequest.mk "ETHUSD" 1 buy "market" "gtc")))].
Proof.
  intros strong run.
  apply (accepted_order_is_recorded 1 Demo.botSettings strong Demo.apiKey
           (AlpacaClient.new "PK-DEMO" "SK-DEMO" true) Demo.account
           (Demo.accept (OrderRequest.mk "ETHUSD" 1 buy "market" "gtc"))
           Demo.accepting Demo.server).
  - reflexivity.
  - discriminate.
  - reflexivity.
  - reflexivity.
  - reflexivity.
  - reflexivity.
Defined.

(** X7.  When the account cannot be fetched, or no client can be built from
    the stored credentials (one of them empty), the order decision throws
    before any order is submitted and leaves the store as it was: unlike a
    rejected order, the failure gets no entry in the system log, only the
    console lines of the caller. *)
Theorem failed_account_is_not_logged userId botSettings signal apiKey e s :
  admitted signal = true ->
  MemStorage.getApiKeyByUserId (storage s) userId = Some apiKey ->
  let run := orderDecision userId botSettings signal e s in
  let client :=
    getAlpacaClient (ApiKey.alpacaApiKey apiKey) (ApiKey.alpacaSecretKey apiKey)
      (String.eqb (ApiKey.environment apiKey) "paper") in
  (forall err, client = Throw err -> run = (Throw err, s, []))
  /\ (forall alpaca err,
         client = Ok alpaca -> http_getAccount e alpaca = Throw err ->
         run = (Throw err, s,
                [alpaca_getAccount alpaca; console "error" "Account validation error:"])).
Proof.
  intros Hadmitted Hkey. cbv zeta. split.
  - intros err Hclient. rewrite (run_eta (orderDecision _ _ _ _ _)).
    change (wp (orderDecision userId botSettings signal)
              (fun r s' out => (r, s', out) = (Throw err, s, [])) e s).
    unfold orderDecision. rewrite Hadmitted.
    wp_steps. rewrite Hkey. wp_steps. rewrite Hclient. reflexivity.
  - intros alpaca err Hclient Haccount. rewrite (run_eta (orderDecision _ _ _ _ _)).
    change (wp (orderDecision userId botSettings signal)
              (fun r s' out =>
                 (r, s', out)
                 = (Throw err, s,
                    [alpaca_getAccount alpaca; console "error" "Account validation error:"]))
              e s).
    unfold orderDecision. rewrite Hadmitted.
    wp_steps. rewrite Hkey. wp_steps. rewrite Hclient. wp_steps. rewrite Haccount.
    wp_steps. reflexivity.
Qed.

(** The demo user when the broker is unreachable, and a user whose stored
    secret is empty. *)
Lemma failed_account_is_not_logged_witness :
  let strong := StrategySignal.mk "ETHUSD" buy 85 0 in
  let offline :=
    mkEnv 0 (fun _ => Throw "fetch failed") (fun _ order => Ok (Demo.accept order))
      (fun _ => true) None (fun _ => Ok []) (fun _ _ => Ok []) in
  let keyless :=
    set_storage
      (fun st =>
         MemStorage.mk [(1, ApiKey.mk 1 1 "PK-DEMO" EmptyString "paper" 0)]
           (MemStorage.botSettings st) (MemStorage.positions st) (MemStorage.trades st)
           (MemStorage.performanceMetrics st) (MemStorage.systemLogs st)
           (MemStorage.nextId st))
      Demo.server in
  orderDecision 1 Demo.botSettings strong offline Demo.server
  = (Throw "fetch failed", Demo.server,
     [alpaca_getAccount (AlpacaClient.new "PK-DEMO" "SK-DEMO" true);
      console "error" "Account validation error:"])
  /\ orderDecision 1 Demo.botSettings strong Demo.accepting keyless
     = (Throw "API is not defined", keyless, []).
Proof.
  intros strong offline keyless. split.
  - apply (proj2 (failed_account_is_not_logged 1 Demo.botSettings strong Demo.apiKey
                    offline Demo.server eq_refl eq_refl)); reflexivity.
  - apply (proj1 (failed_account_is_not_logged 1 Demo.botSettings strong
                    (ApiKey.mk 1 1 "PK-DEMO" EmptyString "paper" 0)
                    Demo.accepting keyless eq_refl eq_refl)); reflexivity.
Defined.

(** ** The dashboard connection *)

(** X8.  A connection that has not authenticated cannot drive the bot:
    every message on it other than an [auth] with a user id is ignored
    without any effect, and a message that is not JSON only prints a console
    line, on any connection. *)
Theorem unauthenticated_messages_are_ignored ws e s :
  (session s !! ws = None \/ session s !! ws = Some 0) ->
  (forall data,
      data <> malformed -> (forall n, data <> auth (S n)) ->
      on_message ws data e s = (Ok tt, s, []))
  /\ on_message ws malformed e s
     = (Ok tt, s, [console "error" "Error handling WebSocket message:"]).
Proof.
  intros Hsession. split; [|reflexivity].
  intros data Hmalformed Hauth. unfold on_message.
  rewrite run_try_catch.
  destruct data as [|[|n]| | |type]; try congruence;
    try (exfalso; apply (Hauth n); reflexivity);
    rewrite run_bind; cbn; destruct Hsession as [H|H]; rewrite ?H; reflexivity.
Qed.

(** A fresh connection to the demo server asks to start the bot. *)
Lemma unauthenticated_messages_are_ignored_witness :
  on_message 8 startBot Demo.accepting Demo.server = (Ok tt, Demo.server, [])
  /\ on_message 8 stopBot Demo.accepting Demo.server = (Ok tt, Demo.server, []).
Proof.
  destruct (unauthenticated_messages_are_ignored 8 Demo.accepting Demo.server) as [H _].
  - left. reflexivity.
  - split; apply H; discriminate.
Defined.

Lemma remove_first_NoDup ws connections :
  NoDup connections -> ~ In ws (remove_first ws connections).
Proof.
  induction connections as [|c rest IH]; intros Hnd; [intros []|].
  apply NoDup_cons in Hnd as [Hnotin Hnd]. cbn.
  destruct (Nat.eqb c ws) eqn:Heq.
  - apply Nat.eqb_eq in Heq. subst c. intros Hin. apply Hnotin.
    apply list_elem_of_In. exact Hin.
  - intros [->|Hin]; [rewrite Nat.eqb_refl in Heq; discriminate|].
    exact (IH Hnd Hin).
Qed.

Lemma remove_first_other ws other connections :
  other <> ws -> In other (remove_first ws connections) <-> In other connections.
Proof.
  intros Hne. induction connections as [|c rest IH]; [reflexivity|]. cbn.
  destruct (Nat.eqb c ws) eqn:Heq.
  - apply Nat.eqb_eq in Heq. subst c. split; [auto|]. intros [Heq|Hin]; [congruence|exact Hin].
  - cbn. rewrite IH. reflexivity.
Qed.

(** The connections of a user after [ws] closed. *)
Lemma on_close_connections ws userId e s :
  session s !! ws = Some userId -> userId <> 0 ->
  default [] (activeConnections (final (on_close ws e s)) !! userId)
  = remove_first ws (default [] (activeConnections s !! userId))
  /\ forall other, other <> userId ->
       activeConnections (final (on_close ws e s)) !! other = activeConnections s !! other.
Proof.
  intros Hsession Huser. unfold on_close.
  change (wp (do s0 <- get;
              match session s0 !! ws with
              | Some (S n) =>
                  match activeConnections s0 !! S n with
                  | Some connections =>
                      if Nat.eqb (length (remove_first ws connections)) 0
                      then modify (set_activeConnections (delete (S n)))
                      else modify (set_activeConnections
                                     (<[S n := remove_first ws connections]>))
                  | None => ret tt
                  end
              | _ => ret tt
              end)
            (fun _ s' _ =>
               default [] (activeConnections s' !! userId)
               = remove_first ws (default [] (activeConnections s !! userId))
               /\ forall other, other <> userId ->
                    activeConnections s' !! other = activeConnections s !! other) e s).
  wp_step. wp_step. rewrite Hsession.
  destruct userId as [|n]; [congruence|].
  destruct (activeConnections s !! S n) as [connections|] eqn:Hconnections.
  - destruct (Nat.eqb _ 0) eqn:Hempty; wp_step; cbn.
    + rewrite lookup_delete_eq. apply Nat.eqb_eq, nil_length_inv in Hempty.
      rewrite Hempty. split; [reflexivity|].
      intros other Hother. apply lookup_delete_ne. congruence.
    + rewrite lookup_insert_eq. split; [reflexivity|].
      intros other Hother. apply lookup_insert_ne. congruence.
  - wp_step. rewrite Hconnections. split; [reflexivity|]. reflexivity.
Qed.

Lemma on_close_store ws :
  respects (same (fun s => (storage s, scheduler_of s, marketDataCache s, session s)))
    (fun _ => False) (on_close ws).
Proof. frame. Qed.

(** X9.  When a connection closes, one registration of the socket is
    removed from its user's connections (and the user's entry with the last
    one); a socket that was registered once gets no broadcast any more, the
    other sockets stay registered, and the connections of other users are
    untouched.  Nothing else changes: the store, the cache and the scheduler
    are as before, so that a running bot keeps running with nobody
    connected; the handler sends and prints nothing. *)
Theorem closed_socket_gets_nothing ws userId e s :
  session s !! ws = Some userId -> userId <> 0 ->
  NoDup (default [] (activeConnections s !! userId)) ->
  let s' := final (on_close ws e s) in
  (forall e', ~ In ws (receivers e' s' userId))
  /\ (forall e' other, other <> ws ->
         In other (receivers e' s' userId) <-> In other (receivers e' s userId))
  /\ (forall other, other <> userId ->
         activeConnections s' !! other = activeConnections s !! other)
  /\ (storage s', scheduler_of s', marketDataCache s', session s')
     = (storage s, scheduler_of s, marketDataCache s, session s)
  /\ output (on_close ws e s) = [].
Proof.
  intros Hsession Huser Hnd s'.
  destruct (on_close_connections ws userId e s Hsession Huser) as [Hlist Hothers].
  fold s' in Hlist, Hothers.
  destruct (on_close_store ws e s) as [Hsame Hout]. fold s' in Hsame.
  split; [|split; [|split; [|split]]].
  - intros e' Hin. unfold receivers in Hin. rewrite Hlist in Hin.
    apply filter_In in Hin as [Hin _]. exact (remove_first_NoDup _ _ Hnd Hin).
  - intros e' other Hother. unfold receivers. rewrite Hlist, !filter_In.
    rewrite (remove_first_other _ _ _ Hother). reflexivity.
  - exact Hothers.
  - exact Hsame.
  - destruct (output (on_close ws e s)) as [|ev rest]; [reflexivity|].
    apply Forall_cons in Hout as [[] _].
Qed.

(** The demo user's only socket closes while the bot runs. *)
Lemma closed_socket_gets_nothing_witness :
  let running := final (startTradingBot 1 Demo.accepting Demo.server) in
  let s' := final (on_close 7 Demo.accepting running) in
  (forall e', ~ In 7 (receivers e' s' 1))
  /\ activeConnections s' !! 1 = None
  /\ scheduler_of s' = scheduler_of running
  /\ size (liveHandles 1 s') = 1.
Proof.
  intros running s'.
  destruct (closed_socket_gets_nothing 7 1 Demo.accepting running)
    as (Hnone & _ & _ & Hsame & _).
  - reflexivity.
  - discriminate.
  - vm_compute. apply NoDup_singleton.
  - fold s' in Hnone, Hsame. split; [exact Hnone|]. split; [reflexivity|].
    split; [congruence|]. vm_compute. reflexivity.
Defined.

(** ** Bots of different users *)

Lemma stopped_other userId other s :
  scheduler_ok s -> other <> userId ->
  activeBots (stopped userId s) !! other = activeBots s !! other
  /\ forall intervalId,
       activeBots s !! other = Some intervalId ->
       timers (stopped userId s) !! intervalId = timers s !! intervalId.
Proof.
  intros Hok Hne. unfold stopped.
  destruct (activeBots s !! userId) as [mine|] eqn:Hmine; [|split; reflexivity].
  cbn. split; [apply lookup_delete_ne; congruence|].
  intros intervalId Hother. apply lookup_delete_ne. intros <-.
  destruct (registered_live s Hok _ _ Hmine) as (timer & Htimer & Hkind).
  destruct (registered_live s Hok _ _ Hother) as (timer' & Htimer' & Hkind').
  rewrite Htimer in Htimer'. injection Htimer' as <-.
  apply Hne. eapply is_botUpdate_of_unique; eassumption.
Qed.

Lemma liveHandles_ext userId s s' :
  scheduler_ok s -> scheduler_ok s' ->
  activeBots s' !! userId = activeBots s !! userId ->
  (forall intervalId,
      activeBots s !! userId = Some intervalId ->
      timers s' !! intervalId = timers s !! intervalId) ->
  liveHandles userId s' = liveHandles userId s.
Proof.
  intros Hok Hok' Hbots Htimers.
  rewrite (liveHandles_registered _ _ Hok), (liveHandles_registered _ _ Hok'), Hbots.
  destruct (activeBots s !! userId) as [intervalId|]; [|reflexivity].
  rewrite (Htimers _ eq_refl). reflexivity.
Qed.

(** X10.  The bots of different users do not interfere: starting or
    stopping the bot of one user leaves the registered handle and the live
    handles of every other user as they were. *)
Theorem bots_do_not_interfere userId other e s :
  scheduler_ok s -> other <> userId ->
  (activeBots (final (startTradingBot userId e s)) !! other = activeBots s !! other
   /\ liveHandles other (final (startTradingBot userId e s)) = liveHandles other s)
  /\ (activeBots (final (stopTradingBot userId e s)) !! other = activeBots s !! other
      /\ liveHandles other (final (stopTradingBot userId e s)) = liveHandles other s).
Proof.
  intros Hok Hne.
  destruct (stopped_other userId other s Hok Hne) as [Hbots Htimers].
  pose proof (scheduler_ok_stopped userId s Hok) as Hok_stopped.
  assert (Hstop : liveHandles other (stopped userId s) = liveHandles other s)
    by (apply liveHandles_ext; assumption).
  split.
  - pose proof (startTradingBot_keeps userId e s) as [Hkeep _].
    specialize (Hkeep Hok).
    destruct (startTradingBot_scheduler userId e s) as (_ & _ & H).
    assert (Hcases :
              scheduler_of (final (startTradingBot userId e s))
              = scheduler_of (stopped userId s)
              \/ exists timer,
                   is_botUpdate_of userId timer = true
                   /\ scheduler_of (final (startTradingBot userId e s))
                      = (<[userId := nextTimer s]> (activeBots (stopped userId s)),
                         <[nextTimer s := timer]> (timers (stopped userId s)),
                         S (nextTimer s))).
    { destruct (MemStorage.getApiKeyByUserId (storage s) userId) as [apiKey|]; [|auto].
      destruct (MemStorage.getBotSettingsByUserId (storage s) userId) as [botSettings|];
        [|auto].
      destruct (BotSettings.isActive botSettings); [|auto].
      right. eexists. split; [|exact H]. cbn. apply Nat.eqb_refl. }
    destruct Hcases as [Hsame|(timer & Hkind & Hinstalled)].
    + unfold scheduler_of in Hsame. injection Hsame as Ha Ht _.
      split; [rewrite Ha; exact Hbots|].
      rewrite <- Hstop. apply liveHandles_ext; try assumption.
      * rewrite Ha. reflexivity.
      * intros intervalId _. rewrite Ht. reflexivity.
    + unfold scheduler_of in Hinstalled. injection Hinstalled as Ha Ht _.
      split; [rewrite Ha, lookup_insert_ne by congruence; exact Hbots|].
      rewrite <- Hstop. apply liveHandles_ext; try assumption.
      * rewrite Ha. apply lookup_insert_ne. congruence.
      * intros intervalId Hreg. rewrite Ht. apply lookup_insert_ne. intros <-.
        destruct (registered_live _ Hok_stopped _ _ Hreg) as (timer' & Htimer' & _).
        rewrite (fresh_unused _ Hok_stopped (nextTimer s)) in Htimer';
          [discriminate|].
        rewrite stopped_nextTimer. lia.
  - rewrite stopTradingBot_run. cbn. split; assumption.
Qed.

(** Users 1 and 2 both run a bot; user 2 restarts and then stops. *)
Lemma bots_do_not_interfere_witness :
  let two :=
    set_storage
      (fun st =>
         MemStorage.mk
           (MemStorage.apiKeys st ++ [(2, ApiKey.mk 2 2 "PK-TWO" "SK-TWO" "paper" 0)])
           (MemStorage.botSettings st
            ++ [(2, BotSettings.mk 2 2 true "momentum" 5 "low" 0)])
           (MemStorage.positions st) (MemStorage.trades st)
           (MemStorage.performanceMetrics st) (MemStorage.systemLogs st)
           (MemStorage.nextId st))
      Demo.server in
  let running :=
    final (startTradingBot 2 Demo.accepting (final (startTradingBot 1 Demo.accepting two))) in
  size (liveHandles 1 running) = 1
  /\ liveHandles 1 (final (startTradingBot 2 Demo.accepting running)) = liveHandles 1 running
  /\ liveHandles 1 (final (stopTradingBot 2 Demo.accepting running)) = liveHandles 1 running.
Proof.
  intros two running.
  assert (Hok : scheduler_ok running).
  { apply (startTradingBot_keeps 2 Demo.accepting _).
    apply (startTradingBot_keeps 1 Demo.accepting two).
    apply (scheduler_ok_ext Demo.server); [reflexivity | apply scheduler_ok_demo]. }
  destruct (bots_do_not_interfere 2 1 Demo.accepting running Hok) as [[_ H1] [_ H2]].
  - discriminate.
  - split; [vm_compute; reflexivity|]. split; assumption.
Defined.

(** ** Starting without the means to run *)

(** X11.  A start request for a user who has no API key, has no settings or
    whose settings are inactive installs nothing; its one effect is to stop
    the user's running bot, silently: no log, no broadcast. *)
Theorem start_without_credentials_only_stops userId e s :
  (MemStorage.getApiKeyByUserId (storage s) userId = None
   \/ MemStorage.getBotSettingsByUserId (storage s) userId = None
   \/ exists botSettings,
        MemStorage.getBotSettingsByUserId (storage s) userId = Some botSettings
        /\ BotSettings.isActive botSettings = false) ->
  startTradingBot userId e s = (Ok tt, stopped userId s, []).
Proof.
  intros H. rewrite (run_eta (startTradingBot userId e s)).
  change (wp (startTradingBot userId)
            (fun r s' out => (r, s', out) = (Ok tt, stopped userId s, [])) e s).
  unfold startTradingBot.
  wp_step. eapply wp_run; [apply stopTradingBot_run|]. cbn beta iota.
  wp_steps. rewrite !storage_stopped.
  destruct H as [-> | [-> | (botSettings & -> & Hinactive)]].
  - reflexivity.
  - destruct (MemStorage.getApiKeyByUserId _ _); reflexivity.
  - destruct (MemStorage.getApiKeyByUserId _ _); [|reflexivity].
    rewrite Hinactive. reflexivity.
Qed.

(** The demo user's bot runs; the API key is then lost, and a restart leaves
    no bot at all. *)
Lemma start_without_credentials_only_stops_witness :
  let running := final (startTradingBot 1 Demo.accepting Demo.server) in
  let keyless :=
    set_storage
      (fun st =>
         MemStorage.mk [] (MemStorage.botSettings st) (MemStorage.positions st)
           (MemStorage.trades st) (MemStorage.performanceMetrics st)
           (MemStorage.systemLogs st) (MemStorage.nextId st))
      running in
  size (liveHandles 1 keyless) = 1
  /\ startTradingBot 1 Demo.accepting keyless = (Ok tt, stopped 1 keyless, [])
  /\ size (liveHandles 1 (stopped 1 keyless)) = 0.
Proof.
  intros running keyless.
  split; [vm_compute; reflexivity|]. split; [|vm_compute; reflexivity].
  apply start_without_credentials_only_stops. left. reflexivity.
Defined.

(** ** Authentication *)

Lemma startTradingBot_connections userId :
  respects (same (fun s => (session s, activeConnections s))) (fun _ => True)
    (startTradingBot userId).
Proof. frame. Qed.

(** X12.  An [auth] message with a user id binds the connection to that
    user and registers the socket with the user's connections, so that every
    later broadcast to the user reaches it while it is open; the first thing
    the handler sends is the initial data, to that socket alone, read from the
    store as it is: the user's positions, the 10 latest trades, the metrics,
    the 20 latest logs, the settings and whether an API key is stored. *)
Theorem auth_registers_the_socket ws n e s :
  let userId := S n in
  let run := on_message ws (auth userId) e s in
  result run = Ok tt
  /\ session (final run) !! ws = Some userId
  /\ (forall e', socket_open e' ws = true -> In ws (receivers e' (final run) userId))
  /\ exists rest,
       output run
       = socket_send ws
           (initialData_msg
              (MemStorage.getPositionsByUserId (storage s) userId)
              (MemStorage.getTradesByUserId (storage s) userId 10)
              (MemStorage.getPerformanceMetricsByUserId (storage s) userId)
              (MemStorage.getSystemLogsByUserId (storage s) userId 20)
              (MemStorage.getBotSettingsByUserId (storage s) userId)
              (bool_decide (is_Some (MemStorage.getApiKeyByUserId (storage s) userId))))
         :: rest.
Proof.
  cbv zeta.
  set (hello := socket_send ws _).
  change (wp (on_message ws (auth (S n)))
            (fun r s' out =>
               r = Ok tt
               /\ session s' !! ws = Some (S n)
               /\ (forall e', socket_open e' ws = true -> In ws (receivers e' s' (S n)))
               /\ exists rest, out = hello :: rest) e s).
  assert (Hregistered : forall s',
             activeConnections s'
             = <[S n := default [] (activeConnections s !! S n) ++ [ws]]>
                 (activeConnections s) ->
             forall e', socket_open e' ws = true -> In ws (receivers e' s' (S n))).
  { intros s' Hs' e' Hopen. unfold receivers. rewrite Hs', lookup_insert_eq. cbn.
    apply filter_In. split; [|exact Hopen]. apply in_or_app. right. left. reflexivity. }
  unfold on_message.
  wp_step. wp_step. wp_step. cbn beta iota.
  wp_step. wp_step. wp_step. wp_step.
  wp_steps.
  set (s1 := set_activeConnections _ _).
  change (storage s1) with (storage s). fold hello. clearbody hello.
  assert (Hsession1 : session s1 !! ws = Some (S n)) by apply lookup_insert_eq.
  assert (Hdone : forall (r : Res unit) s' out,
             (session s', activeConnections s') = (session s1, activeConnections s1) ->
             (exists rest, out = hello :: rest) ->
             match r with
             | Ok a =>
                 Ok a = Ok tt
                 /\ session s' !! ws = Some (S n)
                 /\ (forall e', socket_open e' ws = true ->
                                In ws (receivers e' s' (S n)))
                 /\ exists rest, out = hello :: rest
             | Throw err =>
                 wp (console_error "Error handling WebSocket message:")
                   (fun r' s2 out2 =>
                      r' = Ok tt
                      /\ session s2 !! ws = Some (S n)
                      /\ (forall e', socket_open e' ws = true ->
                                     In ws (receivers e' s2 (S n)))
                      /\ exists rest, out ++ out2 = hello :: rest) e s'
             end).
  { intros [[]|err] s' out [= Hs Hc] [rest ->].
    - split; [reflexivity|]. split; [rewrite Hs; exact Hsession1|].
      split; [apply Hregistered; rewrite Hc; reflexivity|].
      eexists. reflexivity.
    - wp_steps. split; [reflexivity|]. split; [rewrite Hs; exact Hsession1|].
      split; [apply Hregistered; rewrite Hc; reflexivity|].
      eexists. reflexivity. }
  destruct (MemStorage.getApiKeyByUserId (storage s) (S n)) as [apiKey|].
  2: { wp_step. apply (Hdone (Ok tt)); [reflexivity|]. eexists. reflexivity. }
  apply (wp_respects _ (same (fun s => (session s, activeConnections s))) (fun _ => True)).
  { frame. }
  intros r s' out Hs' _. apply Hdone; [exact Hs'|]. eexists. reflexivity.
Qed.

(** A second socket of the demo user authenticates. *)
Lemma auth_registers_the_socket_witness :
  let run := on_message 9 (auth 1) Demo.accepting Demo.server in
  session (final run) !! 9 = Some 1
  /\ In 9 (receivers Demo.accepting (final run) 1)
  /\ In 7 (receivers Demo.accepting (final run) 1).
Proof.
  intros run.
  destruct (auth_registers_the_socket 9 0 Demo.accepting Demo.server)
    as (_ & Hsession & Hreceives & _).
  split; [exact Hsession|]. split; [apply Hreceives; reflexivity|].
  vm_compute. left. reflexivity.
Defined.

(** ** The store keeps its keys *)

Section Tables.
Context {V : Type} (id : V -> nat).

Lemma Map_set_fresh (k : nat) (v : V) (m : Map V) :
  ~ In k (map fst m) -> Map_set k v m = m ++ [(k, v)].
Proof.
  induction m as [|[k' v'] m IH]; intros Hk; [reflexivity|].
  cbn in Hk. unfold Map_set. fold (@Map_set V).
  destruct (Nat.eqb k k') eqn:Heq.
  - apply Nat.eqb_eq in Heq. subst. exfalso. apply Hk. left. reflexivity.
  - cbn. f_equal. apply IH. intros Hin. apply Hk. right. exact Hin.
Qed.

Lemma table_ok_fresh next m : table_ok id next m -> ~ In next (map fst m).
Proof.
  intros [_ Hbelow] Hin. apply in_map_iff in Hin as [entry [Hfst Hin]].
  rewrite List.Forall_forall in Hbelow. specialize (Hbelow _ Hin). lia.
Qed.

(** An entry created under the counter. *)
Lemma table_ok_create next m v :
  id v = next -> table_ok id next m -> table_ok id (S next) (Map_set next v m).
Proof.
  intros Hid Hok. pose proof (table_ok_fresh _ _ Hok) as Hfresh.
  rewrite (Map_set_fresh _ _ _ Hfresh).
  destruct Hok as [[Hkeys Hnd] Hbelow]. split; [split|].
  - apply Forall_app. split; [exact Hkeys|]. constructor; [cbn; congruence | constructor].
  - rewrite map_app. cbn. apply NoDup_app. split; [exact Hnd|]. split.
    + intros k Hk Hk'. apply list_elem_of_In in Hk. apply list_elem_of_singleton in Hk'.
      subst k. exact (Hfresh Hk).
    + apply NoDup_singleton.
  - apply Forall_app. split.
    + eapply Forall_impl; [exact Hbelow|]. cbn. intros entry H. lia.
    + constructor; [cbn; lia | constructor].
Qed.

Lemma Map_set_fst k (v : V) m :
  In k (map fst m) -> map fst (Map_set k v m) = map fst m.
Proof.
  induction m as [|[k' v'] m IH]; intros Hin; [destruct Hin|].
  unfold Map_set. fold (@Map_set V). destruct (Nat.eqb k k') eqn:Heq.
  - apply Nat.eqb_eq in Heq. subst. reflexivity.
  - cbn. f_equal. apply IH. destruct Hin as [Hk|Hin]; [|exact Hin].
    cbn in Hk. subst. rewrite Nat.eqb_refl in Heq. discriminate.
Qed.

Lemma Map_get_In k (v : V) m : Map_get k m = Some v -> In k (map fst m).
Proof.
  induction m as [|[k' v'] m IH]; [discriminate|].
  unfold Map_get. fold (@Map_get V). destruct (Nat.eqb k k') eqn:Heq.
  - apply Nat.eqb_eq in Heq. subst. intros _. left. reflexivity.
  - intros H. right. apply IH, H.
Qed.

Lemma Map_set_entries k (v : V) m entry :
  In entry (Map_set k v m) -> entry = (k, v) \/ In entry m.
Proof.
  induction m as [|[k' v'] m IH]; [intros [<-|[]]; left; reflexivity|].
  unfold Map_set. fold (@Map_set V). destruct (Nat.eqb k k').
  - intros [<-|Hin]; [left; reflexivity | right; right; exact Hin].
  - intros [<-|Hin]; [right; left; reflexivity|].
    destruct (IH Hin) as [->|Hin']; [left; reflexivity | right; right; exact Hin'].
Qed.

(** An entry replaced under its key by a value of the same [id]. *)
Lemma table_ok_update next m k existing v :
  Map_get k m = Some existing -> id v = id existing ->
  table_ok id next m -> table_ok id next (Map_set k v m).
Proof.
  intros Hget Hid [[Hkeys Hnd] Hbelow].
  pose proof (Map_get_In _ _ _ Hget) as Hin.
  assert (Hk : k = id existing).
  { clear -Hget Hkeys. induction m as [|[k' v'] m IH]; [discriminate|].
    apply Forall_cons in Hkeys as [Hhead Hkeys].
    unfold Map_get in Hget. fold (@Map_get V) in Hget.
    destruct (Nat.eqb k k') eqn:Heq.
    - apply Nat.eqb_eq in Heq. injection Hget as ->. cbn in Hhead. congruence.
    - apply IH; assumption. }
  assert (Hlt : k < next).
  { apply in_map_iff in Hin as [entry [<- Hentry]].
    rewrite List.Forall_forall in Hbelow. apply Hbelow, Hentry. }
  split; [split|].
  - apply List.Forall_forall. intros entry Hentry.
    destruct (Map_set_entries _ _ _ _ Hentry) as [->|Hold].
    + cbn. congruence.
    + rewrite List.Forall_forall in Hkeys. apply Hkeys, Hold.
  - rewrite (Map_set_fst _ _ _ Hin). exact Hnd.
  - apply List.Forall_forall. intros entry Hentry.
    destruct (Map_set_entries _ _ _ _ Hentry) as [->|Hold].
    + exact Hlt.
    + rewrite List.Forall_forall in Hbelow. apply Hbelow, Hold.
Qed.

Lemma well_keyed_filter (f : nat * V -> bool) m :
  well_keyed id m -> well_keyed id (List.filter f m).
Proof.
  intros [Hkeys Hnd]. split.
  - apply List.Forall_forall. intros entry Hentry. apply filter_In in Hentry as [Hentry _].
    rewrite List.Forall_forall in Hkeys. apply Hkeys, Hentry.
  - clear Hkeys. induction m as [|entry m IH]; [constructor|].
    cbn in Hnd. apply NoDup_cons in Hnd as [Hnotin Hnd]. cbn.
    destruct (f entry); [|apply IH, Hnd].
    cbn. apply NoDup_cons. split; [|apply IH, Hnd].
    intros Hin. apply Hnotin. apply list_elem_of_In in Hin. apply list_elem_of_In.
    apply in_map_iff in Hin as [entry' [Hfst Hin]]. apply filter_In in Hin as [Hin _].
    apply in_map_iff. exists entry'. split; assumption.
Qed.

(** Entries deleted. *)
Lemma table_ok_filter next (f : nat * V -> bool) m :
  table_ok id next m -> table_ok id next (List.filter f m).
Proof.
  intros [Hwk Hbelow]. split; [apply well_keyed_filter, Hwk|].
  apply List.Forall_forall. intros entry Hentry. apply filter_In in Hentry as [Hentry _].
  rewrite List.Forall_forall in Hbelow. apply Hbelow, Hentry.
Qed.

Lemma table_ok_deletes next (doomed : list (nat * V)) m :
  table_ok id next m ->
  table_ok id next (fold_left (fun logs entry => Map_delete (fst entry) logs) doomed m).
Proof.
  revert m. induction doomed as [|entry doomed IH]; intros m Hok; [exact Hok|].
  cbn. apply IH. apply table_ok_filter, Hok.
Qed.
End Tables.

Ltac table_step :=
  first
    [ assumption
    | apply table_ok_create; [reflexivity | assumption]
    | eapply table_ok_update; [eassumption | reflexivity | assumption]
    | apply table_ok_filter; assumption
    | apply table_ok_deletes; assumption ].

Lemma store_ok_run now op st : store_ok st -> store_ok (StoreOp_run now op st).
Proof.
  intros (Hk & Hb & Hp & Ht & Hm & Hl).
  destruct op; cbn [StoreOp_run];
    unfold MemStorage.createApiKey, MemStorage.updateApiKey, MemStorage.createBotSettings,
      MemStorage.updateBotSettings, MemStorage.createPosition, MemStorage.updatePosition,
      MemStorage.deletePosition, MemStorage.createTrade,
      MemStorage.createPerformanceMetrics, MemStorage.updatePerformanceMetrics,
      MemStorage.createSystemLog, MemStorage.clearSystemLogs;
    try (destruct (Map_get _ _) eqn:Hget); cbn [snd];
    unfold store_ok; cbn;
    (split; [|split; [|split; [|split; [|split]]]]); table_step.
Qed.

(** The handlers write through these operations. *)
Lemma store_ok_updateBotSettings now st id patch :
  store_ok st -> store_ok (snd (MemStorage.updateBotSettings now st id patch)).
Proof. exact (store_ok_run now (op_updateBotSettings id patch) st). Qed.

Lemma store_ok_updatePosition now st id patch :
  store_ok st -> store_ok (snd (MemStorage.updatePosition now st id patch)).
Proof. exact (store_ok_run now (op_updatePosition id patch) st). Qed.

Lemma store_ok_updatePerformanceMetrics now st id patch :
  store_ok st -> store_ok (snd (MemStorage.updatePerformanceMetrics now st id patch)).
Proof. exact (store_ok_run now (op_updatePerformanceMetrics id patch) st). Qed.

Lemma store_ok_createTrade now st trade :
  store_ok st -> store_ok (snd (MemStorage.createTrade now st trade)).
Proof. exact (store_ok_run now (op_createTrade trade) st). Qed.

Lemma store_ok_createSystemLog now st log :
  store_ok st -> store_ok (snd (MemStorage.createSystemLog now st log)).
Proof. exact (store_ok_run now (op_createSystemLog log) st). Qed.

Ltac store_step :=
  lazymatch goal with
  | |- respects ?R ?P (storage.write _) =>
      apply (respects_write R P); intros ? ? ?; cbn;
      first [ apply store_ok_updateBotSettings | apply store_ok_updatePosition
            | apply store_ok_updatePerformanceMetrics | apply store_ok_createTrade
            | apply store_ok_createSystemLog ];
      assumption
  | |- respects ?R ?P (modify _) => apply (respects_modify R P); intros ? H; exact H
  | |- respects ?R ?P (emit _) => apply (respects_emit R P); exact I
  | |- respects ?R ?P (emit_all _) =>
      apply (respects_emit_all R P); apply Forall_forall; auto
  | |- respects ?R ?P (broadcastToUser _ _) =>
      apply (respects_broadcastToUser R P); intros; exact I
  | |- _ => frame_step
  end.

Lemma perform_keeps_store op :
  respects (keeps (fun s => store_ok (storage s))) (fun _ => True) (perform op).
Proof. destruct op; cbn [perform]; repeat store_step. Qed.

Lemma store_ok_demo : store_ok Demo.store.
Proof.
  unfold store_ok, table_ok, well_keyed. cbn.
  repeat split;
    first [ apply NoDup_nil_2 | apply NoDup_singleton
          | repeat (constructor; cbn; try lia) ].
Qed.

(** X13.  The store keeps its keys.  In the empty store, after every
    writing operation of [MemStorage] and after every handler of the server,
    each table holds its records under their own [id], each [id] once, and
    all below the counter that numbers the next record: no operation reuses
    an [id], and none files a record under another record's key. *)
Theorem store_keeps_its_keys :
  store_ok MemStorage.empty
  /\ (forall now op st, store_ok st -> store_ok (StoreOp_run now op st))
  /\ (forall s0 s, store_ok (storage s0) -> reaches s0 s -> store_ok (storage s)).
Proof.
  split; [|split].
  - unfold store_ok, table_ok, well_keyed. cbn.
    repeat split; constructor.
  - apply store_ok_run.
  - intros s0 s H0 Hreach. induction Hreach as [|s e op _ IH]; [exact H0|].
    destruct (perform_keeps_store op e s) as [Hkeep _]. apply Hkeep, IH.
Qed.

(** The demo store after a second position is created and the first
    deleted, and the demo server after a tick. *)
Lemma store_keeps_its_keys_witness :
  store_ok
    (StoreOp_run 5 (op_deletePosition 1)
       (StoreOp_run 4 (op_createPosition (Position.mkInsert 1 "ETHUSD" 2 10 10 20 0 0))
          Demo.store))
  /\ store_ok
       (storage
          (final (handleAlpacaWebsocketMessage 1 (Demo.tick "BTCUSD" 105) Demo.accepting
                    Demo.server))).
Proof.
  destruct store_keeps_its_keys as (_ & Hop & Hreach).
  split.
  - apply Hop, Hop, store_ok_demo.
  - apply (Hreach Demo.server); [apply store_ok_demo|].
    apply (reaches_step Demo.server Demo.server Demo.accepting
             (op_tick 1 (Demo.tick "BTCUSD" 105))).
    apply reaches_here.
Defined.

(** ** Records created, found, shadowed and deleted *)

Section Lookups.
Context {V : Type}.

Lemma Map_get_app_fresh k k' (v : V) (m : Map V) :
  Map_get k (m ++ [(k', v)])
  = match Map_get k m with
    | Some x => Some x
    | None => if Nat.eqb k k' then Some v else None
    end.
Proof.
  induction m as [|[k0 x] m IH]; unfold Map_get; cbn; fold (@Map_get V).
  - reflexivity.
  - destruct (Nat.eqb k k0); [reflexivity | exact IH].
Qed.

Lemma Map_get_absent k (m : Map V) : ~ In k (map fst m) -> Map_get k m = None.
Proof.
  induction m as [|[k0 x] m IH]; intros Hk; [reflexivity|].
  unfold Map_get; cbn; fold (@Map_get V).
  destruct (Nat.eqb k k0) eqn:Heq.
  - apply Nat.eqb_eq in Heq. subst. exfalso. apply Hk. left. reflexivity.
  - apply IH. intros Hin. apply Hk. right. exact Hin.
Qed.

Lemma Array_find_app (p : V -> bool) (l1 l2 : list V) :
  Array_find p (l1 ++ l2)
  = match Array_find p l1 with
    | Some x => Some x
    | None => Array_find p l2
    end.
Proof.
  unfold Array_find. induction l1 as [|x l1 IH]; [reflexivity|]. cbn.
  destruct (p x); [reflexivity | exact IH].
Qed.

Lemma Map_get_delete k (m : Map V) : Map_get k (Map_delete k m) = None.
Proof.
  induction m as [|[k0 x] m IH]; [reflexivity|].
  unfold Map_delete. cbn. fold (@Map_delete V k m).
  destruct (Nat.eqb k k0) eqn:Heq; cbn; [exact IH|].
  unfold Map_get; cbn; fold (@Map_get V). rewrite Heq. exact IH.
Qed.

Lemma Map_get_delete_ne k k' (m : Map V) :
  k <> k' -> Map_get k (Map_delete k' m) = Map_get k m.
Proof.
  intros Hne. induction m as [|[k0 x] m IH]; [reflexivity|].
  unfold Map_delete. cbn. fold (@Map_delete V k' m).
  destruct (Nat.eqb k' k0) eqn:Heq; cbn.
  - apply Nat.eqb_eq in Heq. subst k0.
    unfold Map_get at 2; cbn; fold (@Map_get V).
    destruct (Nat.eqb k k') eqn:Hk; [apply Nat.eqb_eq in Hk; congruence | exact IH].
  - unfold Map_get; cbn; fold (@Map_get V). destruct (Nat.eqb k k0); [reflexivity | exact IH].
Qed.

Lemma Map_has_get k (m : Map V) : Map_has k m = bool_decide (is_Some (Map_get k m)).
Proof.
  induction m as [|[k0 x] m IH]; [reflexivity|].
  unfold Map_has, Map_get; cbn; fold (@Map_get V) (@Map_has V k m).
  destruct (Nat.eqb k k0); [reflexivity | exact IH].
Qed.

Lemma Map_get_set_ne k k' (v : V) (m : Map V) :
  k <> k' -> Map_get k (Map_set k' v m) = Map_get k m.
Proof.
  intros Hne. induction m as [|[k0 x] m IH].
  - unfold Map_set, Map_get; cbn.
    destruct (Nat.eqb k k') eqn:Hk; [apply Nat.eqb_eq in Hk; congruence | reflexivity].
  - unfold Map_set; cbn; fold (@Map_set V).
    destruct (Nat.eqb k' k0) eqn:Heq.
    + apply Nat.eqb_eq in Heq. subst k0.
      unfold Map_get; cbn; fold (@Map_get V).
      destruct (Nat.eqb k k') eqn:Hk; [apply Nat.eqb_eq in Hk; congruence | reflexivity].
    + unfold Map_get; cbn; fold (@Map_get V).
      destruct (Nat.eqb k k0); [reflexivity | exact IH].
Qed.
End Lookups.

(** X14.  A created position gets an [id] no position had, is read back
    under it, and leaves every other position as it was; it comes last in the
    list of its user's positions.  A lookup by symbol finds it only if the
    user had no position under that symbol: an older one keeps being the one
    found, reconciled and closed. *)
Theorem created_position_is_found now st position :
  store_ok st ->
  let created := fst (MemStorage.createPosition now st position) in
  let st' := snd (MemStorage.createPosition now st position) in
  let userId := Position.i_userId position in
  let symbol := Position.i_symbol position in
  Map_get (Position.id created) (MemStorage.positions st) = None
  /\ Map_get (Position.id created) (MemStorage.positions st') = Some created
  /\ (forall id, id <> Position.id created ->
        Map_get id (MemStorage.positions st') = Map_get id (MemStorage.positions st))
  /\ MemStorage.getPositionsByUserId st' userId
     = MemStorage.getPositionsByUserId st userId ++ [created]
  /\ MemStorage.getPositionBySymbol st' userId symbol
     = match MemStorage.getPositionBySymbol st userId symbol with
       | Some older => Some older
       | None => Some created
       end.
Proof.
  intros (_ & _ & Hpositions & _). cbv zeta.
  pose proof (table_ok_fresh _ _ _ Hpositions) as Hfresh.
  unfold MemStorage.createPosition, MemStorage.getPositionsByUserId,
    MemStorage.getPositionBySymbol. cbn.
  rewrite (Map_set_fresh _ _ _ Hfresh).
  split; [apply Map_get_absent, Hfresh|].
  split; [rewrite Map_get_app_fresh, (Map_get_absent _ _ Hfresh), Nat.eqb_refl; reflexivity|].
  split; [|split].
  - intros id Hid. rewrite Map_get_app_fresh.
    destruct (Map_get id _); [reflexivity|].
    destruct (Nat.eqb id _) eqn:Heq; [apply Nat.eqb_eq in Heq; congruence | reflexivity].
  - unfold Map_values, Array_filter. rewrite map_app, List.filter_app. cbn.
    rewrite Nat.eqb_refl. reflexivity.
  - unfold Map_values. rewrite map_app, Array_find_app.
    destruct (Array_find _ _); [reflexivity|].
    unfold Array_find. cbn. rewrite Nat.eqb_refl, String.eqb_refl. reflexivity.
Qed.

(** A second BTCUSD position of the demo user is shadowed by the first; an
    ETHUSD position is found. *)
Lemma created_position_is_found_witness :
  let btc := Position.mkInsert 1 "BTCUSD" 2 90 90 180 0 0 in
  let eth := Position.mkInsert 1 "ETHUSD" 2 10 10 20 0 0 in
  MemStorage.getPositionBySymbol (snd (MemStorage.createPosition 5 Demo.store btc)) 1 "BTCUSD"
  = Some Demo.position
  /\ MemStorage.getPositionBySymbol (snd (MemStorage.createPosition 5 Demo.store eth)) 1
       "ETHUSD"
     = Some (Position.mk 2 1 "ETHUSD" 2 10 10 20 0 0 5).
Proof.
  intros btc eth. split.
  - apply (created_position_is_found 5 Demo.store btc store_ok_demo).
  - apply (created_position_is_found 5 Demo.store eth store_ok_demo).
Defined.

(** X15.  [deletePosition] answers whether a position was stored under the
    [id]; afterwards there is none, every other position is as before, and a
    second deletion answers false.  No other table changes. *)
Theorem deleted_position_is_gone st id :
  let st' := snd (MemStorage.deletePosition st id) in
  fst (MemStorage.deletePosition st id)
  = bool_decide (is_Some (Map_get id (MemStorage.positions st)))
  /\ Map_get id (MemStorage.positions st') = None
  /\ (forall other, other <> id ->
        Map_get other (MemStorage.positions st') = Map_get other (MemStorage.positions st))
  /\ fst (MemStorage.deletePosition st' id) = false
  /\ (MemStorage.apiKeys st', MemStorage.botSettings st', MemStorage.trades st',
      MemStorage.performanceMetrics st', MemStorage.systemLogs st', MemStorage.nextId st')
     = (MemStorage.apiKeys st, MemStorage.botSettings st, MemStorage.trades st,
        MemStorage.performanceMetrics st, MemStorage.systemLogs st, MemStorage.nextId st).
Proof.
  cbv zeta. unfold MemStorage.deletePosition. cbn [fst snd MemStorage.positions].
  split; [apply Map_has_get|]. split; [apply Map_get_delete|]. split; [|split].
  - intros other Hother. apply Map_get_delete_ne, Hother.
  - rewrite Map_has_get, Map_get_delete. reflexivity.
  - reflexivity.
Qed.

(** The demo position is deleted. *)
Lemma deleted_position_is_gone_witness :
  fst (MemStorage.deletePosition Demo.store 1) = true
  /\ Map_get 1 (MemStorage.positions (snd (MemStorage.deletePosition Demo.store 1))) = None
  /\ fst (MemStorage.deletePosition (snd (MemStorage.deletePosition Demo.store 1)) 1)
     = false.
Proof.
  destruct (deleted_position_is_gone Demo.store 1) as (H1 & H2 & _ & H4 & _).
  split; [exact H1|]. split; [exact H2 | exact H4].
Defined.


(** ** One record per user *)

(** X16.  The store answers a lookup by user with the first record created
    for that user.  Creating settings, an API key or metrics for a user who
    has none makes them the ones found; creating them again for the same user
    adds a record that no lookup by user returns, which is why the server
    updates the existing record instead. *)
Theorem first_record_of_a_user_wins now st :
  store_ok st ->
  (forall settings,
      MemStorage.getBotSettingsByUserId
        (snd (MemStorage.createBotSettings now st settings)) (BotSettings.i_userId settings)
      = match MemStorage.getBotSettingsByUserId st (BotSettings.i_userId settings) with
        | Some first => Some first
        | None => Some (fst (MemStorage.createBotSettings now st settings))
        end)
  /\ (forall apiKey,
         MemStorage.getApiKeyByUserId
           (snd (MemStorage.createApiKey now st apiKey)) (ApiKey.i_userId apiKey)
         = match MemStorage.getApiKeyByUserId st (ApiKey.i_userId apiKey) with
           | Some first => Some first
           | None => Some (fst (MemStorage.createApiKey now st apiKey))
           end)
  /\ (forall metrics,
         MemStorage.getPerformanceMetricsByUserId
           (snd (MemStorage.createPerformanceMetrics now st metrics))
           (PerformanceMetrics.i_userId metrics)
         = match MemStorage.getPerformanceMetricsByUserId st
                   (PerformanceMetrics.i_userId metrics) with
           | Some first => Some first
           | None => Some (fst (MemStorage.createPerformanceMetrics now st metrics))
           end).
Proof.
  intros (Hkeys & Hsettings & _ & _ & Hmetrics & _).
  split; [|split].
  - intros settings.
    unfold MemStorage.createBotSettings, MemStorage.getBotSettingsByUserId. cbn.
    rewrite (Map_set_fresh _ _ _ (table_ok_fresh _ _ _ Hsettings)).
    unfold Map_values. rewrite map_app, Array_find_app.
    destruct (Array_find _ _); [reflexivity|].
    unfold Array_find. cbn. rewrite Nat.eqb_refl. reflexivity.
  - intros apiKey.
    unfold MemStorage.createApiKey, MemStorage.getApiKeyByUserId. cbn.
    rewrite (Map_set_fresh _ _ _ (table_ok_fresh _ _ _ Hkeys)).
    unfold Map_values. rewrite map_app, Array_find_app.
    destruct (Array_find _ _); [reflexivity|].
    unfold Array_find. cbn. rewrite Nat.eqb_refl. reflexivity.
  - intros metrics.
    unfold MemStorage.createPerformanceMetrics, MemStorage.getPerformanceMetricsByUserId.
    cbn.
    rewrite (Map_set_fresh _ _ _ (table_ok_fresh _ _ _ Hmetrics)).
    unfold Map_values. rewrite map_app, Array_find_app.
    destruct (Array_find _ _); [reflexivity|].
    unfold Array_find. cbn. rewrite Nat.eqb_refl. reflexivity.
Qed.

(** New settings for the demo user are shadowed by the old ones; the first
    API key of user 2 is found. *)
Lemma first_record_of_a_user_wins_witness :
  MemStorage.getBotSettingsByUserId
    (snd (MemStorage.createBotSettings 5 Demo.store
            (BotSettings.mkInsert 1 false "ppo" 3 "low"))) 1
  = Some Demo.botSettings
  /\ MemStorage.getApiKeyByUserId
       (snd (MemStorage.createApiKey 5 Demo.store
               (ApiKey.mkInsert 2 "PK-TWO" "SK-TWO" "live"))) 2
     = Some (ApiKey.mk 2 2 "PK-TWO" "SK-TWO" "live" 5).
Proof.
  destruct (first_record_of_a_user_wins 5 Demo.store store_ok_demo) as (H1 & H2 & _).
  split.
  - apply (H1 (BotSettings.mkInsert 1 false "ppo" 3 "low")).
  - apply (H2 (ApiKey.mkInsert 2 "PK-TWO" "SK-TWO" "live")).
Defined.

(** ** Updates *)

(** X17.  An update by [id] changes the record stored under that [id] and
    nothing else: the record keeps its [id], the fields the patch leaves out
    and its place in the table, and every other record is as before.  With an
    [id] that is not stored, the update answers [undefined] and changes
    nothing at all. *)
Theorem update_changes_one_record now st id patch :
  (Map_get id (MemStorage.positions st) = None ->
   MemStorage.updatePosition now st id patch = (None, st))
  /\ (forall existing,
         Map_get id (MemStorage.positions st) = Some existing ->
         let updated := Position.spread existing patch now in
         let st' := snd (MemStorage.updatePosition now st id patch) in
         fst (MemStorage.updatePosition now st id patch) = Some updated
         /\ Position.id updated = Position.id existing
         /\ Map_get id (MemStorage.positions st') = Some updated
         /\ (forall other, other <> id ->
               Map_get other (MemStorage.positions st')
               = Map_get other (MemStorage.positions st))
         /\ map fst (MemStorage.positions st') = map fst (MemStorage.positions st)
         /\ (MemStorage.apiKeys st', MemStorage.botSettings st', MemStorage.trades st',
             MemStorage.performanceMetrics st', MemStorage.systemLogs st',
             MemStorage.nextId st')
            = (MemStorage.apiKeys st, MemStorage.botSettings st, MemStorage.trades st,
               MemStorage.performanceMetrics st, MemStorage.systemLogs st,
               MemStorage.nextId st)).
Proof.
  unfold MemStorage.updatePosition. split.
  - intros ->. reflexivity.
  - intros existing Hget. rewrite Hget. cbn.
    split; [reflexivity|]. split; [reflexivity|]. split; [apply Map_get_set|].
    split; [|split; [|reflexivity]].
    + intros other Hother. apply Map_get_set_ne, Hother.
    + apply Map_set_fst. eapply Map_get_In, Hget.
Qed.

(** The demo position gets a new price; position 9 does not exist. *)
Lemma update_changes_one_record_witness :
  let patch := Position.mkPartial None None None None (Some 105%float) None None None in
  MemStorage.updatePosition 5 Demo.store 9 patch = (None, Demo.store)
  /\ Map_get 1 (MemStorage.positions (snd (MemStorage.updatePosition 5 Demo.store 1 patch)))
     = Some (Position.mk 1 1 "BTCUSD" 1 100 105 100 0 0 5).
Proof.
  intros patch. split.
  - apply (proj1 (update_changes_one_record 5 Demo.store 9 patch)). reflexivity.
  - apply (proj2 (update_changes_one_record 5 Demo.store 1 patch) Demo.position).
    reflexivity.
Defined.

(** ** Latest first *)

Section Sorting.
Context {A : Type} (key : A -> Z).

Lemma insert_descending_perm x (sorted : list A) :
  insert_descending key x sorted ≡ₚ x :: sorted.
Proof.
  induction sorted as [|y rest IH]; [reflexivity|]. cbn.
  destruct (key y <=? key x)%Z; [reflexivity|].
  rewrite IH. apply Permutation_swap.
Qed.

Lemma sort_descending_perm (l : list A) : sort_descending key l ≡ₚ l.
Proof.
  induction l as [|x l IH]; [reflexivity|].
  unfold sort_descending. cbn. fold (sort_descending key l).
  rewrite insert_descending_perm, IH. reflexivity.
Qed.

Lemma insert_descending_sorted x (sorted : list A) :
  latest_first key sorted -> latest_first key (insert_descending key x sorted).
Proof.
  induction sorted as [|y rest IH]; intros Hsorted; [cbn; auto|].
  destruct Hsorted as [Hy Hrest]. cbn.
  destruct (key y <=? key x)%Z eqn:Hle.
  - apply Z.leb_le in Hle. cbn. split; [|split; assumption].
    constructor; [exact Hle|].
    eapply Forall_impl; [exact Hy|]. cbn. intros b Hb. lia.
  - apply Z.leb_gt in Hle. cbn. split; [|apply IH, Hrest].
    rewrite insert_descending_perm. constructor; [lia | exact Hy].
Qed.

Lemma sort_descending_sorted (l : list A) : latest_first key (sort_descending key l).
Proof.
  induction l as [|x l IH]; [exact I|].
  unfold sort_descending. cbn. apply insert_descending_sorted, IH.
Qed.

Lemma latest_first_take n (l : list A) : latest_first key l -> latest_first key (take n l).
Proof.
  revert n. induction l as [|x l IH]; intros [|n] Hsorted; try exact I.
  destruct Hsorted as [Hx Hl]. cbn. split; [|apply IH, Hl].
  apply List.Forall_forall. intros b Hb. rewrite List.Forall_forall in Hx. apply Hx.
  apply list_elem_of_In in Hb. apply list_elem_of_In.
  exact (subseteq_take _ _ _ Hb).
Qed.

(** What a sorted list leaves behind its first [n] elements is not later
    than any of them. *)
Lemma latest_first_split n (l : list A) r t :
  latest_first key l -> In r (take n l) -> In t (drop n l) -> (key t <= key r)%Z.
Proof.
  revert n. induction l as [|x l IH]; intros [|n] Hsorted Hr Ht; try destruct Hr.
  - destruct Hsorted as [Hx Hl]. cbn in Ht. subst r.
    rewrite List.Forall_forall in Hx. apply Hx.
    apply list_elem_of_In in Ht. apply list_elem_of_In.
    exact (subseteq_drop _ _ _ Ht).
  - destruct Hsorted as [Hx Hl]. cbn in Ht. eapply IH; eassumption.
Qed.

(** [limited]: everything for no limit (or 0), the first [limit] for a
    positive limit, and all but the last [-limit] for a negative one; what it
    returns is always a front part of the list. *)
Lemma limited_take (limit : Z) (l : list A) :
  exists n,
    limited limit l = take n l
    /\ (limit = 0%Z -> n = length l)
    /\ ((0 < limit)%Z -> n = Z.to_nat limit)
    /\ ((limit < 0)%Z -> n = length l - Z.to_nat (- limit)).
Proof.
  unfold limited. destruct (limit =? 0)%Z eqn:Hzero.
  - apply Z.eqb_eq in Hzero. exists (length l).
    split; [symmetry; apply firstn_all|]. repeat split; intros; lia.
  - apply Z.eqb_neq in Hzero. destruct (limit <? 0)%Z eqn:Hneg.
    + apply Z.ltb_lt in Hneg. exists (Z.to_nat (Z.of_nat (length l) + limit)).
      split; [reflexivity|]. repeat split; intros; lia.
    + apply Z.ltb_ge in Hneg. exists (Z.to_nat limit).
      split; [reflexivity|]. repeat split; intros; lia.
Qed.

Lemma limited_spec (limit : Z) (l : list A) :
  latest_first key l ->
  latest_first key (limited limit l)
  /\ (forall x, In x (limited limit l) -> In x l)
  /\ (limit = 0%Z -> limited limit l = l)
  /\ ((0 < limit)%Z -> length (limited limit l) = Nat.min (Z.to_nat limit) (length l))
  /\ ((limit < 0)%Z -> length (limited limit l) = length l - Z.to_nat (- limit))
  /\ (forall r t, In r (limited limit l) -> In t l -> ~ In t (limited limit l) ->
                  (key t <= key r)%Z).
Proof.
  intros Hsorted. destruct (limited_take limit l) as (n & -> & Hzero & Hpos & Hneg).
  split; [apply latest_first_take, Hsorted|]. split; [|split; [|split; [|split]]].
  - intros x Hx. apply list_elem_of_In in Hx. apply list_elem_of_In.
    exact (subseteq_take _ _ _ Hx).
  - intros Hlimit. rewrite (Hzero Hlimit). apply firstn_all.
  - intros Hlimit. rewrite (Hpos Hlimit). apply length_take.
  - intros Hlimit. rewrite (Hneg Hlimit), length_take. lia.
  - intros r t Hr Ht Hnot.
    rewrite <- (take_drop n l) in Ht. apply in_app_or in Ht as [Ht|Ht];
      [contradiction|].
    eapply latest_first_split; eassumption.
Qed.
End Sorting.

(** X18.  The trades of a user are answered latest first: every trade
    returned is a stored trade of that user, and no trade left out is later
    than a trade returned.  Without a limit (or with limit 0) all of them are
    returned; with a positive limit, that many of them or all if there are
    fewer; with a negative limit, which the route of the trades passes on as
    it parses it, all but that many of the earliest.  The logs of a user are
    answered the same way. *)
Theorem latest_records_come_first st userId (limit : Z) :
  let mine := Array_filter (fun x => Nat.eqb (Trade.userId x) userId)
                (Map_values (MemStorage.trades st)) in
  let trades := MemStorage.getTradesByUserId st userId limit in
  let myLogs := Array_filter (fun x => Nat.eqb (SystemLog.userId x) userId)
                  (Map_values (MemStorage.systemLogs st)) in
  let logs := MemStorage.getSystemLogsByUserId st userId limit in
  (latest_first Trade.timestamp trades
   /\ (forall trade, In trade trades -> In trade mine /\ Trade.userId trade = userId)
   /\ (limit = 0%Z -> trades ≡ₚ mine)
   /\ ((0 < limit)%Z -> length trades = Nat.min (Z.to_nat limit) (length mine))
   /\ ((limit < 0)%Z -> length trades = length mine - Z.to_nat (- limit))
   /\ (forall returned left, In returned trades -> In left mine -> ~ In left trades ->
                             (Trade.timestamp left <= Trade.timestamp returned)%Z))
  /\ (latest_first SystemLog.timestamp logs
      /\ (forall log, In log logs -> In log myLogs /\ SystemLog.userId log = userId)
      /\ (limit = 0%Z -> logs ≡ₚ myLogs)
      /\ ((0 < limit)%Z -> length logs = Nat.min (Z.to_nat limit) (length myLogs))
      /\ ((limit < 0)%Z -> length logs = length myLogs - Z.to_nat (- limit))
      /\ (forall returned left, In returned logs -> In left myLogs -> ~ In left logs ->
                                (SystemLog.timestamp left
                                 <= SystemLog.timestamp returned)%Z)).
Proof.
  cbv zeta. unfold MemStorage.getTradesByUserId, MemStorage.getSystemLogsByUserId.
  split.
  - set (mine := Array_filter _ _).
    destruct (limited_spec Trade.timestamp limit (sort_descending Trade.timestamp mine)
                (sort_descending_sorted _ _)) as (H1 & H2 & H3 & H4 & H5 & H6).
    assert (Hmine : forall x, In x (sort_descending Trade.timestamp mine) <-> In x mine).
    { intros x. rewrite <- !list_elem_of_In.
      rewrite (sort_descending_perm Trade.timestamp mine). reflexivity. }
    pose proof (Permutation_length (sort_descending_perm Trade.timestamp mine)) as Hlen.
    split; [exact H1|]. split; [|split; [|split; [|split]]].
    + intros trade Htrade. apply H2, Hmine in Htrade. split; [exact Htrade|].
      apply filter_In in Htrade as [_ Hu]. apply Nat.eqb_eq, Hu.
    + intros Hlimit. rewrite (H3 Hlimit). apply sort_descending_perm.
    + intros Hlimit. rewrite (H4 Hlimit), Hlen. reflexivity.
    + intros Hlimit. rewrite (H5 Hlimit), Hlen. reflexivity.
    + intros returned left Hr Hl Hnot. apply (H6 returned left Hr); [|exact Hnot].
      apply Hmine, Hl.
  - set (mine := Array_filter _ _).
    destruct (limited_spec SystemLog.timestamp limit
                (sort_descending SystemLog.timestamp mine)
                (sort_descending_sorted _ _)) as (H1 & H2 & H3 & H4 & H5 & H6).
    assert (Hmine : forall x, In x (sort_descending SystemLog.timestamp mine) <-> In x mine).
    { intros x. rewrite <- !list_elem_of_In.
      rewrite (sort_descending_perm SystemLog.timestamp mine). reflexivity. }
    pose proof (Permutation_length (sort_descending_perm SystemLog.timestamp mine)) as Hlen.
    split; [exact H1|]. split; [|split; [|split; [|split]]].
    + intros log Hlog. apply H2, Hmine in Hlog. split; [exact Hlog|].
      apply filter_In in Hlog as [_ Hu]. apply Nat.eqb_eq, Hu.
    + intros Hlimit. rewrite (H3 Hlimit). apply sort_descending_perm.
    + intros Hlimit. rewrite (H4 Hlimit), Hlen. reflexivity.
    + intros Hlimit. rewrite (H5 Hlimit), Hlen. reflexivity.
    + intros returned left Hr Hl Hnot. apply (H6 returned left Hr); [|exact Hnot].
      apply Hmine, Hl.
Qed.

(** Three trades of user 1, made at times 10, 30 and 20, and one of user 2:
    the two latest of user 1 are those of 30 and 20, and the limit -1 leaves
    the earliest out. *)
Lemma latest_records_come_first_witness :
  let trade id userId at_ := Trade.mk id userId "BTCUSD" buy 1 0 "market" "new" at_ in
  let st :=
    MemStorage.mk [] [] []
      [(1, trade 1 1 10%Z); (2, trade 2 2 40%Z); (3, trade 3 1 30%Z); (4, trade 4 1 20%Z)]
      [] [] (MemStorage.mkIds 1 1 1 5 1 1) in
  MemStorage.getTradesByUserId st 1 2 = [trade 3 1 30%Z; trade 4 1 20%Z]
  /\ MemStorage.getTradesByUserId st 1 (-1) = [trade 3 1 30%Z; trade 4 1 20%Z]
  /\ length (MemStorage.getTradesByUserId st 1 2) = 2
  /\ length (MemStorage.getTradesByUserId st 1 (-1)) = 2
  /\ length (MemStorage.getTradesByUserId st 1 0) = 3.
Proof.
  intros trade st.
  destruct (latest_records_come_first st 1 2) as [(_ & _ & _ & Hlimit & _) _].
  destruct (latest_records_come_first st 1 (-1)) as [(_ & _ & _ & _ & Hneg & _) _].
  destruct (latest_records_come_first st 1 0) as [(_ & _ & Hall & _) _].
  split; [reflexivity|]. split; [reflexivity|]. split; [|split].
  - rewrite Hlimit by lia. reflexivity.
  - rewrite Hneg by lia. reflexivity.
  - rewrite (Permutation_length (Hall eq_refl)). reflexivity.
Defined.

(** ** Clearing the logs of a user *)

Lemma fold_Map_delete {V} (doomed m : Map V) :
  fold_left (fun logs entry => Map_delete (fst entry) logs) doomed m
  = List.filter
      (fun entry => negb (existsb (fun d => Nat.eqb (fst d) (fst entry)) doomed)) m.
Proof.
  revert m. induction doomed as [|d doomed IH]; intros m; cbn.
  - induction m as [|x m IHm]; [reflexivity|]. cbn. f_equal. exact IHm.
  - rewrite IH. unfold Map_delete. clear IH.
    induction m as [|x m IHm]; [reflexivity|]. cbn.
    destruct (Nat.eqb (fst d) (fst x)); cbn; [exact IHm|].
    destruct (existsb _ doomed); cbn; [exact IHm | f_equal; exact IHm].
Qed.

(** In a table that holds each key once, deleting the keys of the entries
    that satisfy [p] leaves the entries that do not. *)
Lemma delete_selected {V} (p : nat * V -> bool) (m : Map V) :
  NoDup (map fst m) ->
  fold_left (fun logs entry => Map_delete (fst entry) logs) (List.filter p m) m
  = List.filter (fun entry => negb (p entry)) m.
Proof.
  intros Hnd. rewrite fold_Map_delete. apply filter_ext_in. intros entry Hentry.
  f_equal. destruct (p entry) eqn:Hp.
  - apply existsb_exists. exists entry. split; [|apply Nat.eqb_refl].
    apply filter_In. split; assumption.
  - destruct (existsb _ _) eqn:Hex; [|reflexivity].
    apply existsb_exists in Hex as [d [Hd Hkey]]. apply Nat.eqb_eq in Hkey.
    apply filter_In in Hd as [Hd Hpd].
    assert (d = entry); [|congruence].
    clear -Hnd Hd Hentry Hkey. induction m as [|x m IH]; [destruct Hd|].
    cbn in Hnd. apply NoDup_cons in Hnd as [Hnotin Hnd].
    destruct Hd as [->|Hd], Hentry as [->|Hentry]; try reflexivity.
    + exfalso. apply Hnotin. rewrite Hkey. apply list_elem_of_In, in_map, Hentry.
    + exfalso. apply Hnotin. rewrite <- Hkey. apply list_elem_of_In, in_map, Hd.
    + apply IH; assumption.
Qed.

(** X19.  [clearSystemLogs] deletes every log of the user and no other:
    afterwards the user has no logs, every other user reads the same logs as
    before, in the same order, and no other table has changed; the answer is
    always [true], also when there was nothing to delete. *)
Theorem cleared_logs_are_the_users_own st userId :
  store_ok st ->
  let st' := snd (MemStorage.clearSystemLogs st userId) in
  fst (MemStorage.clearSystemLogs st userId) = true
  /\ (forall limit, MemStorage.getSystemLogsByUserId st' userId limit = [])
  /\ (forall other limit,
         other <> userId ->
         MemStorage.getSystemLogsByUserId st' other limit
         = MemStorage.getSystemLogsByUserId st other limit)
  /\ (MemStorage.apiKeys st', MemStorage.botSettings st', MemStorage.positions st',
      MemStorage.trades st', MemStorage.performanceMetrics st', MemStorage.nextId st')
     = (MemStorage.apiKeys st, MemStorage.botSettings st, MemStorage.positions st,
        MemStorage.trades st, MemStorage.performanceMetrics st, MemStorage.nextId st).
Proof.
  intros (_ & _ & _ & _ & _ & [[_ Hnd] _]). cbv zeta.
  unfold MemStorage.clearSystemLogs, MemStorage.getSystemLogsByUserId. cbn.
  unfold Array_filter at 2 4.
  rewrite (delete_selected _ _ Hnd). clear Hnd.
  split; [reflexivity|]. split; [|split; [|reflexivity]].
  - intros limit. unfold Array_filter, Map_values.
    assert (Hnone : List.filter (fun x => Nat.eqb (SystemLog.userId x) userId)
                      (map snd
                         (List.filter
                            (fun entry =>
                               negb (Nat.eqb (SystemLog.userId (snd entry)) userId))
                            (MemStorage.systemLogs st))) = []).
    { induction (MemStorage.systemLogs st) as [|x m IH]; [reflexivity|]. cbn.
      destruct (Nat.eqb (SystemLog.userId (snd x)) userId) eqn:Hx; cbn; [exact IH|].
      rewrite Hx. exact IH. }
    rewrite Hnone. unfold limited.
    destruct (limit =? 0)%Z; [reflexivity|]. destruct (limit <? 0)%Z; apply take_nil.
  - intros other limit Hother. unfold Array_filter, Map_values. f_equal. f_equal.
    induction (MemStorage.systemLogs st) as [|x m IH]; [reflexivity|]. cbn.
    destruct (Nat.eqb (SystemLog.userId (snd x)) userId) eqn:Hx; cbn.
    + apply Nat.eqb_eq in Hx.
      destruct (Nat.eqb (SystemLog.userId (snd x)) other) eqn:Ho; [|exact IH].
      apply Nat.eqb_eq in Ho. congruence.
    + destruct (Nat.eqb (SystemLog.userId (snd x)) other); [f_equal|]; exact IH.
Qed.

(** Logs of users 1 and 2; those of user 1 are cleared. *)
Lemma cleared_logs_are_the_users_own_witness :
  let log id userId at_ := SystemLog.mk id userId INFO [Lit "Bot stopped"] at_ in
  let st :=
    MemStorage.mk [] [] [] [] []
      [(1, log 1 1 10%Z); (2, log 2 2 20%Z); (3, log 3 1 30%Z)]
      (MemStorage.mkIds 1 1 1 1 1 4) in
  MemStorage.getSystemLogsByUserId (snd (MemStorage.clearSystemLogs st 1)) 1 0 = []
  /\ MemStorage.getSystemLogsByUserId (snd (MemStorage.clearSystemLogs st 1)) 2 0
     = [log 2 2 20%Z].
Proof.
  intros log st.
  assert (Hok : store_ok st).
  { unfold store_ok, table_ok, well_keyed. cbn.
    repeat split; try apply NoDup_nil_2; try (repeat constructor; cbn; lia).
    repeat (apply NoDup_cons; split; [rewrite ?elem_of_cons, elem_of_nil; lia|]).
    apply NoDup_nil_2. }
  destruct (cleared_logs_are_the_users_own st 1 Hok) as (_ & Hmine & Hothers & _).
  split; [apply Hmine|]. rewrite (Hothers 2 0%Z) by discriminate. reflexivity.
Defined.

(** ** The learned-model strategy *)

Lemma slice_last_length {A} n (l : list A) :
  0 < n -> length (JS.slice_last n l) <= n.
Proof.
  intros Hn. unfold JS.slice_last.
  destruct (Nat.eqb n 0) eqn:H0; [apply Nat.eqb_eq in H0; lia|].
  rewrite length_skipn. lia.
Qed.

Lemma slice_last_last {A} n (l : list A) x :
  0 < n -> last (JS.slice_last n (l ++ [x])) = Some x.
Proof.
  intros Hn. unfold JS.slice_last.
  destruct (Nat.eqb n 0); [apply last_snoc|].
  rewrite length_app. cbn.
  replace (length l + 1 - n) with (length l - (n - 1)) by lia.
  rewrite skipn_app.
  replace (length l - (n - 1) - length l) with 0 by lia. cbn.
  apply last_snoc.
Qed.

Lemma slice_last_drop {A} n (l : list A) :
  0 < n ->
  (if (n <? length l)%nat then JS.slice_last n l else l) = drop (length l - n) l.
Proof.
  intros Hn. destruct (n <? length l)%nat eqn:Hlong.
  - unfold JS.slice_last. destruct (Nat.eqb n 0) eqn:H0; [apply Nat.eqb_eq in H0; lia|].
    reflexivity.
  - apply Nat.ltb_ge in Hlong. replace (length l - n) with 0 by lia. reflexivity.
Qed.

(** X20.  The strategy keeps a bounded window of ticks per tracked symbol:
    [updateMarketData] appends the tick to the series of its symbol and keeps
    the latest [historicalDataLength] ticks of it, in their order: the series
    afterwards is the old series with the tick at its end, less the ticks at
    its front that exceed the length.  So the last tick is the one just given
    and no series ever grows beyond that length.  From 30 ticks on the
    indicators of the symbol are recomputed from the new series; when that
    computation throws, the call throws with the series already stored and
    the old indicators kept.  Other symbols are untouched, and a tick of a
    symbol that is not tracked changes nothing. *)
Theorem market_data_window_is_bounded e self symbol data :
  0 < RL.historicalDataLength self ->
  let run := RL.updateMarketData e self symbol data in
  let self' := snd run in
  (RL.includes symbol (RL.symbols self) = false -> run = (Ok tt, self))
  /\ (forall series,
         RL.includes symbol (RL.symbols self) = true ->
         RL.marketData self !! symbol = Some series ->
         let series' :=
           drop (S (length series) - RL.historicalDataLength self) (series ++ [data]) in
         RL.marketData self' !! symbol = Some series'
         /\ last series' = Some data
         /\ length series' = Nat.min (RL.historicalDataLength self) (S (length series))
         /\ (fst run, RL.technicalIndicators self' !! symbol)
            = (if (30 <=? length series')%nat
               then match calculateIndicators e series' symbol with
                    | Ok indicators => (Ok tt, Some indicators)
                    | Throw err => (Throw err, RL.technicalIndicators self !! symbol)
                    end
               else (Ok tt, RL.technicalIndicators self !! symbol)))
  /\ (forall other, other <> symbol ->
        RL.marketData self' !! other = RL.marketData self !! other
        /\ RL.technicalIndicators self' !! other = RL.technicalIndicators self !! other)
  /\ ((forall sym series,
          RL.marketData self !! sym = Some series ->
          length series <= RL.historicalDataLength self) ->
      forall sym series,
        RL.marketData self' !! sym = Some series ->
        length series <= RL.historicalDataLength self').
Proof.
  intros Hlen. cbv zeta. unfold RL.updateMarketData.
  destruct (RL.includes symbol (RL.symbols self)) eqn:Htracked; cbn [negb].
  2: { split; [reflexivity|]. split; [discriminate|]. split; [split; reflexivity|].
       intros H. exact H. }
  split; [discriminate|].
  destruct (RL.marketData self !! symbol) as [series|] eqn:Hseries.
  2: { split; [discriminate|]. split; [split; reflexivity|]. intros H. exact H. }
  rewrite (slice_last_drop _ (series ++ [data]) Hlen).
  replace (length (series ++ [data])) with (S (length series))
    by (rewrite length_app; cbn; lia).
  set (series' := drop _ (series ++ [data])).
  assert (Hlength : length series'
                    = Nat.min (RL.historicalDataLength self) (S (length series))).
  { unfold series'. rewrite length_drop, length_app. cbn. lia. }
  assert (Hlast : last series' = Some data).
  { unfold series'. rewrite last_lookup, length_drop, lookup_drop, length_app. cbn.
    rewrite lookup_app_r by lia.
    replace (_ - length series) with 0 by lia. reflexivity. }
  assert (Hbounded : forall self',
             RL.marketData self' = <[symbol := series']> (RL.marketData self) ->
             RL.historicalDataLength self' = RL.historicalDataLength self ->
             (forall sym series0,
                 RL.marketData self !! sym = Some series0 ->
                 length series0 <= RL.historicalDataLength self) ->
             forall sym series0,
               RL.marketData self' !! sym = Some series0 ->
               length series0 <= RL.historicalDataLength self').
  { intros self' Hdata Hsame Hall sym series0 Hsym. rewrite Hsame. rewrite Hdata in Hsym.
    apply lookup_insert_Some in Hsym as [[_ <-]|[_ Hsym]]; [lia|].
    exact (Hall _ _ Hsym). }
  destruct (30 <=? length series')%nat eqn:Hlong;
    [destruct (calculateIndicators e series' symbol) as [indicators|err] eqn:Hcalc|].
  all: split;
    [intros series0 _ [= <-]; fold series'; rewrite Hlong, ?Hcalc;
     cbn [fst snd RL.marketData RL.technicalIndicators RL.set_marketData
          RL.set_technicalIndicators];
     rewrite ?lookup_insert_eq, ?lookup_insert_ne by congruence;
     split; [reflexivity|split; [exact Hlast|split; [exact Hlength|reflexivity]]]
    |split;
     [intros other Hother;
      cbn [fst snd RL.marketData RL.technicalIndicators RL.set_marketData
           RL.set_technicalIndicators];
      rewrite ?lookup_insert_ne by congruence; split; reflexivity
     |apply Hbounded; reflexivity]].
Qed.

(** A window of two ticks that is full: the oldest tick leaves, the new
    one comes last. *)
Lemma market_data_window_is_bounded_witness :
  let tick price := MarketData.mk "BTCUSD" price 0 0 0 in
  let full :=
    RL.set_marketData (RL.new ["BTCUSD"] 2) {["BTCUSD" := [tick 1%float; tick 2%float]]} in
  RL.marketData (snd (RL.updateMarketData Demo.accepting full "BTCUSD" (tick 3%float)))
  !! "BTCUSD"
  = Some [tick 2%float; tick 3%float].
Proof.
  intros tick full.
  assert (Hlen : 0 < RL.historicalDataLength full) by (cbn; lia).
  destruct (market_data_window_is_bounded Demo.accepting full "BTCUSD" (tick 3%float) Hlen)
    as (_ & Hseries & _).
  apply (Hseries [tick 1%float; tick 2%float]); reflexivity.
Defined.

(** X21.  How a prediction becomes a signal: a positive action is a buy
    with the action as confidence, a negative one a sell with its absolute
    value, and either is turned into hold, keeping its confidence, when the
    confidence is below the threshold; an action that is zero or not a number
    (the prediction of a symbol the model does not track) is hold with
    confidence 0.5.  So a buy or a sell never has a confidence below the
    threshold. *)
Theorem prediction_becomes_signal self now symbol action :
  let signal := RL.actionToSignal self now symbol action in
  let threshold := RL.predictionConfidenceThreshold self in
  StrategySignal.symbol signal = symbol
  /\ (StrategySignal.action signal = buy ->
      (0 <? action)%float = true /\ StrategySignal.confidence signal = action
      /\ (action <? threshold)%float = false)
  /\ (StrategySignal.action signal = sell ->
      (action <? 0)%float = true
      /\ StrategySignal.confidence signal = JS.Math_abs action
      /\ (JS.Math_abs action <? threshold)%float = false)
  /\ ((0 <? action)%float = false -> (action <? 0)%float = false ->
      signal = StrategySignal.mk symbol hold 0.5 now).
Proof.
  cbv zeta. unfold RL.actionToSignal.
  destruct (0 <? action)%float eqn:Hpos.
  - cbn. destruct (_ <? RL.predictionConfidenceThreshold self)%float eqn:Hweak; cbn;
      repeat split; try discriminate; try reflexivity; assumption.
  - destruct (action <? 0)%float eqn:Hneg.
    + cbn. destruct (_ <? RL.predictionConfidenceThreshold self)%float eqn:Hweak; cbn;
        repeat split; try discriminate; try reflexivity; assumption.
    + cbn. destruct (0.5 <? _)%float; cbn; repeat split; discriminate.
Qed.

(** A strong buy, a weak sell and a missing prediction, at the threshold
    0.3 of the constructor. *)
Lemma prediction_becomes_signal_witness :
  let self := RL.new ["BTCUSD"] 100 in
  RL.actionToSignal self 0 "BTCUSD" 0.9 = StrategySignal.mk "BTCUSD" buy 0.9 0
  /\ RL.actionToSignal self 0 "BTCUSD" (-0.1) = StrategySignal.mk "BTCUSD" hold 0.1 0
  /\ RL.actionToSignal self 0 "DOGEUSD" JS.undefined
     = StrategySignal.mk "DOGEUSD" hold 0.5 0.
Proof.
  intros self. split; [reflexivity|]. split; [reflexivity|].
  apply (prediction_becomes_signal self 0 "DOGEUSD" JS.undefined); reflexivity.
Defined.

Lemma actionToSignal_undefined self now symbol :
  RL.actionToSignal self now symbol JS.undefined = StrategySignal.mk symbol hold 0.5 now.
Proof.
  unfold RL.actionToSignal, JS.undefined. cbn.
  destruct (_ <? RL.predictionConfidenceThreshold self)%float; reflexivity.
Qed.

Lemma indexOf_untracked symbol symbols :
  RL.includes symbol symbols = false -> RL.indexOf symbol symbols = (-1)%Z.
Proof.
  unfold RL.includes. induction symbols as [|s rest IH]; [reflexivity|]. cbn.
  intros H. apply orb_false_iff in H as [Hs Hrest].
  rewrite String.eqb_sym, Hs, (IH Hrest). reflexivity.
Qed.

(** X22.  A ready model asked about a symbol it does not track answers
    hold with confidence 0.5, not the hold with confidence 0 of missing
    history: the symbol has no place among the predictions, the action read
    for it is [undefined], and the signal is remembered as the symbol's last
    signal.  The strategy's market data is left as it was.  (The tracked
    symbols have their ticks and their indicator rows, as the constructor
    and [updateMarketData] leave them.) *)
Theorem untracked_symbol_holds_at_half e self symbol data history actions :
  RL.modelLoaded self = true -> RL.agent self = true -> RL.env self = true ->
  30 <= length data ->
  RL.includes symbol (RL.symbols self) = false ->
  RL.enoughData (RL.marketData self) (RL.symbols self) = Some true ->
  (forall tracked, In tracked (RL.symbols self) ->
                   is_Some (RL.technicalIndicators self !! tracked)) ->
  qNetwork_predict e (RL.createState self) = Ok actions ->
  let signal := StrategySignal.mk symbol hold 0.5 (Date_now e) in
  RL.generateSignal e self symbol data history
  = (signal, RL.set_lastSignals self (<[symbol := signal]> (RL.lastSignals self)), []).
Proof.
  intros Hloaded Hagent Henv Hlong Huntracked Henough _ Hpredict. cbv zeta.
  unfold RL.generateSignal. rewrite Hloaded, Hagent, Henv. cbn [negb orb].
  apply Nat.ltb_ge in Hlong. rewrite Hlong.
  destruct (last data) as [latest|] eqn:Hlast.
  2: { apply last_None in Hlast. subst data. apply Nat.ltb_ge in Hlong. cbn in Hlong. lia. }
  unfold RL.updateMarketData. rewrite Huntracked. cbn [negb].
  rewrite Henough, Hpredict, (indexOf_untracked _ _ Huntracked).
  assert (Haction : JS.at_index actions (-1) = JS.undefined) by reflexivity.
  rewrite Haction.
  rewrite actionToSignal_undefined. reflexivity.
Qed.

(** A loaded model that tracks BTCUSD with 30 ticks of history is asked
    about DOGEUSD. *)
Lemma untracked_symbol_holds_at_half_witness :
  let tick := MarketData.mk "BTCUSD" 100 0 0 0 in
  let ready :=
    RL.set_marketData
      (RL.set_modelLoaded (RL.initializeAgent (RL.new ["BTCUSD"] 100)) true)
      {["BTCUSD" := replicate 30 tick]} in
  let e := mkEnv 7 (fun _ => Throw "offline") (fun _ _ => Throw "offline") (fun _ => true)
             None (fun _ => Ok [0.9%float]) (fun _ _ => Ok []) in
  fst (fst (RL.generateSignal e ready "DOGEUSD" (replicate 30 tick) None))
  = StrategySignal.mk "DOGEUSD" hold 0.5 7.
Proof.
  intros tick ready e.
  rewrite (untracked_symbol_holds_at_half e ready "DOGEUSD" (replicate 30 tick) None
             [0.9%float]); try reflexivity.
  all: try (cbn; lia).
  intros tracked [<-|[]]. exists []. vm_compute. reflexivity.
Defined.

(** ** The state vector *)

Lemma enoughData_series marketData symbols symbol :
  RL.enoughData marketData symbols = Some true -> In symbol symbols ->
  exists series, marketData !! symbol = Some series /\ 30 <= length series.
Proof.
  induction symbols as [|s rest IH]; intros Henough Hin; [destruct Hin|].
  cbn [RL.enoughData] in Henough.
  destruct (marketData !! s) as [series|] eqn:Hs; [|discriminate].
  destruct (length series <? 30)%nat eqn:Hlen; [discriminate|].
  apply Nat.ltb_ge in Hlen.
  destruct Hin as [->|Hin]; [exists series; split; assumption | apply IH; assumption].
Qed.

(** X23.  When every tracked symbol has its 30 ticks (the condition under
    which [generateSignal] builds a state) and its indicator rows, each of 8
    entries, the state vector has exactly [stateSize] entries, the width of
    the network's input: the price, 8 indicators and the position of each
    symbol, then the cash. *)
Theorem state_vector_has_the_input_width self :
  RL.enoughData (RL.marketData self) (RL.symbols self) = Some true ->
  (forall symbol,
      In symbol (RL.symbols self) ->
      exists rows,
        RL.technicalIndicators self !! symbol = Some rows
        /\ forall row, last rows = Some row -> length row = 8) ->
  length (RL.createState self) = RL.stateSize self.
Proof.
  intros Henough Hrows. unfold RL.createState, RL.stateSize.
  rewrite length_app. cbn [length]. f_equal.
  assert (Hall : forall symbol, In symbol (RL.symbols self) ->
                   exists series, RL.marketData self !! symbol = Some series
                                  /\ 30 <= length series)
    by (intros symbol; apply enoughData_series, Henough).
  clear Henough. induction (RL.symbols self) as [|symbol rest IH]; [reflexivity|].
  cbn [flat_map].
  rewrite length_app, IH
    by (intros s Hs; first [apply Hall | apply Hrows]; right; exact Hs).
  cbn [length]. replace (S (length rest) * 10) with (10 + length rest * 10) by lia.
  f_equal.
  destruct (Hall symbol (or_introl eq_refl)) as (series & Hseries & Hlen).
  destruct (Hrows symbol (or_introl eq_refl)) as (rows & Hind & Hwidth).
  rewrite Hseries, Hind.
  change (default [] (Some series)) with series.
  change (default [] (Some rows)) with rows.
  destruct (last series) as [current|] eqn:Hlast.
  2: { apply last_None in Hlast. subst series. cbn in Hlen. lia. }
  rewrite !length_app. cbn [length].
  destruct (last rows) as [row|] eqn:Hrow.
  - rewrite (Hwidth _ eq_refl). reflexivity.
  - rewrite length_replicate. reflexivity.
Qed.

(** Two symbols with 30 ticks each and no indicators yet: 21 entries. *)
Lemma state_vector_has_the_input_width_witness :
  let tick symbol := MarketData.mk symbol 100 0 0 0 in
  let self :=
    RL.set_marketData (RL.new ["BTCUSD"; "ETHUSD"] 100)
      {["BTCUSD" := replicate 30 (tick "BTCUSD"); "ETHUSD" := replicate 30 (tick "ETHUSD")]} in
  length (RL.createState self) = 21.
Proof.
  intros tick self.
  rewrite (state_vector_has_the_input_width self).
  - reflexivity.
  - vm_compute. reflexivity.
  - intros symbol [<-|[<-|[]]]; exists []; (split; [vm_compute; reflexivity|discriminate]).
Defined.

(** ** The stream names *)

Lemma take_until_dot_app base rest :
  dotless base ->
  take_until_dot (String.append base rest) = String.append base (take_until_dot rest).
Proof.
  unfold dotless. induction base as [|ch base IH]; intros Hdot; [reflexivity|].
  change (String.append (String ch base) rest) with (String ch (String.append base rest)).
  change (take_until_dot (String ch (String.append base rest)))
    with (if Ascii.eqb ch "." then EmptyString
          else String ch (take_until_dot (String.append base rest))).
  destruct (Ascii.eqb ch ".") eqn:Hch.
  - apply Ascii.eqb_eq in Hch. subst ch. exfalso. apply Hdot. left. reflexivity.
  - rewrite IH; [reflexivity|]. intros Hin. apply Hdot. right. exact Hin.
Qed.

Lemma take_until_dot_symbol base rest :
  dotless base ->
  rest = EmptyString \/ (exists tail, rest = String "." tail) ->
  take_until_dot (String.append base rest) = base.
Proof.
  intros Hdot Hrest. rewrite (take_until_dot_app _ _ Hdot).
  assert (take_until_dot rest = EmptyString) as ->.
  { destruct Hrest as [->|[tail ->]]; reflexivity. }
  clear. induction base as [|ch base IH]; [reflexivity|].
  change (String ch (String.append base EmptyString) = String ch base). rewrite IH. reflexivity.
Qed.

Lemma parse_trade symbol data :
  parseAlpacaWebSocketMessage
    (AlpacaMessage.stream (Some (String.append "T." symbol)) (Some data))
  = Some (MarketData.mk (take_until_dot symbol) (AlpacaMessage.p data)
            (AlpacaMessage.t data) 0 0).
Proof. destruct symbol; reflexivity. Qed.

Lemma parse_bar symbol data :
  parseAlpacaWebSocketMessage
    (AlpacaMessage.stream (Some (String.append "B." symbol)) (Some data))
  = Some (MarketData.mk (take_until_dot symbol) (AlpacaMessage.c data)
            (AlpacaMessage.t data) 0 0).
Proof. destruct symbol; reflexivity. Qed.

Lemma parse_quote symbol data :
  parseAlpacaWebSocketMessage
    (AlpacaMessage.stream (Some (String.append "Q." symbol)) (Some data))
  = None.
Proof. destruct symbol; reflexivity. Qed.

(** X24.  The streams a subscription names parse back to their symbols.
    For every subscribed symbol the payload names a trade stream, a bar
    stream and a quote stream; a message of the trade stream is a tick at
    the trade price [p], one of the bar stream a tick at the closing price
    [c], each stamped with the message's time, and a message of the quote
    stream is no tick.  The tick's symbol is the subscribed one up to its
    first dot: a symbol with no dot comes back whole, a dotted one is cut. *)
Theorem subscribed_streams_parse_back alpaca streams base rest data :
  dotless base ->
  rest = EmptyString \/ (exists tail, rest = String "." tail) ->
  In (String.append base rest) streams ->
  let symbol := String.append base rest in
  let payload := AlpacaClient_getWebSocketSubscribePayload alpaca streams in
  let tick price := Some (MarketData.mk base price (AlpacaMessage.t data) 0 0) in
  let parse name :=
    parseAlpacaWebSocketMessage (AlpacaMessage.stream (Some name) (Some data)) in
  (In (String.append "T." symbol) (SubscribePayload.trades payload)
   /\ parse (String.append "T." symbol) = tick (AlpacaMessage.p data))
  /\ (In (String.append "B." symbol) (SubscribePayload.bars payload)
      /\ parse (String.append "B." symbol) = tick (AlpacaMessage.c data))
  /\ (In (String.append "Q." symbol) (SubscribePayload.quotes payload)
      /\ parse (String.append "Q." symbol) = None).
Proof.
  intros Hdot Hrest Hin symbol payload tick parse.
  pose proof (take_until_dot_symbol base rest Hdot Hrest) as Hsymbol.
  split; [split | split; split].
  - apply (in_map (fun symbol => String.append "T." symbol)), Hin.
  - unfold parse, tick, symbol. rewrite parse_trade, Hsymbol. reflexivity.
  - apply (in_map (fun symbol => String.append "B." symbol)), Hin.
  - unfold parse, tick, symbol. rewrite parse_bar, Hsymbol. reflexivity.
  - apply (in_map (fun symbol => String.append "Q." symbol)), Hin.
  - apply parse_quote.
Qed.

(** Subscribed to BTCUSD and to BRK.B: the ticks are for BTCUSD and BRK. *)
Lemma subscribed_streams_parse_back_witness :
  let alpaca := AlpacaClient.new "PK-DEMO" "SK-DEMO" true in
  let data := AlpacaMessage.mkPayload 101 100 5 in
  parseAlpacaWebSocketMessage (AlpacaMessage.stream (Some "T.BTCUSD") (Some data))
  = Some (MarketData.mk "BTCUSD" 100 5 0 0)
  /\ parseAlpacaWebSocketMessage (AlpacaMessage.stream (Some "B.BRK.B") (Some data))
     = Some (MarketData.mk "BRK" 101 5 0 0).
Proof.
  intros alpaca data. split.
  - refine (proj2 (proj1
      (subscribed_streams_parse_back alpaca ["BTCUSD"; "BRK.B"] "BTCUSD" EmptyString data
         _ _ _))).
    + unfold dotless. cbn. intros H. repeat (destruct H as [H|H]; [discriminate H|]). exact H.
    + left. reflexivity.
    + left. reflexivity.
  - refine (proj2 (proj1 (proj2
      (subscribed_streams_parse_back alpaca ["BTCUSD"; "BRK.B"] "BRK" ".B" data _ _ _)))).
    + unfold dotless. cbn. intros H. repeat (destruct H as [H|H]; [discriminate H|]). exact H.
    + right. eexists. reflexivity.
    + right. left. reflexivity.
Defined.

(** ** The replay buffer *)

Section ReplayBufferFacts.
Context {Tensor : Type}.
Implicit Types (self : ReplayBuffer.t Tensor) (entries : list (ReplayBuffer.entry Tensor)).

Lemma ReplayBuffer_add_entry self x :
  ReplayBuffer.add self (ReplayBuffer.state x) (ReplayBuffer.action x)
    (ReplayBuffer.reward x) (ReplayBuffer.nextState x) (ReplayBuffer.done x)
  = let buffer := ReplayBuffer.buffer self ++ [x] in
    ReplayBuffer.mk
      (if (ReplayBuffer.maxSize self <? length buffer)%nat then tail buffer else buffer)
      (ReplayBuffer.maxSize self).
Proof.
  unfold ReplayBuffer.add. destruct x as [state action reward nextState done].
  cbn [ReplayBuffer.state ReplayBuffer.action ReplayBuffer.reward ReplayBuffer.nextState
       ReplayBuffer.done].
  cbv zeta. destruct (_ <? _)%nat; reflexivity.
Qed.

Lemma ReplayBuffer_add_all_spec entries self :
  length (ReplayBuffer.buffer self) <= ReplayBuffer.maxSize self ->
  let all := ReplayBuffer.buffer self ++ entries in
  ReplayBuffer_add_all self entries
  = ReplayBuffer.mk (drop (length all - ReplayBuffer.maxSize self) all)
      (ReplayBuffer.maxSize self).
Proof.
  induction entries as [|x entries IH] in self |- *; intros Hsize all.
  - unfold all. rewrite app_nil_r.
    replace (_ - _) with 0 by lia. destruct self; reflexivity.
  - change (ReplayBuffer_add_all self (x :: entries))
      with (ReplayBuffer_add_all
              (ReplayBuffer.add self (ReplayBuffer.state x) (ReplayBuffer.action x)
                 (ReplayBuffer.reward x) (ReplayBuffer.nextState x) (ReplayBuffer.done x))
              entries).
    rewrite ReplayBuffer_add_entry. cbv zeta.
    destruct self as [buffer maxSize]. cbn [ReplayBuffer.buffer ReplayBuffer.maxSize] in *.
    rewrite length_app. cbn [length].
    destruct (maxSize <? length buffer + 1)%nat eqn:Hfull.
    + apply Nat.ltb_lt in Hfull. assert (length buffer = maxSize) as Hlen by lia.
      rewrite IH; cbn [ReplayBuffer.buffer ReplayBuffer.maxSize].
      2: { destruct buffer; cbn in *; [lia|]. rewrite length_app. cbn. lia. }
      f_equal. unfold all.
      assert (tail (buffer ++ [x]) ++ entries = drop 1 (buffer ++ x :: entries)) as ->.
      { destruct buffer; [reflexivity|]. cbn. rewrite drop_0, <- app_assoc. reflexivity. }
      rewrite drop_drop. f_equal. rewrite length_drop, !length_app. cbn [length]. lia.
    + apply Nat.ltb_ge in Hfull.
      rewrite IH; cbn [ReplayBuffer.buffer ReplayBuffer.maxSize].
      2: { rewrite length_app. cbn. lia. }
      unfold all. rewrite <- app_assoc. reflexivity.
Qed.
End ReplayBufferFacts.

(** X25.  The replay buffer is a bounded queue: after any experiences are
    added to a new buffer, it holds the latest [maxSize] of them in the order
    they came (all of them while they are fewer), so its size never exceeds
    [maxSize]; [clear] empties it and keeps the bound. *)
Theorem replay_buffer_keeps_the_latest {Tensor} maxSize
    (entries : list (ReplayBuffer.entry Tensor)) :
  let self := ReplayBuffer_add_all (ReplayBuffer.new maxSize) entries in
  ReplayBuffer.buffer self = drop (length entries - maxSize) entries
  /\ ReplayBuffer.size self = Nat.min (length entries) maxSize
  /\ ReplayBuffer.maxSize self = maxSize
  /\ ReplayBuffer.clear self = ReplayBuffer.new maxSize.
Proof.
  intros self. unfold self.
  rewrite (ReplayBuffer_add_all_spec entries (ReplayBuffer.new maxSize)).
  2: { cbn. lia. }
  cbn [ReplayBuffer.new ReplayBuffer.buffer ReplayBuffer.maxSize app].
  unfold ReplayBuffer.size, ReplayBuffer.clear.
  cbn [ReplayBuffer.buffer ReplayBuffer.maxSize].
  split; [reflexivity|]. split; [|split; reflexivity].
  rewrite length_drop. lia.
Qed.

(** ** The rule-based strategies *)

Lemma MeanReversion_answers self now symbol data historicalData :
  match MeanReversionStrategy.analyze self now symbol data historicalData with
  | Ok signal =>
      StrategySignal.symbol signal = symbol /\ StrategySignal.timestamp signal = now
      /\ (data = [] -> insufficient (MeanReversionStrategy.lookbackPeriod self) historicalData)
  | Throw error =>
      error = TypeError_price /\ data = []
      /\ ~ insufficient (MeanReversionStrategy.lookbackPeriod self) historicalData
  end.
Proof.
  unfold MeanReversionStrategy.analyze, insufficient.
  destruct historicalData as [history|]; [|cbn; auto].
  destruct (Z.of_nat (length history) <? _)%Z eqn:Hshort.
  - cbn. apply Z.ltb_lt in Hshort. auto.
  - apply Z.ltb_ge in Hshort. destruct (last data) as [current|] eqn:Hlast.
    + repeat case_match; simplify_eq; cbn; (split; [reflexivity|split; [reflexivity|]]);
        intros ->; discriminate.
    + apply last_None in Hlast. split; [reflexivity|]. split; [exact Hlast|]. lia.
Qed.

Lemma Momentum_answers self now symbol data historicalData :
  (0 < MomentumStrategy.lookbackPeriod self)%Z ->
  match MomentumStrategy.analyze self now symbol data historicalData with
  | Ok signal =>
      StrategySignal.symbol signal = symbol /\ StrategySignal.timestamp signal = now
      /\ (data = [] -> insufficient (MomentumStrategy.lookbackPeriod self) historicalData)
  | Throw error =>
      error = TypeError_price /\ data = []
      /\ ~ insufficient (MomentumStrategy.lookbackPeriod self) historicalData
  end.
Proof.
  intros Hpositive. unfold MomentumStrategy.analyze, insufficient.
  destruct historicalData as [history|]; [|cbn; auto].
  destruct (Z.of_nat (length history) <? _)%Z eqn:Hshort.
  - cbn. apply Z.ltb_lt in Hshort. auto.
  - apply Z.ltb_ge in Hshort. destruct (last data) as [current|] eqn:Hlast.
    + destruct (history !! _) as [past|] eqn:Hpast.
      * repeat case_match; simplify_eq; cbn; (split; [reflexivity|split; [reflexivity|]]);
          intros ->; discriminate.
      * apply lookup_ge_None in Hpast. lia.
    + apply last_None in Hlast. split; [reflexivity|]. split; [exact Hlast|]. lia.
Qed.

Lemma PPO_answers self now symbol data historicalData :
  exists signal,
    PPOStrategy.analyze self now symbol data historicalData = Ok signal
    /\ StrategySignal.symbol signal = symbol /\ StrategySignal.timestamp signal = now.
Proof.
  unfold PPOStrategy.analyze.
  destruct historicalData as [history|]; [|eexists; repeat split].
  repeat case_match; simplify_eq; eexists; repeat split.
Qed.

Lemma ReinforcementLearning_answers self now symbol data historicalData :
  exists signal,
    ReinforcementLearningStrategy.analyze self now symbol data historicalData = Ok signal
    /\ StrategySignal.symbol signal = symbol /\ StrategySignal.timestamp signal = now.
Proof.
  unfold ReinforcementLearningStrategy.analyze.
  repeat case_match; simplify_eq; eexists; repeat split.
Qed.

Lemma createStrategy_cases type :
  (type = "momentum" /\ createStrategy type = Strategy_of MomentumStrategy.new)
  \/ (type = "ppo" /\ createStrategy type = Strategy_of PPOStrategy.new)
  \/ (type = "reinforcement"
      /\ createStrategy type = Strategy_of ReinforcementLearningStrategy.new)
  \/ (selects_default type /\ createStrategy type = Strategy_of MeanReversionStrategy.new).
Proof.
  unfold createStrategy, selects_default.
  destruct (String.eqb type "mean_reversion") eqn:H1.
  { apply String.eqb_eq in H1. subst type. do 3 right. repeat split; discriminate. }
  destruct (String.eqb type "momentum") eqn:H2.
  { apply String.eqb_eq in H2. auto. }
  destruct (String.eqb type "ppo") eqn:H3.
  { apply String.eqb_eq in H3. auto. }
  destruct (String.eqb type "reinforcement") eqn:H4.
  { apply String.eqb_eq in H4. auto 6. }
  apply String.eqb_neq in H2, H3, H4. auto 10.
Qed.

(** X26.  Every strategy the factory builds answers for the symbol it was
    asked about, with the time of the call.  The only exception it can throw
    is the TypeError of reading the price of the latest tick, and it does so
    exactly when there is no tick ([data] is empty) and the strategy gets as
    far as reading it: the mean reversion (also the default) with its 14
    points of history, the momentum strategy with its 10.  The oscillator
    and the placeholder learning strategy never throw. *)
Theorem strategies_throw_only_without_a_tick type now symbol data historicalData :
  match Strategy_analyze (createStrategy type) now symbol data historicalData with
  | Ok signal =>
      StrategySignal.symbol signal = symbol /\ StrategySignal.timestamp signal = now
      /\ ~ (data = [] /\ needs_a_tick type historicalData)
  | Throw error =>
      error = TypeError_price /\ data = [] /\ needs_a_tick type historicalData
  end.
Proof.
  unfold needs_a_tick, selects_default.
  destruct (createStrategy_cases type)
    as [[-> ->]|[[-> ->]|[[-> ->]|[Hdefault ->]]]]; cbn [Strategy_analyze analyze].
  - pose proof (Momentum_answers MomentumStrategy.new now symbol data historicalData
                  eq_refl) as H.
    unfold Momentum_strategy, analyze.
    destruct (MomentumStrategy.analyze _ _ _ _ _) as [signal|error];
      destruct H as (H1 & H2 & H3); (split; [exact H1|]).
    + split; [exact H2|]. intros (Hdata & history & -> & [[_ Hlen]|[[Hno _] _]]).
      * specialize (H3 Hdata). cbn in H3. lia.
      * apply Hno. reflexivity.
    + split; [exact H2|]. unfold insufficient in H3.
      destruct historicalData as [history|]; [|tauto].
      exists history. split; [reflexivity|]. left. split; [reflexivity|]. cbn in H3. lia.
  - destruct (PPO_answers PPOStrategy.new now symbol data historicalData)
      as (signal & Hrun & H1 & H2).
    unfold PPO_strategy, analyze. rewrite Hrun. split; [exact H1|]. split; [exact H2|].
    intros (_ & history & _ & [[Hno _]|[(_ & Hno & _) _]]); [discriminate|].
    apply Hno. reflexivity.
  - destruct (ReinforcementLearning_answers ReinforcementLearningStrategy.new now symbol
                data historicalData) as (signal & Hrun & H1 & H2).
    unfold ReinforcementLearning_strategy, analyze. rewrite Hrun.
    split; [exact H1|]. split; [exact H2|].
    intros (_ & history & _ & [[Hno _]|[(_ & _ & Hno) _]]); [discriminate|].
    apply Hno. reflexivity.
  - pose proof (MeanReversion_answers MeanReversionStrategy.new now symbol data
                  historicalData) as H.
    unfold MeanReversion_strategy, analyze.
    destruct (MeanReversionStrategy.analyze _ _ _ _ _) as [signal|error];
      destruct H as (H1 & H2 & H3); (split; [exact H1|]).
    + split; [exact H2|]. intros (Hdata & history & -> & [[-> _]|[_ Hlen]]).
      * destruct Hdefault as [Hno _]. apply Hno. reflexivity.
      * specialize (H3 Hdata). cbn in H3. lia.
    + split; [exact H2|]. unfold insufficient in H3.
      destruct historicalData as [history|]; [|tauto].
      exists history. split; [reflexivity|]. right. split; [exact Hdefault|].
      cbn in H3. lia.
Qed.

(** ** The trend filter of the mean reversion *)

Lemma ltb_undefined_r (x : float) : (x <? JS.undefined)%float = false.
Proof.
  rewrite FloatAxioms.ltb_spec. change (Prim2SF JS.undefined) with S754_nan.
  destruct (Prim2SF x); reflexivity.
Qed.

Lemma at_index_short (l : list float) (i : nat) :
  length l <= i -> JS.at_index l (Z.of_nat i) = JS.undefined.
Proof.
  intros Hshort. unfold JS.at_index.
  destruct (Z.of_nat i <? 0)%Z; [reflexivity|].
  rewrite Nat2Z.id. apply nth_overflow. exact Hshort.
Qed.

Lemma at_index_lookup (history : list MarketData.t) (i : nat) point :
  history !! i = Some point ->
  JS.at_index (map MarketData.price history) (Z.of_nat i) = MarketData.price point.
Proof.
  intros Hpoint. unfold JS.at_index.
  destruct (Z.of_nat i <? 0)%Z eqn:Hneg; [apply Z.ltb_lt in Hneg; lia|].
  rewrite Nat2Z.id. apply nth_lookup_Some.
  rewrite list_lookup_fmap, Hpoint. reflexivity.
Qed.

(** [recentPrices[2] > recentPrices[0]] over [prices.slice(-3)]: the latest
    price of the history against the one two points earlier, and false when
    the history has fewer than three points. *)
Lemma isUptrend_spec (history : list MarketData.t) :
  let recentPrices := JS.slice_last 3 (map MarketData.price history) in
  let isUptrend := (JS.at_index recentPrices 0 <? JS.at_index recentPrices 2)%float in
  (isUptrend = true -> 3 <= length history)
  /\ (forall older latest,
        3 <= length history ->
        history !! (length history - 3) = Some older ->
        last history = Some latest ->
        isUptrend = (MarketData.price older <? MarketData.price latest)%float).
Proof.
  intros recentPrices isUptrend.
  assert (recentPrices = map MarketData.price (drop (length history - 3) history))
    as Hrecent.
  { unfold recentPrices, JS.slice_last. cbn [Nat.eqb].
    rewrite length_map. symmetry. apply fmap_drop. }
  assert (length recentPrices = Nat.min 3 (length history)) as Hlength.
  { rewrite Hrecent, length_map, length_drop. lia. }
  split.
  - intros Hup. destruct (le_lt_dec 3 (length history)) as [|Hshort]; [assumption|].
    exfalso. unfold isUptrend in Hup.
    change 2%Z with (Z.of_nat 2) in Hup.
    rewrite (at_index_short recentPrices 2), ltb_undefined_r in Hup by lia.
    discriminate.
  - intros older latest Hlong Holder Hlatest. unfold isUptrend. rewrite Hrecent.
    change 0%Z with (Z.of_nat 0). change 2%Z with (Z.of_nat 2).
    rewrite (at_index_lookup _ 0 older), (at_index_lookup _ 2 latest); [reflexivity| |].
    + rewrite lookup_drop. rewrite last_lookup in Hlatest.
      rewrite <- Hlatest. f_equal. lia.
    + rewrite lookup_drop. rewrite <- Holder. f_equal. lia.
Qed.

(** X27.  With its trend filter on, the mean reversion trades with the
    recent trend only.  A buy needs at least three points of history with the
    latest price above the one two points earlier; a sell is never given when
    the latest price is above it; and a hold carries confidence 0. *)
Theorem mean_reversion_follows_the_trend self now symbol data history signal :
  MeanReversionStrategy.trendFilter self = true ->
  MeanReversionStrategy.analyze self now symbol data (Some history) = Ok signal ->
  match StrategySignal.action signal with
  | buy =>
      3 <= length history
      /\ exists older latest,
           history !! (length history - 3) = Some older
           /\ last history = Some latest
           /\ (MarketData.price older <? MarketData.price latest)%float = true
  | sell =>
      forall older latest,
        3 <= length history ->
        history !! (length history - 3) = Some older ->
        last history = Some latest ->
        (MarketData.price older <? MarketData.price latest)%float = false
  | hold => StrategySignal.confidence signal = 0%float
  end.
Proof.
  intros Hfilter Hrun. unfold MeanReversionStrategy.analyze in Hrun.
  destruct (isUptrend_spec history) as [Hlong Hup].
  rewrite Hfilter in Hrun.
  destruct (Z.of_nat (length history) <? _)%Z; [simplify_eq; reflexivity|].
  destruct (last data) as [current|]; [|discriminate].
  cbv zeta in Hlong, Hup.
  destruct (JS.at_index _ 0 <? JS.at_index _ 2)%float eqn:Htrend.
  - (* uptrend: a sell is suppressed *)
    specialize (Hlong eq_refl).
    repeat case_match; simplify_eq; cbn in *; simplify_eq; try reflexivity.
    split; [exact Hlong|].
    destruct (history !! (length history - 3)) as [older|] eqn:Holder.
    2: { apply lookup_ge_None in Holder. lia. }
    destruct (last history) as [latest|] eqn:Hlatest.
    2: { apply last_None in Hlatest. subst history. cbn in Hlong. lia. }
    exists older, latest. repeat split. symmetry. apply Hup; auto.
  - (* no uptrend: a buy is suppressed *)
    repeat case_match; simplify_eq; cbn in *; simplify_eq; try reflexivity.
    intros older latest Hlen Holder Hlatest. symmetry. apply Hup; auto.
Qed.

(** Fourteen points around 100 that end in a rise from 99 to 100, and a
    tick at 90, far below the lower band: a buy with full confidence. *)
Lemma mean_reversion_follows_the_trend_witness :
  let point price := MarketData.mk "BTCUSD" price 0 0 0 in
  let history := map point (replicate 11 100 ++ [99; 99.5; 100])%float in
  exists signal,
    MeanReversionStrategy.analyze MeanReversionStrategy.new 7 "BTCUSD" [point 90%float]
      (Some history) = Ok signal
    /\ StrategySignal.action signal = buy
    /\ StrategySignal.confidence signal = 100%float
    /\ 3 <= length history.
Proof.
  intros point history.
  pose (signal := StrategySignal.mk "BTCUSD" buy 100 7).
  assert (MeanReversionStrategy.analyze MeanReversionStrategy.new 7 "BTCUSD"
            [point 90%float] (Some history) = Ok signal) as Hrun
    by (vm_compute; reflexivity).
  exists signal. split; [exact Hrun|]. split; [reflexivity|]. split; [reflexivity|].
  exact (proj1 (mean_reversion_follows_the_trend MeanReversionStrategy.new 7 "BTCUSD"
                  [point 90%float] history signal eq_refl Hrun)).
Defined.
